(** * The user-interface tool of the MCP-Link server (ragtag/tools/user.py)

    A shallow embedding of [src/user.py]: the capability gate, the schema
    validation, the operation handlers and the request/reply exchange with
    the presentation thread.

    Conventions of the embedding.
    - Python values are the inductive [pyval]; a [dict] with string keys is
      an association list in insertion order, looked up by its first
      binding.
    - An exception is the [Raise] constructor of [exc], carrying [str(e)].
    - The process state a call can see or change is the record [World]:
      the [sys.modules] entry ['friday_ui_queue'], the engine of the
      [__main__] module, the reply queues read so far.
    - What the module imports from outside (the token of
      [easy_mcp.server.get_tool_token], [json.dumps], [uuid], [time], the
      lock behind [queue.Queue.get], the presentation thread itself) is the
      class [Host]; what the standard library does with these under every
      installation is written out ([queue_get], [dumps]).
    - [MCPLogger.log] only writes to a log and is left out. *)

From Stdlib Require Import String Ascii List ZArith Bool Lia DecimalString.
From Stdlib Require Import PrimFloat.
Import ListNotations.
Local Open Scope list_scope.
Local Open Scope string_scope.

(** ** Python values *)

Module Py.

#[warnings="-register-all"]
Inductive pyval : Type :=
| PNone
| PBool (b : bool)
| PInt (z : Z)
| PFloat (f : float)
| PStr (s : string)
| PList (l : list pyval)
| PDict (d : list (string * pyval)).

Definition pydict : Type := list (string * pyval).

(** [str(e)] of a raised exception, or a normal result. *)
Inductive exc (A : Type) : Type :=
| Ok (a : A)
| Raise (msg : string).
Arguments Ok {A} a.
Arguments Raise {A} msg.

(** [bool(v)]: the truth value the [if v] and [not v] tests use. *)
Definition truthy (v : pyval) : bool :=
  match v with
  | PNone => false
  | PBool b => b
  | PInt z => negb (z =? 0)%Z
  | PFloat f => negb (PrimFloat.eqb f PrimFloat.zero)
  | PStr s => negb (s =? "")
  | PList l => match l with [] => false | _ => true end
  | PDict d => match d with [] => false | _ => true end
  end.

(** [type(v).__name__] *)
Definition type_name (v : pyval) : string :=
  match v with
  | PNone => "NoneType"
  | PBool _ => "bool"
  | PInt _ => "int"
  | PFloat _ => "float"
  | PStr _ => "str"
  | PList _ => "list"
  | PDict _ => "dict"
  end.

(** [isinstance(v, str)], [isinstance(v, dict)], [isinstance(v, list)],
    [isinstance(v, bool)] and [isinstance(v, int)]; [bool] is a subclass
    of [int]. *)
Definition is_str (v : pyval) : bool :=
  match v with PStr _ => true | _ => false end.
Definition is_dict (v : pyval) : bool :=
  match v with PDict _ => true | _ => false end.
Definition is_list (v : pyval) : bool :=
  match v with PList _ => true | _ => false end.
Definition is_bool (v : pyval) : bool :=
  match v with PBool _ => true | _ => false end.
Definition is_int (v : pyval) : bool :=
  match v with PInt _ | PBool _ => true | _ => false end.

(** [None], a [bool], a [float] or a [str]: the values of the fixed bodies
    that the handlers serialise. *)
Definition json_scalar (v : pyval) : bool :=
  match v with
  | PNone | PBool _ | PFloat _ | PStr _ => true
  | _ => false
  end.

(** The integer an [int] instance stands for ([True] is 1, [False] is 0). *)
Definition int_value (v : pyval) : option Z :=
  match v with
  | PInt z => Some z
  | PBool true => Some 1%Z
  | PBool false => Some 0%Z
  | _ => None
  end.

(** [v == s] for a string [s]. *)
Definition eq_str (v : pyval) (s : string) : bool :=
  match v with PStr t => t =? s | _ => false end.

(** [v in l] for a list of strings. *)
Definition in_strs (v : pyval) (l : list string) : bool :=
  match v with PStr t => existsb (String.eqb t) l | _ => false end.

(** *** Dictionaries *)

Fixpoint dict_get (d : pydict) (k : string) : option pyval :=
  match d with
  | [] => None
  | (k', v) :: rest => if k' =? k then Some v else dict_get rest k
  end.

(** [d.get(k)] *)
Definition get (d : pydict) (k : string) : pyval :=
  match dict_get d k with Some v => v | None => PNone end.

(** [d.get(k, default)] *)
Definition get_default (d : pydict) (k : string) (default : pyval) : pyval :=
  match dict_get d k with Some v => v | None => default end.

(** [k in d] *)
Definition dict_mem (d : pydict) (k : string) : bool :=
  match dict_get d k with Some _ => true | None => false end.

(** [d[k] = v]: the binding keeps its place when the key exists, and goes
    last otherwise. *)
Fixpoint dict_set (d : pydict) (k : string) (v : pyval) : pydict :=
  match d with
  | [] => [(k, v)]
  | (k', v') :: rest =>
      if k' =? k then (k, v) :: rest else (k', v') :: dict_set rest k v
  end.

(** [d.pop(k, None)], the dictionary that is left. *)
Definition dict_pop (d : pydict) (k : string) : pydict :=
  filter (fun kv => negb (fst kv =? k)) d.

(** [set(d.keys())], without repetition. *)
Definition dict_keys (d : pydict) : list string :=
  nodup string_dec (map fst d).

(** *** Strings *)

(** [s[1:]] *)
Definition drop_first (s : string) : string :=
  match s with EmptyString => EmptyString | String _ r => r end.

(** The two sides of the first occurrence of the character [c]. *)
Fixpoint cut_at (c : ascii) (s : string) : option (string * string) :=
  match s with
  | EmptyString => None
  | String a r =>
      if Ascii.eqb a c then Some (EmptyString, r)
      else match cut_at c r with
           | Some (x, y) => Some (String a x, y)
           | None => None
           end
  end.

(** [s.split(c, 1)] for a one-character separator. *)
Definition split_once (c : ascii) (s : string) : list string :=
  match cut_at c s with
  | Some (x, y) => [x; y]
  | None => [s]
  end.

(** [c in s] for a character. *)
Fixpoint has_char (c : ascii) (s : string) : bool :=
  match s with
  | EmptyString => false
  | String a r => Ascii.eqb a c || has_char c r
  end.

(** [sorted(l)] on strings. *)
Fixpoint insert_sorted (x : string) (l : list string) : list string :=
  match l with
  | [] => [x]
  | y :: r => if String.leb x y then x :: l else y :: insert_sorted x r
  end.

Definition sorted (l : list string) : list string :=
  fold_right insert_sorted [] l.

(** [', '.join(l)] *)
Definition join_comma (l : list string) : string := String.concat ", " l.

(** [str(z)] for an integer. *)
Definition str_of_Z (z : Z) : string := NilZero.string_of_int (Z.to_int z).

(** [repr(l)] for a list of strings that need no escaping, as the enum
    lists of the schema are. *)
Definition repr_strs (l : list string) : string :=
  "[" ++ join_comma (map (fun s => "'" ++ s ++ "'") l) ++ "]".

(** Set difference [set(a) - set(b)]. *)
Definition set_minus (a b : list string) : list string :=
  filter (fun x => negb (existsb (String.eqb x) b)) a.

End Py.
Import Py.

(** ** The process state and the outside world *)

(** The dataclass [UIRequest]; the reply queue, created for one request, is
    named by its creation number. *)
Record UIRequest : Type := {
  operation : string;
  data : pydict;
  reply_queue : nat
}.

(** What [sys.modules.get('__main__')], its attribute [engine] and the
    method [_emit_message] of that engine amount to. *)
Inductive engine_presence : Type :=
| NoMainModule
| NoEngine
| NoEmitMethod
| EngineReady.

(** The timeout handed to [reply_queue.get]: an [int], or a [float] when
    the caller of the window helper gave one. *)
Inductive seconds : Type :=
| Whole (z : Z)
| Fractional (f : float).

(** How [reply_queue.get(timeout=...)] ends: with the answer, with
    [queue.Empty], or with another exception, of which [str(e)] is kept. *)
Inductive get_outcome : Type :=
| Got (response : pyval)
| Empty
| GetRaised (msg : string).

Record World : Type := {
  (** [sys.modules.get('friday_ui_queue')]: [None] until the presentation
      thread installs its queue; the requests are in submission order. *)
  friday_ui_queue : option (list UIRequest);
  main_engine : engine_presence;
  (** the messages passed to [engine._emit_message] *)
  emitted : list (string * string);
  (** how many reply queues [queue.Queue()] has made *)
  reply_queues : nat;
  (** the calls [reply_queue.get(timeout=bound)], as (queue, bound) *)
  reply_gets : list (nat * seconds)
}.

Definition with_queue (w : World) (q : list UIRequest) : World :=
  {| friday_ui_queue := Some q; main_engine := main_engine w;
     emitted := emitted w; reply_queues := reply_queues w;
     reply_gets := reply_gets w |}.

Definition with_emitted (w : World) (m : string * string) : World :=
  {| friday_ui_queue := friday_ui_queue w; main_engine := main_engine w;
     emitted := (emitted w ++ [m])%list; reply_queues := reply_queues w;
     reply_gets := reply_gets w |}.

(** [queue.Queue()]: a fresh reply queue. *)
Definition new_reply_queue (w : World) : nat * World :=
  (reply_queues w,
   {| friday_ui_queue := friday_ui_queue w; main_engine := main_engine w;
      emitted := emitted w; reply_queues := S (reply_queues w);
      reply_gets := reply_gets w |}).

(** A call [get(timeout=bound)] with an integer bound, and with a float. *)
Definition with_get (w : World) (g : nat * Z) : World :=
  {| friday_ui_queue := friday_ui_queue w; main_engine := main_engine w;
     emitted := emitted w; reply_queues := reply_queues w;
     reply_gets := (reply_gets w ++ [(fst g, Whole (snd g))])%list |}.

Definition with_get_float (w : World) (g : nat * float) : World :=
  {| friday_ui_queue := friday_ui_queue w; main_engine := main_engine w;
     emitted := emitted w; reply_queues := reply_queues w;
     reply_gets := (reply_gets w ++ [(fst g, Fractional (snd g))])%list |}.

(** [request_queue.put(r)] on the queue [q] found in the registry. *)
Definition put (w : World) (q : list UIRequest) (r : UIRequest) : World :=
  with_queue w (q ++ [r])%list.

(** The integers that [float(n)] cannot hold: from [2**1024 - 2**970] on. *)
Definition float_overflow : Z := (2 ^ 1024 - 2 ^ 970)%Z.

Class Host : Type := {
  (** [get_tool_token(__file__)] *)
  TOOL_UNLOCK_TOKEN : string;
  (** the text of [TOOLS[0]["readme"]] before and after the token *)
  readme_head : string;
  readme_tail : string;
  (** [json.dumps(v, indent=2)]: the text it returns, and [str(e)] when it
      raises instead (an integer beyond the digit limit of the interpreter,
      a nesting beyond its recursion limit) *)
  json_dumps : pyval -> string;
  json_dumps_error : pyval -> option string;
  (** it serialises every dict whose values are [None], booleans, floats
      and strings *)
  json_dumps_flat :
    forall d : pydict,
      forallb (fun kv => json_scalar (snd kv)) d = true ->
      json_dumps_error (PDict d) = None;
  (** [str(v)] of a float, a list or a dict *)
  py_repr : pyval -> string;
  (** [str(e)] of the exception that slicing a dict raises *)
  dict_slice_error : string;
  (** [str(uuid.uuid4())] and [time.time()] *)
  uuid4 : World -> string;
  time_time : World -> float;
  (** The presentation thread: the answer that is on the reply queue of
      the request just put within [bound] seconds of the call of [get],
      [None] when there is none; with the bound 0, the answer that is
      already there when [get] is called. *)
  reply_queue_get : World -> UIRequest -> Z -> option pyval;
  (** an answer that is there within a bound is there, the same, within a
      longer one *)
  reply_queue_get_mono :
    forall (w : World) (r : UIRequest) (b b' : Z) (v : pyval),
      (0 <= b <= b')%Z ->
      reply_queue_get w r b = Some v -> reply_queue_get w r b' = Some v;
  (** [reply_queue.get(timeout=f)] for a float [f] *)
  reply_queue_get_float : World -> UIRequest -> float -> get_outcome;
  (** [threading.TIMEOUT_MAX] in whole seconds, the longest wait a lock
      accepts (9223372036 on a 64-bit POSIX platform): a float, which no
      platform of CPython puts below 4294967; and [str(e)] of the
      [OverflowError] of a longer wait *)
  TIMEOUT_MAX : Z;
  TIMEOUT_MAX_range : (4294967 <= TIMEOUT_MAX < float_overflow)%Z;
  lock_timeout_error : Z -> string;
  (** [str(e)] when [engine._emit_message(text, level)] raises *)
  emit_message_error : string -> string -> option string;
  (** [_generate_api_key_collection_html], which reads the server
      configuration of [ragtag.shared_config] *)
  _generate_api_key_collection_html : pyval -> pyval -> exc string
}.

(** [Queue.get(block=True, timeout)] of the standard library, for an
    integer timeout: a negative timeout is refused; [time() + timeout]
    raises when the integer is beyond the floats; then, while the queue is
    empty, the condition is waited for, and the lock behind it raises at
    once for a wait above [threading.TIMEOUT_MAX]; an answer that is already
    there is returned without waiting. *)
Definition queue_get `{Host} (w : World) (r : UIRequest) (timeout : Z)
  : get_outcome :=
  if (timeout <? 0)%Z then
    GetRaised "'timeout' must be a non-negative number"
  else if (float_overflow <=? timeout)%Z then
    GetRaised "int too large to convert to float"
  else if match reply_queue_get w r 0 with Some _ => false | None => true end
          && (TIMEOUT_MAX <? timeout)%Z then
    GetRaised (lock_timeout_error timeout)
  else
    match reply_queue_get w r timeout with
    | Some response => Got response
    | None => Empty
    end.

Arguments queue_get : simpl never.

(** [reply_queue.get(timeout=bound)] for the request [r]. *)
Definition reply_get `{Host} (w : World) (r : UIRequest) (bound : seconds)
  : get_outcome * World :=
  match bound with
  | Whole z => (queue_get w r z, with_get w (reply_queue r, z))
  | Fractional f =>
      (reply_queue_get_float w r f, with_get_float w (reply_queue r, f))
  end.

(** ** The parameter schema, [TOOLS[0]["real_parameters"]] *)

Record param_schema : Type := {
  p_type : string;
  p_enum : option (list string);
  p_description : string;
  p_default : option pyval
}.

Definition prop (ty : string) (en : option (list string)) (descr : string)
  (dflt : option pyval) : param_schema :=
  {| p_type := ty; p_enum := en; p_description := descr; p_default := dflt |}.

Definition operations : list string :=
  ["readme"; "show_popup"; "show_dialog"; "test_queue"; "collect_api_key";
   "show_toast"; "send_message"; "check_messages"; "show_dashboard";
   "hide_dashboard"; "get_message_history"; "clear_messages"].

Definition levels : list string := ["info"; "warning"; "error"; "success"].
Definition msg_types : list string :=
  ["question"; "status"; "notification"; "response"].
Definition priorities : list string := ["low"; "normal"; "high"; "critical"].

(** The key ["message"] is written twice in the source; a dict literal
    keeps the place of the first and the value of the second, which has no
    default. *)
Definition properties `{Host} : list (string * param_schema) :=
  [ ("operation", prop "string" (Some operations) "Operation to perform" None);
    ("html", prop "string" None
       "HTML content to display in the popup/dialog window (mutually exclusive with url)" None);
    ("url", prop "string" None
       "URL to load in the window (mutually exclusive with html)" None);
    ("title", prop "string" None
       "Window title (optional, defaults to 'User Interface')"
       (Some (PStr "User Interface")));
    ("width", prop "integer" None
       "Window width in pixels (optional, defaults to 600)" (Some (PInt 600)));
    ("height", prop "integer" None
       "Window height in pixels (optional, defaults to 400)" (Some (PInt 400)));
    ("modal", prop "boolean" None
       "Whether the dialog should be modal (blocks other windows, optional, defaults to true)"
       (Some (PBool true)));
    ("timeout", prop "integer" None
       "Timeout in seconds to wait for user interaction (optional, 0 = no timeout)"
       (Some (PInt 0)));
    ("message", prop "string" None
       "Toast notification message text (used with show_toast operation)" None);
    ("center_on_screen", prop "boolean" None
       "Center window on screen (optional, defaults to true)" (Some (PBool true)));
    ("always_on_top", prop "boolean" None
       "Keep window above other windows (optional, defaults to true)"
       (Some (PBool true)));
    ("bring_to_front", prop "boolean" None
       "Force window to foreground (optional, defaults to true)"
       (Some (PBool true)));
    ("auto_resize", prop "boolean" None
       "Automatically resize window to fit content (optional, defaults to false)"
       (Some (PBool false)));
    ("resizable", prop "boolean" None
       "Allow user to resize the window (optional, defaults to false)"
       (Some (PBool false)));
    ("wait_for_response", prop "boolean" None
       "Wait for user to close window before returning (optional, defaults to true). Set to false for 'fire and forget' mode where the window opens but AI continues immediately."
       (Some (PBool true)));
    ("service_name", prop "string" None
       "Name of the service requiring an API key (used with collect_api_key operation)"
       (Some (PStr "API Service")));
    ("service_url", prop "string" None
       "URL where users can obtain an API key (used with collect_api_key operation)"
       (Some (PStr "")));
    ("level", prop "string" (Some levels)
       "Toast notification level/severity (used with show_toast operation)"
       (Some (PStr "info")));
    ("content", prop "string" None
       "Message content text (used with send_message operation)" None);
    ("msg_type", prop "string" (Some msg_types)
       "Type of message (used with send_message operation)"
       (Some (PStr "status")));
    ("priority", prop "string" (Some priorities)
       "Message priority level (used with send_message operation)"
       (Some (PStr "normal")));
    ("requires_response", prop "boolean" None
       "Whether this message requires a user response (used with send_message operation)"
       (Some (PBool false)));
    ("show_dashboard", prop "boolean" None
       "Show dashboard window if hidden (used with send_message operation)"
       (Some (PBool true)));
    ("mark_as_read", prop "boolean" None
       "Mark retrieved messages as read (used with check_messages operation)"
       (Some (PBool true)));
    ("filter_type", prop "string" None
       "Filter messages by type (used with check_messages operation)" None);
    ("since_timestamp", prop "number" None
       "Only get messages after this timestamp (used with check_messages operation)"
       None);
    ("tool_unlock_token", prop "string" None
       ("Security token, " ++ TOOL_UNLOCK_TOKEN ++
        ", obtained from readme operation, or re-provided any time the AI lost context or gave a wrong token")
       None) ].

Definition required_parameters : list string :=
  ["operation"; "tool_unlock_token"].

(** The schema as the Python value [readme] serialises. *)
Definition schema_value (s : param_schema) : pyval :=
  PDict ([("type", PStr (p_type s))]
         ++ match p_enum s with
            | Some l => [("enum", PList (map PStr l))]
            | None => []
            end
         ++ [("description", PStr (p_description s))]
         ++ match p_default s with
            | Some v => [("default", v)]
            | None => []
            end)%list.

Definition real_parameters `{Host} : pyval :=
  PDict [ ("properties",
           PDict (map (fun kv => (fst kv, schema_value (snd kv))) properties));
          ("required", PList (map PStr required_parameters));
          ("type", PStr "object") ].

(** [TOOLS[0]["readme"]]: the usage text, with the token written in it. *)
Definition readme_text `{Host} : string :=
  readme_head ++ TOOL_UNLOCK_TOKEN ++ readme_tail.

Definition USER_TOOL_VERSION : string := "2025.09.13.009".

(** ** Result envelopes, documentation and validation *)

Definition nl : string := String (ascii_of_nat 10) EmptyString.

(** [{"content": [{"type": "text", "text": text}], "isError": flag}] *)
Definition envelope (text : string) (flag : bool) : pyval :=
  PDict [ ("content", PList [PDict [("type", PStr "text"); ("text", PStr text)]]);
          ("isError", PBool flag) ].

(** [str(v)], as the f-strings of the error messages format a value. *)
Definition py_str `{Host} (v : pyval) : string :=
  match v with
  | PStr s => s
  | PNone => "None"
  | PBool true => "True"
  | PBool false => "False"
  | PInt z => str_of_Z z
  | _ => py_repr v
  end.

(** [readme(with_readme)] *)
Definition readme `{Host} (with_readme : bool) : string :=
  if negb with_readme then ""
  else nl ++ nl ++
       json_dumps (PDict [ ("description", PStr readme_text);
                           ("parameters", real_parameters) ]).

(** [create_error_response(error_msg, with_readme)] *)
Definition create_error_response `{Host} (error_msg : string)
  (with_readme : bool) : pyval :=
  envelope (error_msg ++ readme with_readme) true.

(** [json.dumps(v, indent=2)] as a handler calls it: the text, or the
    exception. *)
Definition dumps `{Host} (v : pyval) : exc string :=
  match json_dumps_error v with
  | Some e => Raise e
  | None => Ok (json_dumps v)
  end.

(** The two lines that end a handler: the success envelope around
    [json.dumps(result, indent=2)] and, when that raises, the error response
    of the enclosing [except Exception as e], made of a prefix and [str(e)],
    without the documentation. *)
Definition dumps_response `{Host} (result : pyval) (prefix : string) : pyval :=
  match dumps result with
  | Ok text => envelope text false
  | Raise e => create_error_response (prefix ++ e) false
  end.

Arguments dumps_response : simpl never.

(** The type test of [validate_parameters] for one declared type; a type
    the chain of tests does not name (["number"]) is not tested. *)
Definition type_error (param_name expected_type : string) (value : pyval)
  : option string :=
  if (expected_type =? "string") && negb (is_str value) then
    Some ("Parameter '" ++ param_name ++ "' must be a string, got "
          ++ type_name value ++ ". Please provide a string value.")
  else if (expected_type =? "object") && negb (is_dict value) then
    Some ("Parameter '" ++ param_name ++ "' must be an object/dictionary, got "
          ++ type_name value ++ ". Please provide a dictionary value.")
  else if (expected_type =? "integer") && negb (is_int value) then
    Some ("Parameter '" ++ param_name ++ "' must be an integer, got "
          ++ type_name value ++ ". Please provide an integer value.")
  else if (expected_type =? "boolean") && negb (is_bool value) then
    Some ("Parameter '" ++ param_name ++ "' must be a boolean, got "
          ++ type_name value ++ ". Please provide true or false.")
  else if (expected_type =? "array") && negb (is_list value) then
    Some ("Parameter '" ++ param_name ++ "' must be an array/list, got "
          ++ type_name value ++ ". Please provide a list value.")
  else None.

(** The enum test of [validate_parameters]. *)
Definition enum_error `{Host} (param_name : string)
  (allowed : option (list string)) (value : pyval) : option string :=
  match allowed with
  | Some allowed_values =>
      if negb (in_strs value allowed_values) then
        Some ("Parameter '" ++ param_name ++ "' must be one of "
              ++ repr_strs allowed_values ++ ", got '" ++ py_str value
              ++ "'. Please use one of the allowed values.")
      else None
  | None => None
  end.

(** The loop [for param_name, param_schema in properties.items()]. *)
Fixpoint validate_loop `{Host} (props : list (string * param_schema))
  (required : list string) (input_param validated : pydict)
  : option string * pydict :=
  match props with
  | [] => (None, validated)
  | (param_name, param_schema) :: rest =>
      match dict_get input_param param_name with
      | Some value =>
          match type_error param_name (p_type param_schema) value with
          | Some e => (Some e, [])
          | None =>
              match enum_error param_name (p_enum param_schema) value with
              | Some e => (Some e, [])
              | None =>
                  validate_loop rest required input_param
                    (dict_set validated param_name value)
              end
          end
      | None =>
          if existsb (String.eqb param_name) required then
            (Some ("Required parameter '" ++ param_name
                   ++ "' is missing. Please provide this required parameter."),
             [])
          else
            match p_default param_schema with
            | Some default_value =>
                validate_loop rest required input_param
                  (dict_set validated param_name default_value)
            | None => validate_loop rest required input_param validated
            end
      end
  end.

(** [validate_parameters(input_param)], over a schema [props] with the
    required names [required0]. *)
Definition validate_against `{Host} (props : list (string * param_schema))
  (required0 : list string) (input_param : pydict) : option string * pydict :=
  let required :=
    if eq_str (get input_param "operation") "readme" then ["operation"]
    else required0 in
  let expected_params := map fst props in
  let provided_params := dict_keys input_param in
  let unexpected_params := set_minus provided_params expected_params in
  match unexpected_params with
  | _ :: _ =>
      (Some ("Unexpected parameters provided: "
             ++ join_comma (sorted unexpected_params)
             ++ ". Expected parameters are: "
             ++ join_comma (sorted expected_params)
             ++ ". Please consult the attached doc."), [])
  | [] =>
      let missing_required := set_minus required provided_params in
      match missing_required with
      | _ :: _ =>
          (Some ("Missing required parameters: "
                 ++ join_comma (sorted missing_required)
                 ++ ". Required parameters are: "
                 ++ join_comma (sorted required)), [])
      | [] => validate_loop props required input_param []
      end
  end.

Definition validate_parameters `{Host} (input_param : pydict)
  : option string * pydict :=
  validate_against properties required_parameters input_param.

(** ** The operation handlers *)

(** The dicts [{"status": "error", "error": msg}] and
    [{"status": "timeout", "error": msg}] that the helpers return. *)
Definition status_error (msg : string) : pyval :=
  PDict [("status", PStr "error"); ("error", PStr msg)].

Definition status_timeout (msg : string) : pyval :=
  PDict [("status", PStr "timeout"); ("error", PStr msg)].

(** The message of the window and queue-test helpers when the registry has
    no request queue. *)
Definition no_queue_qt : string :=
  "No UI request queue available. Ensure friday.py is running with Qt support.".

(** The [UIRequest] of the queue test. *)
Definition test_queue_request `{Host} (w : World) (reply_queue : nat)
  (message : pyval) : UIRequest :=
  {| operation := "test_queue";
     data :=
       [ ("message", message);
         ("timestamp", PFloat (time_time w));
         ("user_tool_version", PStr USER_TOOL_VERSION) ];
     reply_queue := reply_queue |}.

(** [_test_queue_message_passing(message)] *)
Definition _test_queue_message_passing `{Host} (w : World) (message : pyval)
  : pyval * World :=
  match friday_ui_queue w with
  | None =>
      (status_error no_queue_qt, w)
  | Some request_queue =>
      let (reply_queue, w1) := new_reply_queue w in
      let ui_request := test_queue_request w reply_queue message in
      let w2 := put w1 request_queue ui_request in
      let max_wait_time := 10%Z in
      match reply_get w2 ui_request (Whole max_wait_time) with
      | (Got response, w3) => (response, w3)
      | (Empty, w3) =>
          (status_timeout
             ("Queue test timed out after " ++ str_of_Z max_wait_time ++ " seconds"),
           w3)
      | (GetRaised e, w3) =>
          (status_error ("Error in queue test communication: " ++ e), w3)
      end
  end.

(** [test_queue_communication(params)] *)
Definition test_queue_communication `{Host} (w : World) (params : pydict)
  : pyval * World :=
  let message := get_default params "message" (PStr "Hello from user.py") in
  let (result, w') := _test_queue_message_passing w message in
  (dumps_response result "Queue communication test failed: ", w').

(** [max_wait_time = timeout + 5 if timeout > 0 else 65]: an integer for
    an [int] timeout, a float for a positive [float]; a value that is not a
    number raises the [TypeError] of the comparison. *)
Definition max_wait_time (timeout : pyval) : exc seconds :=
  match timeout with
  | PFloat f =>
      Ok (if PrimFloat.ltb PrimFloat.zero f
          then Fractional (PrimFloat.add f 5%float)
          else Whole 65)
  | _ =>
      match int_value timeout with
      | Some t => Ok (Whole (if (0 <? t)%Z then (t + 5)%Z else 65%Z))
      | None =>
          Raise ("'>' not supported between instances of '"
                 ++ type_name timeout ++ "' and 'int'")
      end
  end.

(** The bound as the f-string of the timeout message shows it. *)
Definition seconds_value (bound : seconds) : pyval :=
  match bound with
  | Whole z => PInt z
  | Fractional f => PFloat f
  end.

(** The [UIRequest] of a window: its operation is ["show_popup"] for a
    popup and for a dialog alike, its data the dict [request_data]. *)
Definition window_request (reply_queue : nat)
  (html title width height modal timeout center_on_screen always_on_top
   bring_to_front auto_resize url resizable : pyval) : UIRequest :=
  {| operation := "show_popup";
     data :=
       [ ("html", html); ("url", url); ("title", title); ("width", width);
         ("height", height); ("modal", modal); ("timeout", timeout);
         ("center_on_screen", center_on_screen);
         ("always_on_top", always_on_top);
         ("bring_to_front", bring_to_front);
         ("auto_resize", auto_resize); ("resizable", resizable) ];
     reply_queue := reply_queue |}.

(** The body a window call returns at once in fire-and-forget mode. *)
Definition async_success : pyval :=
  PDict [ ("status", PStr "success");
          ("message",
           PStr "Window opened successfully (async mode - not waiting for user response)");
          ("async", PBool true) ].

(** [_show_webengine_window(html, title, width, height, modal, timeout,
    center_on_screen, always_on_top, bring_to_front, auto_resize, url,
    resizable, wait_for_response)] *)
Definition _show_webengine_window `{Host} (w : World)
  (html title width height modal timeout center_on_screen always_on_top
   bring_to_front auto_resize url resizable wait_for_response : pyval)
  : pyval * World :=
  match friday_ui_queue w with
  | None =>
      (status_error no_queue_qt, w)
  | Some request_queue =>
      let (reply_queue, w1) := new_reply_queue w in
      let ui_request :=
        window_request reply_queue html title width height modal timeout
          center_on_screen always_on_top bring_to_front auto_resize url
          resizable in
      let w2 := put w1 request_queue ui_request in
      if negb (truthy wait_for_response) then
        (async_success, w2)
      else
        match max_wait_time timeout with
        | Raise e => (status_error ("Error in UI communication: " ++ e), w2)
        | Ok bound =>
            match reply_get w2 ui_request bound with
            | (Got response, w3) => (response, w3)
            | (Empty, w3) =>
                (status_timeout
                   ("UI request timed out after " ++ py_str (seconds_value bound)
                    ++ " seconds"),
                 w3)
            | (GetRaised e, w3) =>
                (status_error ("Error in UI communication: " ++ e), w3)
            end
        end
  end.

(** [not isinstance(v, int) or v <= 0] and [... or v < 0] *)
Definition not_positive_int (v : pyval) : bool :=
  match int_value v with Some z => (z <=? 0)%Z | None => true end.

Definition not_nonnegative_int (v : pyval) : bool :=
  match int_value v with Some z => (z <? 0)%Z | None => true end.

(** The error response of a parameter that is not a [bool]. *)
Definition must_be_boolean `{Host} (name : string) (v : pyval) : pyval :=
  create_error_response
    ("Parameter '" ++ name ++ "' must be a boolean, got " ++ type_name v ++ ".")
    false.

(** The checks [show_html_window] makes on its parameters before it shows
    anything: the error response of the first that fails. *)
Definition window_param_error `{Host} (params : pydict) : option pyval :=
  let html := get params "html" in
  let url := get params "url" in
  if negb (truthy html) && negb (truthy url) then
    Some (create_error_response
            "Missing required parameter: must provide either 'html' or 'url'" true)
  else if truthy html && truthy url then
    Some (create_error_response
            "Cannot specify both 'html' and 'url' - choose one" true)
  else if truthy html && negb (is_str html) then
    Some (create_error_response
            ("Parameter 'html' must be a string, got " ++ type_name html
             ++ ". Please provide HTML content as a string.") true)
  else if truthy url && negb (is_str url) then
    Some (create_error_response
            ("Parameter 'url' must be a string, got " ++ type_name url ++ ".")
            true)
  else
    let title := get_default params "title" (PStr "User Interface") in
    let width := get_default params "width" (PInt 600) in
    let height := get_default params "height" (PInt 400) in
    let resizable := get_default params "resizable" (PBool false) in
    let modal := get_default params "modal" (PBool true) in
    let timeout := get_default params "timeout" (PInt 0) in
    let center_on_screen := get_default params "center_on_screen" (PBool true) in
    let always_on_top := get_default params "always_on_top" (PBool true) in
    let bring_to_front := get_default params "bring_to_front" (PBool true) in
    let auto_resize := get_default params "auto_resize" (PBool false) in
    let wait_for_response := get_default params "wait_for_response" (PBool true) in
    if negb (is_str title) then
      Some (create_error_response
              ("Parameter 'title' must be a string, got " ++ type_name title
               ++ ".") false)
    else if not_positive_int width then
      Some (create_error_response
              ("Parameter 'width' must be a positive integer, got "
               ++ py_str width ++ ".") false)
    else if not_positive_int height then
      Some (create_error_response
              ("Parameter 'height' must be a positive integer, got "
               ++ py_str height ++ ".") false)
    else if negb (is_bool modal) then Some (must_be_boolean "modal" modal)
    else if not_nonnegative_int timeout then
      Some (create_error_response
              ("Parameter 'timeout' must be a non-negative integer, got "
               ++ py_str timeout ++ ".") false)
    else if negb (is_bool center_on_screen) then
      Some (must_be_boolean "center_on_screen" center_on_screen)
    else if negb (is_bool always_on_top) then
      Some (must_be_boolean "always_on_top" always_on_top)
    else if negb (is_bool bring_to_front) then
      Some (must_be_boolean "bring_to_front" bring_to_front)
    else if negb (is_bool auto_resize) then
      Some (must_be_boolean "auto_resize" auto_resize)
    else if negb (is_bool resizable) then
      Some (must_be_boolean "resizable" resizable)
    else if negb (is_bool wait_for_response) then
      Some (must_be_boolean "wait_for_response" wait_for_response)
    else None.

(** [show_html_window(params)]: the checks, then the window. *)
Definition show_html_window `{Host} (w : World) (params : pydict)
  : pyval * World :=
  match window_param_error params with
  | Some error_response => (error_response, w)
  | None =>
      let (result, w') :=
        _show_webengine_window w
          (get params "html")
          (get_default params "title" (PStr "User Interface"))
          (get_default params "width" (PInt 600))
          (get_default params "height" (PInt 400))
          (get_default params "modal" (PBool true))
          (get_default params "timeout" (PInt 0))
          (get_default params "center_on_screen" (PBool true))
          (get_default params "always_on_top" (PBool true))
          (get_default params "bring_to_front" (PBool true))
          (get_default params "auto_resize" (PBool false))
          (get params "url")
          (get_default params "resizable" (PBool false))
          (get_default params "wait_for_response" (PBool true)) in
      (dumps_response result "Error showing HTML window: ", w')
  end.

(** [level_prefixes.get(level, ...)], with the strings of the source file. *)
Definition level_prefix (level : pyval) : string :=
  if eq_str level "info" then "‚ÑπÔ∏è"
  else if eq_str level "success" then "‚úÖ"
  else if eq_str level "warning" then "‚ö†Ô∏è"
  else if eq_str level "error" then "‚ùå"
  else "‚ÑπÔ∏è".

(** [_emit_toast_message(message, level)] *)
Definition _emit_toast_message `{Host} (w : World) (message level : pyval)
  : pyval * World :=
  match main_engine w with
  | NoMainModule =>
      (status_error
         "Could not access friday.py module. Ensure server was started via friday.py.",
       w)
  | NoEngine =>
      (status_error
         "No engine instance available. Ensure friday.py is running with Qt support.",
       w)
  | NoEmitMethod =>
      (status_error
         "Engine does not have _emit_message method. Ensure friday.py version supports toast messages.",
       w)
  | EngineReady =>
      let formatted_message := level_prefix level ++ " " ++ py_str message in
      match emit_message_error formatted_message (py_str level) with
      | Some e => (status_error ("Failed to emit toast message: " ++ e), w)
      | None =>
          (PDict [ ("status", PStr "success");
                   ("message", PStr "Toast notification sent successfully");
                   ("level", level); ("text", message) ],
           with_emitted w (formatted_message, py_str level))
      end
  end.

(** [show_toast_notification(params)] *)
Definition show_toast_notification `{Host} (w : World) (params : pydict)
  : pyval * World :=
  let message := get params "message" in
  let level := get_default params "level" (PStr "info") in
  if negb (truthy message) then
    (create_error_response
       "Missing required parameter: 'message' is required for show_toast operation"
       true, w)
  else if negb (is_str message) then
    (create_error_response
       ("Parameter 'message' must be a string, got " ++ type_name message)
       false, w)
  else if negb (in_strs level levels) then
    (create_error_response
       ("Parameter 'level' must be one of " ++ repr_strs levels ++ ", got '"
        ++ py_str level ++ "'") false, w)
  else
    let (result, w') := _emit_toast_message w message level in
    (dumps_response result "Toast notification failed: ", w').

(** [collect_api_key_from_user(params)] *)
Definition collect_api_key_from_user `{Host} (w : World) (params : pydict)
  : pyval * World :=
  let service_name := get_default params "service_name" (PStr "API Service") in
  let service_url := get_default params "service_url" (PStr "") in
  match _generate_api_key_collection_html service_name service_url with
  | Raise e =>
      (create_error_response ("Error collecting API key: " ++ e) false, w)
  | Ok html =>
      let window_params :=
        [ ("html", PStr html);
          ("title", PStr (py_str service_name ++ " API Key Required"));
          ("width", PInt 550); ("height", PInt 450); ("modal", PBool true);
          ("timeout", PInt 300); ("center_on_screen", PBool true);
          ("always_on_top", PBool true); ("bring_to_front", PBool true);
          ("auto_resize", PBool false); ("operation", PStr "show_dialog") ] in
      show_html_window w window_params
  end.

(** [str(e)] when [v[:50]] raises. *)
Definition slice_error `{Host} (v : pyval) : option string :=
  match v with
  | PStr _ | PList _ => None
  | PDict _ => Some dict_slice_error
  | _ => Some ("'" ++ type_name v ++ "' object is not subscriptable")
  end.

(** [str(e)] when [v.get] raises: only a dict has the method. *)
Definition no_get (v : pyval) : string :=
  "'" ++ type_name v ++ "' object has no attribute 'get'".

(** The number of code points of a UTF-8 string: its bytes that are not
    continuation bytes. *)
Fixpoint str_len (s : string) : Z :=
  match s with
  | EmptyString => 0%Z
  | String a r =>
      let n := Z.of_nat (nat_of_ascii a) in
      ((if (128 <=? n)%Z && (n <? 192)%Z then 0 else 1) + str_len r)%Z
  end.

(** [len(v)] *)
Definition py_len (v : pyval) : exc Z :=
  match v with
  | PStr s => Ok (str_len s)
  | PList l => Ok (Z.of_nat (List.length l))
  | PDict d => Ok (Z.of_nat (List.length d))
  | _ => Raise ("object of type '" ++ type_name v ++ "' has no len()")
  end.

(** The [UIRequest] of [send_message_to_user]. *)
Definition send_message_request (reply_queue : nat)
  (message show_dashboard : pyval) : UIRequest :=
  {| operation := "send_message";
     data :=
       [ ("operation", PStr "send_message"); ("message", message);
         ("show_dashboard", show_dashboard) ];
     reply_queue := reply_queue |}.

(** The message object of [send_message_to_user]. *)
Definition new_message `{Host} (w : World) (params : pydict) : pyval :=
  PDict [ ("id", PStr (uuid4 w)); ("timestamp", PFloat (time_time w));
          ("direction", PStr "ai_to_user");
          ("type", get_default params "msg_type" (PStr "status"));
          ("priority", get_default params "priority" (PStr "normal"));
          ("content", get params "content");
          ("requires_response",
           get_default params "requires_response" (PBool false));
          ("status", PStr "pending") ].

(** [send_message_to_user(params)] *)
Definition send_message_to_user `{Host} (w : World) (params : pydict)
  : pyval * World :=
  let content := get params "content" in
  if negb (truthy content) then
    (create_error_response "Missing required parameter: content" false, w)
  else
    let show_dashboard := get_default params "show_dashboard" (PBool true) in
    let message_id := uuid4 w in
    let timestamp := time_time w in
    let message := new_message w params in
    match slice_error content with
    | Some e => (create_error_response ("Error in send_message: " ++ e) false, w)
    | None =>
        match friday_ui_queue w with
        | None =>
            (create_error_response
               "No UI request queue available. Ensure friday.py is running."
               false, w)
        | Some request_queue =>
            let (reply_queue, w1) := new_reply_queue w in
            let ui_request :=
              send_message_request reply_queue message show_dashboard in
            let w2 := put w1 request_queue ui_request in
            match reply_get w2 ui_request (Whole 5) with
            | (Got response, w3) =>
                (dumps_response
                   (PDict [ ("message_id", PStr message_id);
                            ("status", PStr "queued");
                            ("timestamp", PFloat timestamp) ])
                   "Error sending message: ", w3)
            | (Empty, w3) =>
                (create_error_response
                   "Timeout waiting for message queue confirmation" false, w3)
            | (GetRaised e, w3) =>
                (create_error_response ("Error sending message: " ++ e) false,
                 w3)
            end
        end
    end.

(** The [UIRequest] of [check_user_messages]. *)
Definition check_messages_request (reply_queue : nat)
  (mark_as_read filter_type since_timestamp : pyval) : UIRequest :=
  {| operation := "check_messages";
     data :=
       [ ("operation", PStr "check_messages"); ("mark_as_read", mark_as_read);
         ("filter_type", filter_type); ("since_timestamp", since_timestamp) ];
     reply_queue := reply_queue |}.

(** [check_user_messages(params)] *)
Definition check_user_messages `{Host} (w : World) (params : pydict)
  : pyval * World :=
  let mark_as_read := get_default params "mark_as_read" (PBool true) in
  let filter_type := get params "filter_type" in
  let since_timestamp := get params "since_timestamp" in
  match friday_ui_queue w with
  | None =>
      (create_error_response
         "No UI request queue available. Ensure friday.py is running." false, w)
  | Some request_queue =>
      let (reply_queue, w1) := new_reply_queue w in
      let ui_request :=
        check_messages_request reply_queue mark_as_read filter_type
          since_timestamp in
      let w2 := put w1 request_queue ui_request in
      match reply_get w2 ui_request (Whole 5) with
      | (Got (PDict response), w3) =>
          let messages := get_default response "messages" (PList []) in
          match py_len messages with
          | Ok count =>
              (dumps_response
                 (PDict [("messages", messages); ("count", PInt count)])
                 "Error checking messages: ", w3)
          | Raise e =>
              (create_error_response ("Error checking messages: " ++ e) false, w3)
          end
      | (Got response, w3) =>
          (create_error_response
             ("Error checking messages: " ++ no_get response) false, w3)
      | (Empty, w3) =>
          (create_error_response
             "Timeout waiting for message check response" false, w3)
      | (GetRaised e, w3) =>
          (create_error_response ("Error checking messages: " ++ e) false, w3)
      end
  end.

(** The [UIRequest] of an operation without parameters. *)
Definition plain_ui_request (name : string) (reply_queue : nat) : UIRequest :=
  {| operation := name; data := [("operation", PStr name)];
     reply_queue := reply_queue |}.

(** The pattern of the four operations without parameters: look the queue
    up, put a request whose data is [{'operation': name}], wait [bound]
    seconds for the reply, make the body of the answer from it with
    [on_reply] and serialise it; an exception on the way is answered by the
    error response that starts with [on_error]. *)
Definition plain_request `{Host} (w : World) (name no_queue : string)
  (bound : Z) (on_reply : pyval -> exc pyval) (on_timeout on_error : string)
  : pyval * World :=
  match friday_ui_queue w with
  | None => (create_error_response no_queue false, w)
  | Some request_queue =>
      let (reply_queue, w1) := new_reply_queue w in
      let ui_request := plain_ui_request name reply_queue in
      let w2 := put w1 request_queue ui_request in
      match reply_get w2 ui_request (Whole bound) with
      | (Got response, w3) =>
          match on_reply response with
          | Ok body => (dumps_response body on_error, w3)
          | Raise e => (create_error_response (on_error ++ e) false, w3)
          end
      | (Empty, w3) => (create_error_response on_timeout false, w3)
      | (GetRaised e, w3) =>
          (create_error_response (on_error ++ e) false, w3)
      end
  end.

(** The body [{"status": "success", "message": msg}]. *)
Definition status_success (msg : string) : pyval :=
  PDict [("status", PStr "success"); ("message", PStr msg)].

(** [show_message_dashboard(params)] *)
Definition show_message_dashboard `{Host} (w : World) (params : pydict)
  : pyval * World :=
  plain_request w "show_dashboard"
    "No UI request queue available. Ensure friday.py is running." 10%Z
    (fun _ => Ok (status_success "Dashboard shown"))
    "Timeout waiting for dashboard to show" "Error showing dashboard: ".

(** [hide_message_dashboard(params)] *)
Definition hide_message_dashboard `{Host} (w : World) (params : pydict)
  : pyval * World :=
  plain_request w "hide_dashboard" "No UI request queue available." 5%Z
    (fun _ => Ok (status_success "Dashboard hidden"))
    "Timeout waiting for dashboard to hide" "Error hiding dashboard: ".

(** [get_message_history(params)] *)
Definition get_message_history `{Host} (w : World) (params : pydict)
  : pyval * World :=
  plain_request w "get_message_history" "No UI request queue available." 5%Z
    (fun response =>
       match response with
       | PDict r =>
           let history := get_default r "history" (PList []) in
           match py_len history with
           | Ok count =>
               Ok (PDict [("history", history); ("count", PInt count)])
           | Raise e => Raise e
           end
       | _ => Raise (no_get response)
       end)
    "Timeout waiting for message history" "Error getting message history: ".

(** [clear_message_queues(params)] *)
Definition clear_message_queues `{Host} (w : World) (params : pydict)
  : pyval * World :=
  plain_request w "clear_messages" "No UI request queue available." 5%Z
    (fun _ => Ok (status_success "Message queues cleared"))
    "Timeout waiting for clear confirmation" "Error clearing messages: ".

(** ** The capability gate and the dispatcher, [handle_user] *)

(** The flag [is_inter_tool_call]: the token starts with ["-"] and, with
    that character removed and split once at ["-"], has two parts of which
    the second is the installation token.  The test [startswith] is made
    outside the inner [try], so a true value that is not a string raises. *)
Definition is_inter_tool_call `{Host} (provided_token : pyval) : exc bool :=
  if truthy provided_token then
    match provided_token with
    | PStr s =>
        if String.prefix "-" s then
          match split_once "-" (drop_first s) with
          | [calling_tool_token; target_tool_token] =>
              Ok (target_tool_token =? TOOL_UNLOCK_TOKEN)
          | _ => Ok false
          end
        else Ok false
    | v =>
        Raise ("'" ++ type_name v ++ "' object has no attribute 'startswith'")
    end
  else Ok false.

(** The gate: the call goes on when the token equals the installation
    token or is a valid inter-tool token. *)
Definition token_accepted `{Host} (provided_token : pyval) : exc bool :=
  match is_inter_tool_call provided_token with
  | Ok inter => Ok (eq_str provided_token TOOL_UNLOCK_TOKEN || inter)
  | Raise e => Raise e
  end.

(** The first lines of [handle_user]: [handler_info] is popped and the
    single-input placeholder is collapsed. *)
Definition collapse_input (input_param : pydict) : pyval :=
  let input_param := dict_pop input_param "handler_info" in
  if dict_mem input_param "input" then get input_param "input"
  else PDict input_param.

(** The success envelope of the [readme] operation. *)
Definition readme_response `{Host} : pyval := envelope (readme true) false.

(** The branch of the two window operations sets [modal] before it calls
    [show_html_window]: false for a popup, true for a dialog that has none. *)
Definition with_window_modal (op : pyval) (validated_params : pydict)
  : pydict :=
  if eq_str op "show_popup" then
    dict_set validated_params "modal" (PBool false)
  else if eq_str op "show_dialog" && negb (dict_mem validated_params "modal")
  then dict_set validated_params "modal" (PBool true)
  else validated_params.

(** The chain [if operation == ... elif ...] over the validated
    parameters. *)
Definition dispatch `{Host} (w : World) (validated_params : pydict)
  : pyval * World :=
  let op := get validated_params "operation" in
  if eq_str op "test_queue" then test_queue_communication w validated_params
  else if eq_str op "show_toast" then show_toast_notification w validated_params
  else if eq_str op "collect_api_key" then
    collect_api_key_from_user w validated_params
  else if in_strs op ["show_popup"; "show_dialog"] then
    show_html_window w (with_window_modal op validated_params)
  else if eq_str op "send_message" then send_message_to_user w validated_params
  else if eq_str op "check_messages" then check_user_messages w validated_params
  else if eq_str op "show_dashboard" then
    show_message_dashboard w validated_params
  else if eq_str op "hide_dashboard" then
    hide_message_dashboard w validated_params
  else if eq_str op "get_message_history" then
    get_message_history w validated_params
  else if eq_str op "clear_messages" then clear_message_queues w validated_params
  else if eq_str op "readme" then (readme_response, w)
  else
    (create_error_response
       ("Unknown operation: '" ++ py_str op ++ "'. Available operations: "
        ++ join_comma operations) true, w).

(** What follows the gate: validation against the schema, then the
    operation. *)
Definition validate_and_dispatch `{Host} (w : World) (input_param : pydict)
  : pyval * World :=
  match validate_parameters input_param with
  | (Some error_msg, _) => (create_error_response error_msg true, w)
  | (None, validated_params) => dispatch w validated_params
  end.

(** The message of the authorization error. *)
Definition token_error : string :=
  "Invalid or missing tool_unlock_token: this indicates your context is missing the following details, which are needed to correctly use this tool:".

(** The body of the [try] of [handle_user]. *)
Definition handle_user_body `{Host} (w : World) (input_param : pydict)
  : exc pyval * World :=
  match collapse_input input_param with
  | PDict input_param =>
      if eq_str (get input_param "operation") "readme" then
        (Ok readme_response, w)
      else
        let provided_token := get input_param "tool_unlock_token" in
        match is_inter_tool_call provided_token with
        | Raise e => (Raise e, w)
        | Ok inter =>
            if negb (eq_str provided_token TOOL_UNLOCK_TOKEN) && negb inter then
              (Ok (create_error_response token_error true), w)
            else
              let (result, w') := validate_and_dispatch w input_param in
              (Ok result, w')
        end
  | _ =>
      (Ok (create_error_response
             "Invalid input format. Expected dictionary with tool parameters."
             true), w)
  end.

(** [handle_user(input_param)]: the body under [try], and the handler
    [except Exception as e]. *)
Definition handle_user `{Host} (w : World) (input_param : pydict)
  : pyval * World :=
  match handle_user_body w input_param with
  | (Ok result, w') => (result, w')
  | (Raise e, w') =>
      (create_error_response ("Error in user interaction operation: " ++ e)
         true, w')
  end.

(** ** A concrete host and worlds for the worked examples *)

Definition quote : string := String (ascii_of_nat 34) EmptyString.

(** A plain serialiser: one line, no escaping. *)
Fixpoint json_plain (v : pyval) : string :=
  match v with
  | PNone => "null"
  | PBool true => "true"
  | PBool false => "false"
  | PInt z => str_of_Z z
  | PFloat _ => "0.0"
  | PStr s => quote ++ s ++ quote
  | PList l =>
      "[" ++ (fix items (l : list pyval) : string :=
                match l with
                | [] => ""
                | x :: r =>
                    json_plain x
                    ++ match r with [] => "" | _ :: _ => ", " ++ items r end
                end) l ++ "]"
  | PDict d =>
      "{" ++ (fix items (d : list (string * pyval)) : string :=
                match d with
                | [] => ""
                | (k, x) :: r =>
                    quote ++ k ++ quote ++ ": " ++ json_plain x
                    ++ match r with [] => "" | _ :: _ => ", " ++ items r end
                end) d ++ "}"
  end.

(** An installation whose token is ["tk42"], with a presentation thread
    that never answers. *)
Definition silent_host : Host :=
  {| TOOL_UNLOCK_TOKEN := "tk42";
     readme_head := "Your tool_unlock_token for this installation is: ";
     readme_tail := nl ++ "You MUST include tool_unlock_token in the input dict for all operations.";
     json_dumps := json_plain;
     json_dumps_error := fun _ => None;
     json_dumps_flat := fun _ _ => eq_refl;
     py_repr := json_plain;
     dict_slice_error := "unhashable type: 'slice'";
     uuid4 := fun _ => "3f2b8c1e-0000-4000-8000-000000000001";
     time_time := fun _ => PrimFloat.zero;
     reply_queue_get := fun _ _ _ => None;
     reply_queue_get_mono := fun _ _ _ _ _ _ E => E;
     reply_queue_get_float := fun _ _ _ => Empty;
     TIMEOUT_MAX := 9223372036;
     TIMEOUT_MAX_range :=
       conj (proj1 (Z.leb_le 4294967 9223372036) eq_refl)
            (proj1 (Z.ltb_lt 9223372036 float_overflow) eq_refl);
     lock_timeout_error :=
       fun _ => "timestamp too large to convert to C _PyTime_t";
     emit_message_error := fun _ _ => None;
     _generate_api_key_collection_html :=
       fun service_name _ =>
         match service_name with
         | PStr s => Ok ("<html><title>" ++ s ++ " API Key Required</title></html>")
         | v => Raise ("'" ++ type_name v ++ "' object has no attribute 'upper'")
         end |}.

(** The same installation whose token has itself the inter-tool shape. *)
Definition dashed_host : Host :=
  {| TOOL_UNLOCK_TOKEN := "-a-b";
     readme_head := readme_head (Host := silent_host);
     readme_tail := readme_tail (Host := silent_host);
     json_dumps := json_plain;
     json_dumps_error := fun _ => None;
     json_dumps_flat := fun _ _ => eq_refl;
     py_repr := json_plain;
     dict_slice_error := "unhashable type: 'slice'";
     uuid4 := uuid4 (Host := silent_host);
     time_time := time_time (Host := silent_host);
     reply_queue_get := fun _ _ _ => None;
     reply_queue_get_mono := fun _ _ _ _ _ _ E => E;
     reply_queue_get_float := fun _ _ _ => Empty;
     TIMEOUT_MAX := 9223372036;
     TIMEOUT_MAX_range :=
       conj (proj1 (Z.leb_le 4294967 9223372036) eq_refl)
            (proj1 (Z.ltb_lt 9223372036 float_overflow) eq_refl);
     lock_timeout_error := lock_timeout_error (Host := silent_host);
     emit_message_error := fun _ _ => None;
     _generate_api_key_collection_html :=
       _generate_api_key_collection_html (Host := silent_host) |}.

(** The installation of [silent_host] with a presentation thread that
    answers every request at once with the same dictionary. *)
Definition answering_host : Host :=
  {| TOOL_UNLOCK_TOKEN := "tk42";
     readme_head := readme_head (Host := silent_host);
     readme_tail := readme_tail (Host := silent_host);
     json_dumps := json_plain;
     json_dumps_error := fun _ => None;
     json_dumps_flat := fun _ _ => eq_refl;
     py_repr := json_plain;
     dict_slice_error := "unhashable type: 'slice'";
     uuid4 := uuid4 (Host := silent_host);
     time_time := time_time (Host := silent_host);
     reply_queue_get :=
       fun _ _ _ =>
         Some (PDict [ ("status", PStr "error");
                       ("messages", PList [PStr "hello"]);
                       ("history", PList [PStr "one"; PStr "two"]) ]);
     reply_queue_get_mono := fun _ _ _ _ _ _ E => E;
     reply_queue_get_float :=
       fun _ _ _ =>
         Got (PDict [ ("status", PStr "error");
                      ("messages", PList [PStr "hello"]);
                      ("history", PList [PStr "one"; PStr "two"]) ]);
     TIMEOUT_MAX := 9223372036;
     TIMEOUT_MAX_range :=
       conj (proj1 (Z.leb_le 4294967 9223372036) eq_refl)
            (proj1 (Z.ltb_lt 9223372036 float_overflow) eq_refl);
     lock_timeout_error := lock_timeout_error (Host := silent_host);
     emit_message_error := fun _ _ => None;
     _generate_api_key_collection_html :=
       _generate_api_key_collection_html (Host := silent_host) |}.

(** No presentation thread: the registry has no queue; the engine is there. *)
Definition no_consumer : World :=
  {| friday_ui_queue := None; main_engine := EngineReady; emitted := [];
     reply_queues := 0; reply_gets := [] |}.

(** The presentation thread has installed its queue, which is empty. *)
Definition idle_consumer : World :=
  {| friday_ui_queue := Some []; main_engine := EngineReady; emitted := [];
     reply_queues := 0; reply_gets := [] |}.

(** A call [{"input": {...}}] as the server passes it. *)
Definition call (fields : pydict) : pydict := [("input", PDict fields)].

(** ** The vocabulary of the properties *)

(** The values a declared primitive type admits; a type outside the five
    admits every value. *)
Definition has_declared_type (ty : string) (v : pyval) : bool :=
  if ty =? "string" then is_str v
  else if ty =? "object" then is_dict v
  else if ty =? "integer" then is_int v
  else if ty =? "boolean" then is_bool v
  else if ty =? "array" then is_list v
  else true.

(** The four ways an input dictionary departs from a schema. *)
Definition unexpected_parameter (props : list (string * param_schema))
  (d : pydict) : Prop :=
  exists k, dict_mem d k = true /\ ~ In k (map fst props).

Definition missing_required (required : list string) (d : pydict) : Prop :=
  exists k, In k required /\ dict_mem d k = false.

Definition wrong_type (props : list (string * param_schema)) (d : pydict)
  : Prop :=
  exists k sch v,
    In (k, sch) props /\ dict_get d k = Some v
    /\ has_declared_type (p_type sch) v = false.

Definition outside_enum (props : list (string * param_schema)) (d : pydict)
  : Prop :=
  exists k sch allowed v,
    In (k, sch) props /\ p_enum sch = Some allowed /\ dict_get d k = Some v
    /\ in_strs v allowed = false.

Definition schema_violation `{Host} (d : pydict) : Prop :=
  unexpected_parameter properties d
  \/ missing_required required_parameters d
  \/ wrong_type properties d
  \/ outside_enum properties d.

(** The outcome of a call that found no request queue in the registry. *)
Definition no_consumer_outcome `{Host} (r : pyval) : Prop :=
  r = envelope (json_dumps (status_error no_queue_qt)) false
  \/ r = create_error_response
           "No UI request queue available. Ensure friday.py is running." false
  \/ r = create_error_response "No UI request queue available." false.

(** What one call may change in the world: nothing but one toast handed to
    the engine, or its own request put last on the queue, with a new reply
    queue that at most this call reads once. *)
Definition own_request_only (w w' : World) : Prop :=
  main_engine w' = main_engine w
  /\ ((friday_ui_queue w' = friday_ui_queue w
       /\ reply_queues w' = reply_queues w
       /\ reply_gets w' = reply_gets w
       /\ (emitted w' = emitted w
           \/ exists m, emitted w' = (emitted w ++ [m])%list))
      \/ (exists q r,
             friday_ui_queue w = Some q
             /\ friday_ui_queue w' = Some (q ++ [r])%list
             /\ reply_queue r = reply_queues w
             /\ reply_queues w' = S (reply_queues w)
             /\ emitted w' = emitted w
             /\ (reply_gets w' = reply_gets w
                 \/ exists bound,
                      reply_gets w' = (reply_gets w ++ [(reply_queue r, bound)])%list))).

(** The world after a request has been put and nothing read. *)
Definition submitted (w : World) (q : list UIRequest) (r : UIRequest) : World :=
  put (snd (new_reply_queue w)) q r.

(** A handler [h] that has put the request [r] on the queue [q] waits for
    its reply with the bound [b]: the read is recorded with that bound, and
    when nothing arrives within it the handler returns the error response
    with the text [timeout_msg]. *)
Definition waits_with_bound `{Host} (h : World -> pyval * World) (w : World)
  (q : list UIRequest) (r : UIRequest) (b : Z) (timeout_msg : string) : Prop :=
  reply_gets (snd (h w)) = (reply_gets w ++ [(reply_queues w, Whole b)])%list
  /\ (reply_queue_get (submitted w q r) r b = None ->
      h w = (create_error_response timeout_msg false,
             with_get (submitted w q r) (reply_queues w, b))).

(** A result envelope: a dict with the content and the flag [isError]. *)
Definition is_envelope (r : pyval) : Prop :=
  exists text flag, r = envelope text flag.

(** [properties.get(k)]: the schema of a declared parameter. *)
Definition lookup_schema `{Host} (k : string) : option param_schema :=
  option_map snd (find (fun kv => fst kv =? k) properties).

(** What a declared parameter is worth to a handler that reads the
    validated parameters: the caller's value, else the default of the
    schema, else [None]. *)
Definition given_or_default `{Host} (d : pydict) (k : string) : pyval :=
  match dict_get d k with
  | Some v => v
  | None =>
      match lookup_schema k with
      | Some sch =>
          match p_default sch with Some dv => dv | None => PNone end
      | None => PNone
      end
  end.

(** The required names of [validate_parameters] for an input: only the
    operation when the operation is [readme]. *)
Definition required_for (d : pydict) : list string :=
  if eq_str (get d "operation") "readme" then ["operation"]
  else required_parameters.

(** The world after a sequence of calls of [handle_user], one after the
    other. *)
Fixpoint run_calls `{Host} (w : World) (calls : list pydict) : World :=
  match calls with
  | [] => w
  | c :: rest => run_calls (snd (handle_user w c)) rest
  end.

(** The request that [show_html_window] builds from its parameters, with
    the reply queue [n]. *)
Definition window_request_of (n : nat) (p : pydict) : UIRequest :=
  window_request n (get p "html")
    (get_default p "title" (PStr "User Interface"))
    (get_default p "width" (PInt 600))
    (get_default p "height" (PInt 400))
    (get_default p "modal" (PBool true))
    (get_default p "timeout" (PInt 0))
    (get_default p "center_on_screen" (PBool true))
    (get_default p "always_on_top" (PBool true))
    (get_default p "bring_to_front" (PBool true))
    (get_default p "auto_resize" (PBool false))
    (get p "url")
    (get_default p "resizable" (PBool false)).

(** The parameters of the dialog that [collect_api_key_from_user] hands to
    [show_html_window]. *)
Definition api_key_dialog `{Host} (service_name : pyval) (html : string)
  : pydict :=
  [ ("html", PStr html);
    ("title", PStr (py_str service_name ++ " API Key Required"));
    ("width", PInt 550); ("height", PInt 450); ("modal", PBool true);
    ("timeout", PInt 300); ("center_on_screen", PBool true);
    ("always_on_top", PBool true); ("bring_to_front", PBool true);
    ("auto_resize", PBool false); ("operation", PStr "show_dialog") ].

(** The six operations on the message store. *)
Definition message_operations : list string :=
  ["send_message"; "check_messages"; "show_dashboard"; "hide_dashboard";
   "get_message_history"; "clear_messages"].

(** An error response: a result envelope whose flag [isError] is true. *)
Definition is_error (r : pyval) : Prop :=
  exists text, r = envelope text true.

(** A failure that a helper reports itself: a result envelope whose flag
    [isError] is false and whose body is [{"status": tag, "error": msg}]. *)
Definition reports_status `{Host} (r : pyval) (tag : string) : Prop :=
  exists msg,
    r = envelope
          (json_dumps (PDict [("status", PStr tag); ("error", PStr msg)]))
          false.

(** A presentation thread that answers nothing to what is put on the
    queue [q] of the world [w]. *)
Definition no_answer `{Host} (w : World) (q : list UIRequest) : Prop :=
  forall r b, reply_queue_get (submitted w q r) r b = None.

(** A presentation thread that answers [resp] to whatever is put on the
    queue [q] of the world [w]. *)
Definition answers `{Host} (w : World) (q : list UIRequest) (resp : pyval)
  : Prop :=
  forall r b, reply_queue_get (submitted w q r) r b = Some resp.

(** The wait of a window call whose timeout is the integer [t]. *)
Definition window_wait (t : Z) : Z :=
  if (0 <? t)%Z then (t + 5)%Z else 65%Z.

(** What the type test of [validate_parameters] refuses: a value that is
    not an instance of the Python type that goes with the declared type.
    A declared type outside the five (["number"]) has no test. *)
Definition fails_type_test (ty : string) (v : pyval) : Prop :=
  (ty = "string" /\ is_str v = false)
  \/ (ty = "object" /\ is_dict v = false)
  \/ (ty = "integer" /\ is_int v = false)
  \/ (ty = "boolean" /\ is_bool v = false)
  \/ (ty = "array" /\ is_list v = false).

(** * Properties *)

(** ** Strings and dictionaries *)

Lemma cut_at_first (c : ascii) (a b : string) :
  has_char c a = false -> cut_at c (a ++ String c b) = Some (a, b).
Proof.
  induction a as [|x a IH]; simpl; intros Hc.
  - now rewrite Ascii.eqb_refl.
  - apply orb_false_iff in Hc as [Hx Ha].
    rewrite Hx, (IH Ha). reflexivity.
Qed.

Lemma dict_get_set_same (d : pydict) (k : string) (v : pyval) :
  dict_get (dict_set d k v) k = Some v.
Proof.
  induction d as [|[k' v'] d IH]; simpl.
  - now rewrite String.eqb_refl.
  - destruct (k' =? k) eqn:E; simpl.
    + now rewrite String.eqb_refl.
    + now rewrite E.
Qed.

Lemma dict_get_set_other (d : pydict) (k k' : string) (v : pyval) :
  k <> k' -> dict_get (dict_set d k v) k' = dict_get d k'.
Proof.
  intros Hk. induction d as [|[k0 v0] d IH]; simpl.
  - apply String.eqb_neq in Hk. now rewrite Hk.
  - destruct (k0 =? k) eqn:E; simpl.
    + apply String.eqb_eq in E. subst k0.
      apply String.eqb_neq in Hk. now rewrite Hk.
    + destruct (k0 =? k'); auto.
Qed.

Lemma dict_mem_keys (d : pydict) (k : string) :
  dict_mem d k = true <-> In k (dict_keys d).
Proof.
  unfold dict_mem, dict_keys. rewrite nodup_In.
  induction d as [|[k' v'] d IH]; simpl.
  - split; [discriminate | tauto].
  - destruct (k' =? k) eqn:E.
    + apply String.eqb_eq in E. tauto.
    + apply String.eqb_neq in E. rewrite IH. tauto.
Qed.

Lemma existsb_eqb_In (x : string) (l : list string) :
  existsb (String.eqb x) l = true <-> In x l.
Proof.
  rewrite existsb_exists. split.
  - intros [y [Hy E]]. apply String.eqb_eq in E. now subst.
  - intros Hx. exists x. split; auto. apply String.eqb_refl.
Qed.

Lemma set_minus_In (a b : list string) (x : string) :
  In x (set_minus a b) <-> In x a /\ ~ In x b.
Proof.
  unfold set_minus. rewrite filter_In, negb_true_iff.
  rewrite <- (existsb_eqb_In x b).
  destruct (existsb (String.eqb x) b); intuition congruence.
Qed.

Lemma set_minus_witness (a b : list string) (x : string) :
  In x a -> ~ In x b -> exists y l, set_minus a b = y :: l.
Proof.
  intros Ha Hb.
  destruct (set_minus a b) as [|y l] eqn:E; [|eauto].
  assert (Hx : In x (set_minus a b)) by (apply set_minus_In; auto).
  rewrite E in Hx. destruct Hx.
Qed.

(** ** Validation against the schema *)

Section Validation.
Context `{Host}.

Lemma type_error_declared (k ty : string) (v : pyval) :
  type_error k ty v = None <-> has_declared_type ty v = true.
Proof.
  unfold type_error, has_declared_type.
  destruct (ty =? "string") eqn:E1; simpl.
  { destruct (is_str v); simpl; [|split; discriminate].
    apply String.eqb_eq in E1. subst ty. simpl. tauto. }
  destruct (ty =? "object") eqn:E2; simpl.
  { destruct (is_dict v); simpl; [|split; discriminate].
    apply String.eqb_eq in E2. subst ty. simpl. tauto. }
  destruct (ty =? "integer") eqn:E3; simpl.
  { destruct (is_int v); simpl; [|split; discriminate].
    apply String.eqb_eq in E3. subst ty. simpl. tauto. }
  destruct (ty =? "boolean") eqn:E4; simpl.
  { destruct (is_bool v); simpl; [|split; discriminate].
    apply String.eqb_eq in E4. subst ty. simpl. tauto. }
  destruct (ty =? "array") eqn:E5; simpl.
  { destruct (is_list v); simpl; [|split; discriminate]. tauto. }
  tauto.
Qed.

Lemma enum_error_allowed (k : string) (allowed : list string) (v : pyval) :
  enum_error k (Some allowed) v = None <-> in_strs v allowed = true.
Proof.
  unfold enum_error. destruct (in_strs v allowed); simpl; split;
    congruence.
Qed.

(** A parameter that fails its type or enum test makes the loop return an
    error, whatever precedes it in the schema. *)
Lemma validate_loop_error (props : list (string * param_schema))
  (required : list string) (input_param : pydict) (k : string)
  (sch : param_schema) (v : pyval) :
  In (k, sch) props ->
  dict_get input_param k = Some v ->
  type_error k (p_type sch) v <> None
  \/ enum_error k (p_enum sch) v <> None ->
  forall validated,
    exists e, validate_loop props required input_param validated = (Some e, []).
Proof.
  intros Hin Hget Hbad.
  induction props as [|[k0 s0] rest IH]; [destruct Hin|].
  intros validated. simpl.
  destruct (dict_get input_param k0) as [v0|] eqn:G0.
  - destruct (type_error k0 (p_type s0) v0) as [e|] eqn:T0; [eauto|].
    destruct (enum_error k0 (p_enum s0) v0) as [e|] eqn:E0; [eauto|].
    destruct Hin as [Heq|Hin].
    + inversion Heq; subst k0 s0.
      rewrite Hget in G0. inversion G0; subst v0.
      destruct Hbad; congruence.
    + apply IH; assumption.
  - destruct (existsb (String.eqb k0) required); [eauto|].
    destruct Hin as [Heq|Hin].
    + inversion Heq; subst k0 s0. congruence.
    + destruct (p_default s0); apply IH; assumption.
Qed.

(** When the loop ends without error, every declared parameter is bound to
    the given value, which has passed both tests, or to its default. *)
Lemma validate_loop_ok (props : list (string * param_schema))
  (required : list string) (input_param : pydict) :
  NoDup (map fst props) ->
  forall validated vp,
    validate_loop props required input_param validated = (None, vp) ->
    (forall k, ~ In k (map fst props) -> dict_get vp k = dict_get validated k)
    /\ (forall k sch,
           In (k, sch) props ->
           dict_get vp k =
             match dict_get input_param k with
             | Some v => Some v
             | None =>
                 match p_default sch with
                 | Some dv => Some dv
                 | None => dict_get validated k
                 end
             end
           /\ (forall v,
                  dict_get input_param k = Some v ->
                  type_error k (p_type sch) v = None
                  /\ enum_error k (p_enum sch) v = None)).
Proof.
  induction props as [|[k0 s0] rest IH]; simpl; intros Hnd validated vp Hrun.
  - inversion Hrun; subst. split; [reflexivity | intros ? ? []].
  - inversion Hnd as [|? ? Hk0 Hrest]; subst.
    assert (Hother : forall k sch, In (k, sch) rest -> k0 <> k).
    { intros k sch Hin ->. apply Hk0.
      change k with (fst (k, sch)). now apply in_map. }
    destruct (dict_get input_param k0) as [v0|] eqn:G0.
    + destruct (type_error k0 (p_type s0) v0) eqn:T0; [discriminate|].
      destruct (enum_error k0 (p_enum s0) v0) eqn:E0; [discriminate|].
      destruct (IH Hrest _ _ Hrun) as [Hout Hin]. split.
      * intros k Hk. rewrite Hout by tauto.
        apply dict_get_set_other. tauto.
      * intros k sch [Heq|Hk].
        -- inversion Heq; subst k0 s0. rewrite G0. split.
           ++ rewrite (Hout k Hk0). apply dict_get_set_same.
           ++ intros v Hv. inversion Hv; subst. auto.
        -- destruct (Hin k sch Hk) as [Hval Hty]. split; [|exact Hty].
           rewrite Hval.
           rewrite (dict_get_set_other _ _ _ _ (Hother k sch Hk)).
           reflexivity.
    + destruct (existsb (String.eqb k0) required); [discriminate|].
      destruct (p_default s0) as [dv|] eqn:D0.
      * destruct (IH Hrest _ _ Hrun) as [Hout Hin]. split.
        -- intros k Hk. rewrite Hout by tauto.
           apply dict_get_set_other. tauto.
        -- intros k sch [Heq|Hk].
           ++ inversion Heq; subst k0 s0. rewrite G0, D0. split.
              ** rewrite (Hout k Hk0). apply dict_get_set_same.
              ** intros v Hv. discriminate.
           ++ destruct (Hin k sch Hk) as [Hval Hty]. split; [|exact Hty].
              rewrite Hval.
              rewrite (dict_get_set_other _ _ _ _ (Hother k sch Hk)).
              reflexivity.
      * destruct (IH Hrest _ _ Hrun) as [Hout Hin]. split.
        -- intros k Hk. apply Hout. tauto.
        -- intros k sch [Heq|Hk].
           ++ inversion Heq; subst k0 s0. rewrite G0, D0. split.
              ** apply (Hout k Hk0).
              ** intros v Hv. discriminate.
           ++ apply (Hin k sch Hk).
Qed.

Lemma properties_NoDup : NoDup (map fst properties).
Proof.
  assert (E : nodup string_dec (map fst properties) = map fst properties)
    by (vm_compute; reflexivity).
  rewrite <- E. apply NoDup_nodup.
Qed.

(** The validated parameters of an accepted input. *)
Lemma validated_lookup (d vp : pydict) (k : string) (sch : param_schema) :
  validate_parameters d = (None, vp) ->
  In (k, sch) properties ->
  dict_get vp k =
    match dict_get d k with Some v => Some v | None => p_default sch end
  /\ (forall v,
         dict_get d k = Some v ->
         has_declared_type (p_type sch) v = true
         /\ enum_error k (p_enum sch) v = None).
Proof.
  unfold validate_parameters, validate_against. intros Hrun Hin.
  destruct (set_minus (dict_keys d) (map fst properties)); [|discriminate].
  match type of Hrun with
  | match ?m with _ => _ end = _ => destruct m; [|discriminate]
  end.
  destruct (validate_loop_ok _ _ _ properties_NoDup _ _ Hrun) as [_ Hok].
  destruct (Hok k sch Hin) as [Hval Hty]. split.
  - rewrite Hval. destruct (dict_get d k); [reflexivity|].
    destruct (p_default sch); reflexivity.
  - intros v Hv. destruct (Hty v Hv) as [T E]. split; [|exact E].
    now apply (type_error_declared k).
Qed.

(** Each of the four departures from the schema is an error of
    [validate_parameters], for an operation other than [readme]. *)
Lemma violation_rejected (d : pydict) :
  eq_str (get d "operation") "readme" = false ->
  schema_violation d ->
  exists e, validate_parameters d = (Some e, []).
Proof.
  intros Hop Hbad. unfold validate_parameters, validate_against.
  rewrite Hop.
  destruct (set_minus (dict_keys d) (map fst properties)) eqn:U; [|eauto].
  destruct (set_minus required_parameters (dict_keys d)) eqn:M; [|eauto].
  destruct Hbad as [(k & Hk & Hno) | [(k & Hk & Hno) | [Hty | Hen]]].
  - apply dict_mem_keys in Hk.
    destruct (set_minus_witness _ _ _ Hk Hno) as (y & l & E). congruence.
  - assert (Hout : ~ In k (dict_keys d)).
    { intros Hin. apply dict_mem_keys in Hin. congruence. }
    destruct (set_minus_witness _ _ _ Hk Hout) as (y & l & E). congruence.
  - destruct Hty as (k & sch & v & Hin & Hget & Hty).
    apply (validate_loop_error _ _ _ k sch v Hin Hget). left.
    intros T. apply (type_error_declared k) in T. congruence.
  - destruct Hen as (k & sch & allowed & v & Hin & Hsome & Hget & Hen).
    apply (validate_loop_error _ _ _ k sch v Hin Hget). right.
    rewrite Hsome. intros E. apply enum_error_allowed in E. congruence.
Qed.

Lemma lookup_schema_In (k : string) (sch : param_schema) :
  lookup_schema k = Some sch -> In (k, sch) properties.
Proof.
  unfold lookup_schema. intros E.
  destruct (find (fun kv => fst kv =? k) properties) as [[k' s']|] eqn:F;
    [|discriminate].
  apply find_some in F as [Hin Hk]. simpl in *.
  apply String.eqb_eq in Hk. inversion E. now subst.
Qed.

(** The value a declared parameter has after validation. *)
Lemma validated_value (d vp : pydict) (k : string) (sch : param_schema) :
  validate_parameters d = (None, vp) ->
  lookup_schema k = Some sch ->
  dict_get vp k =
    match dict_get d k with Some v => Some v | None => p_default sch end.
Proof.
  intros Hrun Hk.
  apply (validated_lookup d vp k sch Hrun (lookup_schema_In _ _ Hk)).
Qed.

End Validation.


(** ** The capability gate *)

Section Gate.
Context `{Host}.

Lemma inter_tool_string (s : string) :
  exists b, is_inter_tool_call (PStr s) = Ok b.
Proof.
  unfold is_inter_tool_call.
  destruct (truthy (PStr s)); [|eauto].
  destruct (String.prefix "-" s); [|eauto].
  destruct (split_once "-" (drop_first s)) as [|a [|b [|c l]]]; eauto.
Qed.

Lemma token_accepted_own : token_accepted (PStr TOOL_UNLOCK_TOKEN) = Ok true.
Proof.
  unfold token_accepted.
  destruct (inter_tool_string TOOL_UNLOCK_TOKEN) as [b ->].
  simpl. now rewrite String.eqb_refl.
Qed.

Lemma prefix_empty (s : string) : String.prefix "" s = true.
Proof. destruct s; reflexivity. Qed.

Lemma inter_tool_delegation (a b : string) :
  has_char "-" a = false ->
  is_inter_tool_call (PStr ("-" ++ a ++ "-" ++ b))
  = Ok (b =? TOOL_UNLOCK_TOKEN).
Proof.
  intros Ha. unfold is_inter_tool_call, split_once. simpl.
  now rewrite prefix_empty, (cut_at_first _ _ _ Ha).
Qed.

Lemma inter_tool_no_dash (s : string) :
  String.prefix "-" s = false -> is_inter_tool_call (PStr s) = Ok false.
Proof.
  intros Hs. unfold is_inter_tool_call. rewrite Hs.
  now destruct (truthy (PStr s)).
Qed.

(** After the placeholder is collapsed to a dict whose operation is not
    [readme], the gate alone decides what [handle_user] does. *)
Lemma handle_user_gate (w : World) (top d : pydict) :
  collapse_input top = PDict d ->
  eq_str (get d "operation") "readme" = false ->
  handle_user w top =
    match token_accepted (get d "tool_unlock_token") with
    | Ok true => validate_and_dispatch w d
    | Ok false => (create_error_response token_error true, w)
    | Raise e =>
        (create_error_response ("Error in user interaction operation: " ++ e)
           true, w)
    end.
Proof.
  intros Hc Hop. unfold handle_user, handle_user_body, token_accepted.
  rewrite Hc, Hop.
  destruct (is_inter_tool_call (get d "tool_unlock_token")) as [inter|e];
    [|reflexivity].
  destruct (eq_str (get d "tool_unlock_token") TOOL_UNLOCK_TOKEN), inter;
    simpl; try reflexivity;
    destruct (validate_and_dispatch w d); reflexivity.
Qed.

(** C1, as amended: a token ["-A-B"] whose calling part [A] holds no
    delimiter passes the gate exactly when [B] is the installation token or
    the whole token is; the handler then goes on to validation, and returns
    the authorization error otherwise.  A token that does not start with
    the delimiter is never an inter-tool token and passes only by equality
    with the installation token. *)
Theorem C1_delegation_token_gate (a b : string) :
  has_char "-" a = false ->
  let token := "-" ++ a ++ "-" ++ b in
  (token_accepted (PStr token) = Ok true
   <-> b = TOOL_UNLOCK_TOKEN \/ token = TOOL_UNLOCK_TOKEN)
  /\ (forall w top d,
         collapse_input top = PDict d ->
         eq_str (get d "operation") "readme" = false ->
         get d "tool_unlock_token" = PStr token ->
         handle_user w top =
           if (b =? TOOL_UNLOCK_TOKEN) || (token =? TOOL_UNLOCK_TOKEN)
           then validate_and_dispatch w d
           else (create_error_response token_error true, w))
  /\ (forall s,
         String.prefix "-" s = false ->
         is_inter_tool_call (PStr s) = Ok false
         /\ token_accepted (PStr s) = Ok (s =? TOOL_UNLOCK_TOKEN)).
Proof.
  intros Ha token.
  assert (Hacc : token_accepted (PStr token)
                 = Ok ((token =? TOOL_UNLOCK_TOKEN) || (b =? TOOL_UNLOCK_TOKEN))).
  { unfold token_accepted, token. now rewrite (inter_tool_delegation _ _ Ha). }
  clearbody token.
  split; [|split].
  - rewrite Hacc. split.
    + intros E.
      assert (E' : (token =? TOOL_UNLOCK_TOKEN) || (b =? TOOL_UNLOCK_TOKEN) = true)
        by congruence.
      apply orb_true_iff in E'.
      destruct E' as [E'|E']; apply String.eqb_eq in E'; auto.
    + intros [E|E]; apply String.eqb_eq in E; rewrite E;
        now rewrite ?orb_true_r.
  - intros w top d Hc Hop Htok.
    rewrite (handle_user_gate _ _ _ Hc Hop), Htok, Hacc.
    rewrite (orb_comm (b =? _)).
    now destruct ((token =? TOOL_UNLOCK_TOKEN) || (b =? TOOL_UNLOCK_TOKEN)).
  - intros s Hs. split; [now apply inter_tool_no_dash|].
    unfold token_accepted. rewrite (inter_tool_no_dash _ Hs). simpl.
    now rewrite orb_false_r.
Qed.

(** An input that does not collapse to a dictionary is refused with the
    documentation, before any token is looked at. *)
Lemma invalid_input_format (w : World) (top : pydict) :
  is_dict (collapse_input top) = false ->
  handle_user w top
  = (create_error_response
       "Invalid input format. Expected dictionary with tool parameters." true,
     w).
Proof.
  unfold handle_user, handle_user_body.
  destruct (collapse_input top); simpl; intros E;
    (reflexivity || discriminate).
Qed.


(** C7: a call that is not [readme] and whose token is absent, or is
    neither the installation token nor a valid inter-tool token, gets an
    error envelope whose text ends with the documentation, and leaves the
    world as it was: nothing is submitted.  For a missing token, and for
    every token the gate refuses without raising, the text starts with the
    authorization message. *)
Theorem C7_unauthorized_gets_documentation (w : World) (top d : pydict) :
  collapse_input top = PDict d ->
  eq_str (get d "operation") "readme" = false ->
  token_accepted (get d "tool_unlock_token") <> Ok true ->
  (exists msg, handle_user w top = (envelope (msg ++ readme true) true, w))
  /\ (token_accepted (get d "tool_unlock_token") = Ok false ->
      handle_user w top = (envelope (token_error ++ readme true) true, w))
  /\ (dict_get d "tool_unlock_token" = None ->
      token_accepted (get d "tool_unlock_token") = Ok false).
Proof.
  intros Hc Hop Hno. rewrite (handle_user_gate _ _ _ Hc Hop).
  split; [|split].
  - destruct (token_accepted (get d "tool_unlock_token")) as [[|]|e];
      [congruence | |]; eexists; reflexivity.
  - intros ->. reflexivity.
  - intros Hmiss. unfold get. rewrite Hmiss. reflexivity.
Qed.

End Gate.

(** ** The standard library under the handlers *)

Section Library.
Context `{Host}.

(** A bound that every lock accepts: [get] gives the answer that comes
    within it, or [queue.Empty]. *)
Lemma queue_get_within (w : World) (r : UIRequest) (b : Z) :
  (0 <= b <= 4294967)%Z ->
  queue_get w r b
  = match reply_queue_get w r b with
    | Some response => Got response
    | None => Empty
    end.
Proof.
  intros [Hlo Hhi]. unfold queue_get.
  pose proof TIMEOUT_MAX_range as [Hmax Hfloat].
  assert (E1 : (b <? 0)%Z = false) by (apply Z.ltb_ge; lia).
  assert (E2 : (float_overflow <=? b)%Z = false) by (apply Z.leb_gt; lia).
  assert (E3 : (TIMEOUT_MAX <? b)%Z = false) by (apply Z.ltb_ge; lia).
  now rewrite E1, E2, E3, andb_false_r.
Qed.

(** The same for any bound within [threading.TIMEOUT_MAX]. *)
Lemma queue_get_waits (w : World) (r : UIRequest) (b : Z) :
  (0 <= b <= TIMEOUT_MAX)%Z ->
  queue_get w r b
  = match reply_queue_get w r b with
    | Some response => Got response
    | None => Empty
    end.
Proof.
  intros [Hlo Hhi]. unfold queue_get.
  pose proof TIMEOUT_MAX_range as [Hmax Hfloat].
  assert (E1 : (b <? 0)%Z = false) by (apply Z.ltb_ge; lia).
  assert (E2 : (float_overflow <=? b)%Z = false) by (apply Z.leb_gt; lia).
  assert (E3 : (TIMEOUT_MAX <? b)%Z = false) by (apply Z.ltb_ge; lia).
  now rewrite E1, E2, E3, andb_false_r.
Qed.

(** An answer that is already on the queue is taken without waiting,
    whatever the bound below the floats. *)
Lemma queue_get_ready (w : World) (r : UIRequest) (b : Z) :
  (0 <= b < float_overflow)%Z ->
  reply_queue_get w r 0 <> None ->
  queue_get w r b
  = match reply_queue_get w r b with
    | Some response => Got response
    | None => Empty
    end.
Proof.
  intros [Hlo Hf] Hready. unfold queue_get.
  assert (E1 : (b <? 0)%Z = false) by (apply Z.ltb_ge; lia).
  assert (E2 : (float_overflow <=? b)%Z = false) by (apply Z.leb_gt; lia).
  rewrite E1, E2.
  destruct (reply_queue_get w r 0); [reflexivity | congruence].
Qed.

(** A wait above [threading.TIMEOUT_MAX] on an empty queue raises at once. *)
Lemma queue_get_too_long (w : World) (r : UIRequest) (b : Z) :
  (TIMEOUT_MAX < b < float_overflow)%Z ->
  reply_queue_get w r 0 = None ->
  queue_get w r b = GetRaised (lock_timeout_error b).
Proof.
  intros [Hlo Hf] Hready. unfold queue_get.
  pose proof TIMEOUT_MAX_range as [Hmax Hfloat].
  assert (E1 : (b <? 0)%Z = false) by (apply Z.ltb_ge; lia).
  assert (E2 : (float_overflow <=? b)%Z = false) by (apply Z.leb_gt; lia).
  assert (E3 : (TIMEOUT_MAX <? b)%Z = true) by (apply Z.ltb_lt; lia).
  now rewrite E1, E2, E3, Hready.
Qed.

(** A bound beyond the floats raises before the queue is looked at. *)
Lemma queue_get_beyond_floats (w : World) (r : UIRequest) (b : Z) :
  (float_overflow <= b)%Z ->
  queue_get w r b = GetRaised "int too large to convert to float".
Proof.
  intros Hf. unfold queue_get.
  pose proof TIMEOUT_MAX_range as [Hmax Hfloat].
  assert (E1 : (b <? 0)%Z = false) by (apply Z.ltb_ge; lia).
  assert (E2 : (float_overflow <=? b)%Z = true) by (apply Z.leb_le; lia).
  now rewrite E1, E2.
Qed.

(** The bodies with scalar values are serialised. *)
Lemma dumps_response_flat (d : pydict) (prefix : string) :
  forallb (fun kv => json_scalar (snd kv)) d = true ->
  dumps_response (PDict d) prefix = envelope (json_dumps (PDict d)) false.
Proof.
  intros Hd. unfold dumps_response, dumps.
  now rewrite (json_dumps_flat d Hd).
Qed.

Lemma dumps_response_ok (v : pyval) (prefix : string) :
  json_dumps_error v = None ->
  dumps_response v prefix = envelope (json_dumps v) false.
Proof. intros E. unfold dumps_response, dumps. now rewrite E. Qed.

Lemma dumps_response_raises (v : pyval) (prefix e : string) :
  json_dumps_error v = Some e ->
  dumps_response v prefix = create_error_response (prefix ++ e) false.
Proof. intros E. unfold dumps_response, dumps. now rewrite E. Qed.

Lemma dumps_status_error (msg prefix : string) :
  dumps_response (status_error msg) prefix
  = envelope (json_dumps (status_error msg)) false.
Proof. apply dumps_response_flat. reflexivity. Qed.

Lemma dumps_status_timeout (msg prefix : string) :
  dumps_response (status_timeout msg) prefix
  = envelope (json_dumps (status_timeout msg)) false.
Proof. apply dumps_response_flat. reflexivity. Qed.

Lemma dumps_status_success (msg prefix : string) :
  dumps_response (status_success msg) prefix
  = envelope (json_dumps (status_success msg)) false.
Proof. apply dumps_response_flat. reflexivity. Qed.


(** The wait of a window for an integer timeout. *)
Lemma max_wait_time_int (timeout : pyval) (t : Z) :
  int_value timeout = Some t ->
  max_wait_time timeout = Ok (Whole (if (0 <? t)%Z then (t + 5)%Z else 65%Z)).
Proof.
  destruct timeout as [|b|z|f|s|l|l]; simpl; try discriminate.
  - destruct b; intros E; inversion E; reflexivity.
  - intros E. inversion E. reflexivity.
Qed.

End Library.

#[global] Opaque float_overflow.

(** ** What a call changes in the world *)

Section Footprint.
Context `{Host}.

Lemma own_same (w : World) : own_request_only w w.
Proof. split; [reflexivity|]. left. auto. Qed.

Lemma own_emitted (w : World) (m : string * string) :
  own_request_only w (with_emitted w m).
Proof. split; [reflexivity|]. left. simpl. eauto 6. Qed.

Lemma own_submitted (w : World) (q : list UIRequest) (r : UIRequest) :
  friday_ui_queue w = Some q ->
  reply_queue r = reply_queues w ->
  own_request_only w (submitted w q r).
Proof.
  intros Hq Hr. split; [reflexivity|]. right. exists q, r. simpl. auto 7.
Qed.

Lemma own_answered (w : World) (q : list UIRequest) (r : UIRequest) (b : Z) :
  friday_ui_queue w = Some q ->
  reply_queue r = reply_queues w ->
  own_request_only w (with_get (submitted w q r) (reply_queue r, b)).
Proof.
  intros Hq Hr. split; [reflexivity|]. right. exists q, r. simpl.
  repeat split; auto. right. now exists (Whole b).
Qed.

Lemma own_answered_float (w : World) (q : list UIRequest) (r : UIRequest)
  (f : float) :
  friday_ui_queue w = Some q ->
  reply_queue r = reply_queues w ->
  own_request_only w (with_get_float (submitted w q r) (reply_queue r, f)).
Proof.
  intros Hq Hr. split; [reflexivity|]. right. exists q, r. simpl.
  repeat split; auto. right. now exists (Fractional f).
Qed.

Create HintDb own.
#[local] Hint Resolve own_same own_emitted own_submitted own_answered
  own_answered_float : own.

(** The world after [_show_webengine_window]: untouched without a queue;
    else the request is put, and the reply queue is read when, and only
    when, the caller waits. *)
Lemma window_world (w : World)
  (html title width height modal timeout cos aot btf ar url rs wait : pyval) :
  let r := window_request (reply_queues w) html title width height modal
             timeout cos aot btf ar url rs in
  let w' := snd (_show_webengine_window w html title width height modal
                   timeout cos aot btf ar url rs wait) in
  match friday_ui_queue w with
  | None => w' = w
  | Some q =>
      if negb (truthy wait) then w' = submitted w q r
      else match max_wait_time timeout with
           | Ok (Whole bound) =>
               w' = with_get (submitted w q r) (reply_queues w, bound)
           | Ok (Fractional f) =>
               w' = with_get_float (submitted w q r) (reply_queues w, f)
           | Raise _ => w' = submitted w q r
           end
  end.
Proof.
  intros r w'. subst r w'. unfold _show_webengine_window, reply_get.
  destruct (friday_ui_queue w) as [q|]; [|reflexivity]. simpl.
  destruct (negb (truthy wait)); [reflexivity|].
  destruct (max_wait_time timeout) as [[bound|f]|e]; [| |reflexivity].
  - destruct (queue_get _ _ bound); reflexivity.
  - destruct (reply_queue_get_float _ _ f); reflexivity.
Qed.

Lemma window_footprint (w : World)
  (html title width height modal timeout cos aot btf ar url rs wait : pyval) :
  own_request_only w
    (snd (_show_webengine_window w html title width height modal timeout cos
            aot btf ar url rs wait)).
Proof.
  pose proof (window_world w html title width height modal timeout cos aot
                btf ar url rs wait) as Hw.
  cbv zeta in Hw. destruct (friday_ui_queue w) as [q|] eqn:Q.
  - destruct (negb (truthy wait)).
    + rewrite Hw. auto with own.
    + destruct (max_wait_time timeout) as [[bound|f]|e]; rewrite Hw.
      * apply (own_answered w q (window_request (reply_queues w) html title
                 width height modal timeout cos aot btf ar url rs)); auto.
      * apply (own_answered_float w q (window_request (reply_queues w) html
                 title width height modal timeout cos aot btf ar url rs)); auto.
      * auto with own.
  - rewrite Hw. auto with own.
Qed.

Lemma show_html_window_footprint (w : World) (params : pydict) :
  own_request_only w (snd (show_html_window w params)).
Proof.
  unfold show_html_window.
  destruct (window_param_error params); [apply own_same|].
  match goal with
  | |- context [_show_webengine_window w ?a ?b ?c ?d ?e ?f ?g ?h ?i ?j ?k ?l ?m] =>
      pose proof (window_footprint w a b c d e f g h i j k l m) as Hf;
      destruct (_show_webengine_window w a b c d e f g h i j k l m)
  end.
  exact Hf.
Qed.

Lemma test_queue_footprint (w : World) (params : pydict) :
  own_request_only w (snd (test_queue_communication w params)).
Proof.
  unfold test_queue_communication, _test_queue_message_passing, reply_get.
  destruct (friday_ui_queue w) as [q|] eqn:Q; [|apply own_same]. simpl.
  match goal with
  | |- context [queue_get ?a ?r ?b] =>
      destruct (queue_get a r b); simpl;
      apply (own_answered w q r b); auto
  end.
Qed.

Lemma show_toast_footprint (w : World) (params : pydict) :
  own_request_only w (snd (show_toast_notification w params)).
Proof.
  unfold show_toast_notification, _emit_toast_message.
  repeat match goal with
         | |- context [if ?c then _ else _] => destruct c
         end; try apply own_same.
  destruct (main_engine w); try apply own_same.
  match goal with
  | |- context [emit_message_error ?a ?b] => destruct (emit_message_error a b)
  end; simpl; auto with own.
Qed.

Lemma collect_api_key_footprint (w : World) (params : pydict) :
  own_request_only w (snd (collect_api_key_from_user w params)).
Proof.
  unfold collect_api_key_from_user.
  match goal with
  | |- context [_generate_api_key_collection_html ?a ?b] =>
      destruct (_generate_api_key_collection_html a b)
  end; [apply show_html_window_footprint | apply own_same].
Qed.

Lemma send_message_footprint (w : World) (params : pydict) :
  own_request_only w (snd (send_message_to_user w params)).
Proof.
  unfold send_message_to_user, reply_get.
  destruct (negb (truthy (get params "content"))); [apply own_same|].
  destruct (slice_error (get params "content")); [apply own_same|].
  destruct (friday_ui_queue w) as [q|] eqn:Q; [|apply own_same]. simpl.
  match goal with
  | |- context [queue_get ?a ?r ?b] =>
      destruct (queue_get a r b); simpl;
      apply (own_answered w q r b); auto
  end.
Qed.

Lemma check_messages_footprint (w : World) (params : pydict) :
  own_request_only w (snd (check_user_messages w params)).
Proof.
  unfold check_user_messages, reply_get.
  destruct (friday_ui_queue w) as [q|] eqn:Q; [|apply own_same]. simpl.
  match goal with
  | |- context [queue_get ?a ?r ?b] =>
      destruct (queue_get a r b) as [[| | | | | |resp]| |e]; simpl;
      try (apply (own_answered w q r b); auto)
  end.
  destruct (py_len (get_default resp "messages" (PList []))); simpl;
    match goal with
    | |- own_request_only _ (with_get (put _ _ ?r) (_, ?b)) =>
        apply (own_answered w q r b); auto
    end.
Qed.

Lemma plain_request_footprint (w : World) (name no_queue : string) (bound : Z)
  (on_reply : pyval -> exc pyval) (on_timeout on_error : string) :
  own_request_only w
    (snd (plain_request w name no_queue bound on_reply on_timeout on_error)).
Proof.
  unfold plain_request, reply_get.
  destruct (friday_ui_queue w) as [q|] eqn:Q; [|apply own_same]. simpl.
  match goal with
  | |- context [queue_get ?a ?r ?b] =>
      destruct (queue_get a r b) as [resp| |e]; simpl;
      [destruct (on_reply resp)| |]; simpl;
      apply (own_answered w q r b); auto
  end.
Qed.

Lemma dispatch_footprint (w : World) (vp : pydict) :
  own_request_only w (snd (dispatch w vp)).
Proof.
  unfold dispatch.
  repeat match goal with
         | |- context [if eq_str ?a ?b then _ else _] => destruct (eq_str a b)
         | |- context [if in_strs ?a ?b then _ else _] => destruct (in_strs a b)
         | |- context [if ?a && ?b then _ else _] => destruct (a && b)
         end;
    first [ apply test_queue_footprint | apply show_toast_footprint
          | apply collect_api_key_footprint | apply show_html_window_footprint
          | apply send_message_footprint | apply check_messages_footprint
          | apply plain_request_footprint | apply own_same ].
Qed.

Lemma validate_and_dispatch_footprint (w : World) (d : pydict) :
  own_request_only w (snd (validate_and_dispatch w d)).
Proof.
  unfold validate_and_dispatch.
  destruct (validate_parameters d) as [[e|] vp];
    [apply own_same | apply dispatch_footprint].
Qed.

Lemma handle_user_footprint (w : World) (top : pydict) :
  own_request_only w (snd (handle_user w top)).
Proof.
  unfold handle_user, handle_user_body.
  destruct (collapse_input top) as [| | | | | |d]; try apply own_same.
  destruct (eq_str (get d "operation") "readme"); [apply own_same|].
  destruct (is_inter_tool_call (get d "tool_unlock_token")) as [inter|e];
    [|apply own_same].
  destruct (negb (eq_str (get d "tool_unlock_token") TOOL_UNLOCK_TOKEN)
            && negb inter); [apply own_same|].
  pose proof (validate_and_dispatch_footprint w d) as Hf.
  destruct (validate_and_dispatch w d). exact Hf.
Qed.

End Footprint.

(** ** The request broker: no consumer, fire and forget, bounded waiting *)

Section Broker.
Context `{Host}.

Lemma window_no_queue (w : World)
  (html title width height modal timeout cos aot btf ar url rs wait : pyval) :
  friday_ui_queue w = None ->
  _show_webengine_window w html title width height modal timeout cos aot btf
    ar url rs wait
  = (status_error no_queue_qt, w).
Proof. intros Hq. unfold _show_webengine_window. now rewrite Hq. Qed.


Lemma window_waits (w : World) (q : list UIRequest) (t : Z)
  (html title width height modal timeout cos aot btf ar url rs wait : pyval) :
  friday_ui_queue w = Some q ->
  truthy wait = true ->
  int_value timeout = Some t ->
  let bound := if (0 <? t)%Z then (t + 5)%Z else 65%Z in
  let r := window_request (reply_queues w) html title width height modal
             timeout cos aot btf ar url rs in
  _show_webengine_window w html title width height modal timeout cos aot btf
    ar url rs wait
  = (match queue_get (submitted w q r) r bound with
     | Got response => response
     | Empty =>
         status_timeout
           ("UI request timed out after " ++ str_of_Z bound ++ " seconds")
     | GetRaised e => status_error ("Error in UI communication: " ++ e)
     end,
     with_get (submitted w q r) (reply_queues w, bound)).
Proof.
  intros Hq Hw Ht bound r.
  unfold _show_webengine_window.
  rewrite Hq, (max_wait_time_int _ _ Ht). simpl. rewrite Hw. simpl.
  fold bound. fold r. change (put _ q r) with (submitted w q r).
  destruct (queue_get (submitted w q r) r bound); reflexivity.
Qed.

(** The validated parameters of a minimal popup call. *)
Lemma popup_call_accepted (w : World) (fields : pydict) :
  eq_str (get fields "operation") "readme" = false ->
  get fields "tool_unlock_token" = PStr TOOL_UNLOCK_TOKEN ->
  handle_user w (call fields) = validate_and_dispatch w fields.
Proof.
  intros Hop Htok.
  rewrite (handle_user_gate w (call fields) fields eq_refl Hop).
  now rewrite Htok, token_accepted_own.
Qed.

Lemma window_op_cases (op : pyval) :
  in_strs op ["show_popup"; "show_dialog"] = true ->
  op = PStr "show_popup" \/ op = PStr "show_dialog".
Proof.
  destruct op as [| | | |s| |]; simpl; try discriminate.
  rewrite orb_false_r. intros E. apply orb_true_iff in E.
  destruct E as [E|E]; apply String.eqb_eq in E; subst; auto.
Qed.

Lemma dispatch_window (w : World) (vp : pydict) (op : pyval) :
  in_strs op ["show_popup"; "show_dialog"] = true ->
  get vp "operation" = op ->
  dispatch w vp = show_html_window w (with_window_modal op vp).
Proof.
  intros Hop Hget. unfold dispatch. rewrite Hget.
  destruct (window_op_cases _ Hop) as [-> | ->]; reflexivity.
Qed.

Lemma with_window_modal_other (op : pyval) (vp : pydict) (k : string) :
  "modal" <> k ->
  dict_get (with_window_modal op vp) k = dict_get vp k.
Proof.
  intros Hk. unfold with_window_modal.
  destruct (eq_str op "show_popup");
    [now apply dict_get_set_other|].
  destruct (eq_str op "show_dialog" && negb (dict_mem vp "modal"));
    [now apply dict_get_set_other | reflexivity].
Qed.

(** An accepted window call reaches [show_html_window] with the validated
    parameters, [modal] adjusted. *)
Lemma handle_user_window (w : World) (top d vp : pydict) :
  collapse_input top = PDict d ->
  token_accepted (get d "tool_unlock_token") = Ok true ->
  validate_parameters d = (None, vp) ->
  in_strs (get d "operation") ["show_popup"; "show_dialog"] = true ->
  handle_user w top
  = show_html_window w (with_window_modal (get d "operation") vp).
Proof.
  intros Hc Htok Hval Hop.
  assert (Hnr : eq_str (get d "operation") "readme" = false)
    by (destruct (window_op_cases _ Hop) as [-> | ->]; reflexivity).
  rewrite (handle_user_gate _ _ _ Hc Hnr), Htok.
  unfold validate_and_dispatch. rewrite Hval.
  apply dispatch_window; [assumption|].
  unfold get. rewrite (validated_value d vp "operation" _ Hval eq_refl).
  now destruct (dict_get d "operation").
Qed.

End Broker.

(** ** Accepted calls: from the input to the handler *)

Section Accepted.
Context `{Host}.

(** Every default of the schema has the declared type of its parameter and,
    where there is an enum, is one of its values. *)
Lemma defaults_well_typed (k : string) (sch : param_schema) (dv : pyval) :
  In (k, sch) properties ->
  p_default sch = Some dv ->
  has_declared_type (p_type sch) dv = true
  /\ forall allowed, p_enum sch = Some allowed -> in_strs dv allowed = true.
Proof.
  intros Hin Hd.
  assert (Hall : forallb
            (fun kv =>
               match p_default (snd kv) with
               | Some v =>
                   has_declared_type (p_type (snd kv)) v
                   && match p_enum (snd kv) with
                      | Some allowed => in_strs v allowed
                      | None => true
                      end
               | None => true
               end) properties = true) by (vm_compute; reflexivity).
  rewrite forallb_forall in Hall. specialize (Hall _ Hin). simpl in Hall.
  rewrite Hd in Hall. apply andb_true_iff in Hall as [Ht He].
  split; [exact Ht|]. intros allowed Ha. now rewrite Ha in He.
Qed.

Lemma window_content_unchanged (d vp : pydict) (op : pyval) :
  validate_parameters d = (None, vp) ->
  get (with_window_modal op vp) "html" = get d "html"
  /\ get (with_window_modal op vp) "url" = get d "url".
Proof.
  intros Hval. unfold get.
  rewrite !with_window_modal_other by discriminate.
  rewrite (validated_value d vp "html" _ Hval eq_refl).
  rewrite (validated_value d vp "url" _ Hval eq_refl).
  split; [destruct (dict_get d "html") | destruct (dict_get d "url")];
    reflexivity.
Qed.

(** A validated value of a parameter has its declared type. *)
Lemma validated_typed (d vp : pydict) (k : string) (sch : param_schema)
  (v : pyval) :
  validate_parameters d = (None, vp) ->
  lookup_schema k = Some sch ->
  dict_get vp k = Some v ->
  has_declared_type (p_type sch) v = true.
Proof.
  intros Hrun Hk Hv. rewrite (validated_value d vp k sch Hrun Hk) in Hv.
  pose proof (lookup_schema_In _ _ Hk) as Hin.
  destruct (dict_get d k) as [v0|] eqn:G.
  - inversion Hv; subst v0.
    now destruct (validated_lookup d vp k sch Hrun Hin) as [_ Hok],
                 (Hok v G).
  - now apply (defaults_well_typed k sch v Hin).
Qed.

(** For a parameter with a default, the validated parameters always hold a
    value, so the default that the handler passes to [get] is never used. *)
Lemma validated_get_default (d vp : pydict) (op : pyval) (k : string)
  (sch : param_schema) (dv dflt : pyval) :
  validate_parameters d = (None, vp) ->
  lookup_schema k = Some sch ->
  p_default sch = Some dv ->
  "modal" <> k ->
  get_default (with_window_modal op vp) k dflt = given_or_default d k
  /\ has_declared_type (p_type sch) (given_or_default d k) = true.
Proof.
  intros Hrun Hk Hd Hm.
  assert (Hv : dict_get vp k = Some (given_or_default d k)).
  { rewrite (validated_value d vp k sch Hrun Hk). unfold given_or_default.
    rewrite Hk, Hd. now destruct (dict_get d k). }
  split.
  - unfold get_default. now rewrite with_window_modal_other, Hv.
  - apply (validated_typed d vp k sch _ Hrun Hk Hv).
Qed.

Lemma adjusted_modal (d vp : pydict) (op : pyval) :
  validate_parameters d = (None, vp) ->
  get_default (with_window_modal op vp) "modal" (PBool true)
  = (if eq_str op "show_popup" then PBool false
     else given_or_default d "modal")
  /\ is_bool (get_default (with_window_modal op vp) "modal" (PBool true))
     = true.
Proof.
  intros Hrun.
  assert (Hv : dict_get vp "modal" = Some (given_or_default d "modal")).
  { rewrite (validated_value d vp "modal" _ Hrun eq_refl).
    unfold given_or_default. simpl. now destruct (dict_get d "modal"). }
  pose proof (validated_typed d vp "modal" _ _ Hrun eq_refl Hv) as Hb.
  unfold has_declared_type in Hb. simpl in Hb.
  unfold with_window_modal, get_default, dict_mem.
  destruct (eq_str op "show_popup").
  - rewrite dict_get_set_same. auto.
  - rewrite Hv. simpl. rewrite andb_false_r, Hv. auto.
Qed.

Lemma validated_content (d vp : pydict) (k : string) :
  validate_parameters d = (None, vp) ->
  k = "html" \/ k = "url" ->
  truthy (get d k) && negb (is_str (get d k)) = false.
Proof.
  intros Hrun Hk. unfold get.
  destruct (dict_get d k) as [v|] eqn:G; [|reflexivity].
  assert (Hs : is_str v = true).
  { destruct Hk as [-> | ->].
    - destruct (validated_lookup d vp "html" _ Hrun
                  (lookup_schema_In "html" _ eq_refl)) as [_ Hok].
      now destruct (Hok v G).
    - destruct (validated_lookup d vp "url" _ Hrun
                  (lookup_schema_In "url" _ eq_refl)) as [_ Hok].
      now destruct (Hok v G). }
  rewrite Hs. apply andb_false_r.
Qed.

(** After validation the checks of [show_html_window] come down to five:
    the two on the content and the three bounds. *)
Lemma window_param_error_validated (d vp : pydict) (op : pyval) :
  validate_parameters d = (None, vp) ->
  window_param_error (with_window_modal op vp) =
    if negb (truthy (get d "html")) && negb (truthy (get d "url")) then
      Some (create_error_response
              "Missing required parameter: must provide either 'html' or 'url'"
              true)
    else if truthy (get d "html") && truthy (get d "url") then
      Some (create_error_response
              "Cannot specify both 'html' and 'url' - choose one" true)
    else if not_positive_int (given_or_default d "width") then
      Some (create_error_response
              ("Parameter 'width' must be a positive integer, got "
               ++ py_str (given_or_default d "width") ++ ".") false)
    else if not_positive_int (given_or_default d "height") then
      Some (create_error_response
              ("Parameter 'height' must be a positive integer, got "
               ++ py_str (given_or_default d "height") ++ ".") false)
    else if not_nonnegative_int (given_or_default d "timeout") then
      Some (create_error_response
              ("Parameter 'timeout' must be a non-negative integer, got "
               ++ py_str (given_or_default d "timeout") ++ ".") false)
    else None.
Proof.
  intros Hrun. unfold window_param_error.
  destruct (window_content_unchanged d vp op Hrun) as [-> ->].
  rewrite (validated_content d vp "html" Hrun (or_introl eq_refl)).
  rewrite (validated_content d vp "url" Hrun (or_intror eq_refl)).
  destruct (adjusted_modal d vp op Hrun) as [_ ->].
  destruct (validated_get_default d vp op "title" _ _ (PStr "User Interface")
              Hrun eq_refl eq_refl) as [-> Ht]; [discriminate|].
  destruct (validated_get_default d vp op "width" _ _ (PInt 600)
              Hrun eq_refl eq_refl) as [-> _]; [discriminate|].
  destruct (validated_get_default d vp op "height" _ _ (PInt 400)
              Hrun eq_refl eq_refl) as [-> _]; [discriminate|].
  destruct (validated_get_default d vp op "timeout" _ _ (PInt 0)
              Hrun eq_refl eq_refl) as [-> _]; [discriminate|].
  destruct (validated_get_default d vp op "center_on_screen" _ _ (PBool true)
              Hrun eq_refl eq_refl) as [-> H1]; [discriminate|].
  destruct (validated_get_default d vp op "always_on_top" _ _ (PBool true)
              Hrun eq_refl eq_refl) as [-> H2]; [discriminate|].
  destruct (validated_get_default d vp op "bring_to_front" _ _ (PBool true)
              Hrun eq_refl eq_refl) as [-> H3]; [discriminate|].
  destruct (validated_get_default d vp op "auto_resize" _ _ (PBool false)
              Hrun eq_refl eq_refl) as [-> H4]; [discriminate|].
  destruct (validated_get_default d vp op "resizable" _ _ (PBool false)
              Hrun eq_refl eq_refl) as [-> H5]; [discriminate|].
  destruct (validated_get_default d vp op "wait_for_response" _ _ (PBool true)
              Hrun eq_refl eq_refl) as [-> H6]; [discriminate|].
  unfold has_declared_type in Ht, H1, H2, H3, H4, H5, H6.
  simpl in Ht, H1, H2, H3, H4, H5, H6.
  rewrite Ht, H1, H2, H3, H4, H5, H6. simpl.
  repeat match goal with
         | |- context [if ?c then _ else _] => destruct c
         end; reflexivity.
Qed.

Lemma append_empty_r (s : string) : s ++ "" = s.
Proof. induction s as [|a s IH]; simpl; [reflexivity | now rewrite IH]. Qed.

(** An error response made without the documentation has the message as
    its whole text. *)
Lemma error_without_documentation (msg : string) :
  create_error_response msg false = envelope msg true.
Proof. unfold create_error_response. simpl. now rewrite append_empty_r. Qed.

(** An accepted call is dispatched on its validated parameters, whose
    operation is the one given. *)
Lemma handle_user_accepted (w : World) (top d vp : pydict) :
  collapse_input top = PDict d ->
  token_accepted (get d "tool_unlock_token") = Ok true ->
  validate_parameters d = (None, vp) ->
  eq_str (get d "operation") "readme" = false ->
  handle_user w top = dispatch w vp
  /\ get vp "operation" = get d "operation".
Proof.
  intros Hc Htok Hval Hnr.
  rewrite (handle_user_gate _ _ _ Hc Hnr), Htok.
  unfold validate_and_dispatch. rewrite Hval. split; [reflexivity|].
  unfold get. rewrite (validated_value d vp "operation" _ Hval eq_refl).
  now destruct (dict_get d "operation").
Qed.

(** For a parameter with a default the validated parameters hold the value
    given or the default. *)
Lemma validated_or_default (d vp : pydict) (k : string) (sch : param_schema)
  (dv : pyval) :
  validate_parameters d = (None, vp) ->
  lookup_schema k = Some sch ->
  p_default sch = Some dv ->
  dict_get vp k = Some (given_or_default d k).
Proof.
  intros Hrun Hk Hd.
  rewrite (validated_value d vp k sch Hrun Hk). unfold given_or_default.
  rewrite Hk, Hd. now destruct (dict_get d k).
Qed.

(** For a parameter without default they hold the value given, if any. *)
Lemma validated_no_default (d vp : pydict) (k : string) (sch : param_schema) :
  validate_parameters d = (None, vp) ->
  lookup_schema k = Some sch ->
  p_default sch = None ->
  get vp k = get d k /\ get d k = given_or_default d k.
Proof.
  intros Hrun Hk Hd. unfold get, given_or_default.
  rewrite (validated_value d vp k sch Hrun Hk), Hk, Hd.
  now destruct (dict_get d k).
Qed.

(** The validated level is one of the four levels. *)
Lemma validated_level (d vp : pydict) :
  validate_parameters d = (None, vp) ->
  get_default vp "level" (PStr "info") = given_or_default d "level"
  /\ in_strs (given_or_default d "level") levels = true.
Proof.
  intros Hval.
  pose proof (validated_or_default d vp "level" _ _ Hval eq_refl eq_refl)
    as Hv.
  split; [unfold get_default; now rewrite Hv|].
  unfold given_or_default.
  destruct (dict_get d "level") as [v|] eqn:G; [|reflexivity].
  destruct (validated_lookup d vp "level" _ Hval
              (lookup_schema_In "level" _ eq_refl)) as [_ Hok].
  destruct (Hok v G) as [_ E]. now apply enum_error_allowed in E.
Qed.

Lemma dispatch_test_queue (w : World) (vp : pydict) :
  get vp "operation" = PStr "test_queue" ->
  dispatch w vp = test_queue_communication w vp.
Proof. intros E. unfold dispatch. now rewrite E. Qed.

Lemma dispatch_show_toast (w : World) (vp : pydict) :
  get vp "operation" = PStr "show_toast" ->
  dispatch w vp = show_toast_notification w vp.
Proof. intros E. unfold dispatch. now rewrite E. Qed.

Lemma dispatch_send_message (w : World) (vp : pydict) :
  get vp "operation" = PStr "send_message" ->
  dispatch w vp = send_message_to_user w vp.
Proof. intros E. unfold dispatch. now rewrite E. Qed.

Lemma dispatch_check_messages (w : World) (vp : pydict) :
  get vp "operation" = PStr "check_messages" ->
  dispatch w vp = check_user_messages w vp.
Proof. intros E. unfold dispatch. now rewrite E. Qed.

Lemma dispatch_collect_api_key (w : World) (vp : pydict) :
  get vp "operation" = PStr "collect_api_key" ->
  dispatch w vp = collect_api_key_from_user w vp.
Proof. intros E. unfold dispatch. now rewrite E. Qed.

Lemma dispatch_show_dashboard (w : World) (vp : pydict) :
  get vp "operation" = PStr "show_dashboard" ->
  dispatch w vp = show_message_dashboard w vp.
Proof. intros E. unfold dispatch. now rewrite E. Qed.

Lemma dispatch_hide_dashboard (w : World) (vp : pydict) :
  get vp "operation" = PStr "hide_dashboard" ->
  dispatch w vp = hide_message_dashboard w vp.
Proof. intros E. unfold dispatch. now rewrite E. Qed.

Lemma dispatch_message_history (w : World) (vp : pydict) :
  get vp "operation" = PStr "get_message_history" ->
  dispatch w vp = get_message_history w vp.
Proof. intros E. unfold dispatch. now rewrite E. Qed.

Lemma dispatch_clear_messages (w : World) (vp : pydict) :
  get vp "operation" = PStr "clear_messages" ->
  dispatch w vp = clear_message_queues w vp.
Proof. intros E. unfold dispatch. now rewrite E. Qed.

(** An accepted call of the operation [op] is dispatched on its validated
    parameters, whose operation is [op]. *)
Lemma accepted_dispatch (w : World) (top d vp : pydict) (op : string) :
  collapse_input top = PDict d ->
  token_accepted (get d "tool_unlock_token") = Ok true ->
  validate_parameters d = (None, vp) ->
  get d "operation" = PStr op ->
  op <> "readme" ->
  handle_user w top = dispatch w vp /\ get vp "operation" = PStr op.
Proof.
  intros Hc Htok Hval Hop Hne.
  assert (Hnr : eq_str (get d "operation") "readme" = false).
  { rewrite Hop. simpl. now apply String.eqb_neq. }
  destruct (handle_user_accepted w _ _ _ Hc Htok Hval Hnr) as [E Hv].
  split; [exact E | now rewrite Hv].
Qed.

(** The content of an accepted [send_message] call is a string as soon as
    it is given: its slice is taken without error. *)
Lemma validated_message_content (d vp : pydict) :
  validate_parameters d = (None, vp) ->
  get vp "content" = get d "content"
  /\ (truthy (get d "content") = true -> slice_error (get d "content") = None).
Proof.
  intros Hval.
  destruct (validated_no_default d vp "content" _ Hval eq_refl eq_refl)
    as [E _].
  split; [exact E|].
  unfold get. destruct (dict_get d "content") as [v|] eqn:G;
    [|discriminate].
  destruct (validated_lookup d vp "content" _ Hval
              (lookup_schema_In "content" _ eq_refl)) as [_ Hok].
  destruct (Hok v G) as [T _]. unfold has_declared_type in T. simpl in T.
  destruct v; try discriminate; reflexivity.
Qed.

End Accepted.

Ltac run_validate :=
  match goal with
  | |- context [validate_parameters ?d] =>
      let r := eval vm_compute in (validate_parameters d) in
      change (validate_parameters d) with r; cbv iota beta
  end.

Section BrokerClaims.
Context `{Host}.

Lemma plain_request_no_queue (w : World) (name no_queue : string) (bound : Z)
  (on_reply : pyval -> exc pyval) (on_timeout on_error : string) :
  friday_ui_queue w = None ->
  plain_request w name no_queue bound on_reply on_timeout on_error
  = (create_error_response no_queue false, w).
Proof. intros Hq. unfold plain_request. now rewrite Hq. Qed.

Lemma plain_request_waits (w : World) (q : list UIRequest)
  (name no_queue : string) (bound : Z) (on_reply : pyval -> exc pyval)
  (on_timeout on_error : string) :
  friday_ui_queue w = Some q ->
  (0 <= bound <= 4294967)%Z ->
  waits_with_bound
    (fun w0 =>
       plain_request w0 name no_queue bound on_reply on_timeout on_error)
    w q (plain_ui_request name (reply_queues w)) bound on_timeout.
Proof.
  intros Hq Hb. unfold waits_with_bound, plain_request, reply_get.
  rewrite Hq. simpl.
  change (put _ q ?r) with (submitted w q r).
  rewrite (queue_get_within _ _ _ Hb).
  destruct (reply_queue_get _ _ bound) as [resp|]; simpl.
  - destruct (on_reply resp); split; try reflexivity; discriminate.
  - split; reflexivity.
Qed.

Lemma test_queue_no_queue (w : World) (p : pydict) :
  friday_ui_queue w = None ->
  test_queue_communication w p
  = (envelope (json_dumps (status_error no_queue_qt)) false, w).
Proof.
  intros Hq. unfold test_queue_communication, _test_queue_message_passing.
  rewrite Hq. now rewrite dumps_status_error.
Qed.

Lemma show_html_window_no_queue (w : World) (p : pydict) :
  friday_ui_queue w = None ->
  window_param_error p = None ->
  show_html_window w p
  = (envelope (json_dumps (status_error no_queue_qt)) false, w).
Proof.
  intros Hq Hp. unfold show_html_window. rewrite Hp.
  rewrite window_no_queue by assumption. now rewrite dumps_status_error.
Qed.

(** Once its page is generated, and is not empty, [collect_api_key_from_user]
    is [show_html_window] on the parameters of its dialog, which pass the
    checks. *)
Lemma collect_api_key_dialog (w : World) (p : pydict) (html : string) :
  _generate_api_key_collection_html
    (get_default p "service_name" (PStr "API Service"))
    (get_default p "service_url" (PStr "")) = Ok html ->
  html <> "" ->
  collect_api_key_from_user w p
  = show_html_window w
      (api_key_dialog (get_default p "service_name" (PStr "API Service")) html)
  /\ window_param_error
       (api_key_dialog (get_default p "service_name" (PStr "API Service")) html)
     = None.
Proof.
  intros Hgen Hne. split.
  - unfold collect_api_key_from_user. now rewrite Hgen.
  - unfold window_param_error, api_key_dialog. simpl.
    apply String.eqb_neq in Hne. now rewrite Hne.
Qed.

Lemma send_message_no_queue (w : World) (p : pydict) :
  friday_ui_queue w = None ->
  truthy (get p "content") = true ->
  slice_error (get p "content") = None ->
  send_message_to_user w p
  = (create_error_response
       "No UI request queue available. Ensure friday.py is running." false, w).
Proof.
  intros Hq Hc Hs. unfold send_message_to_user. now rewrite Hc, Hs, Hq.
Qed.

Lemma check_messages_no_queue (w : World) (p : pydict) :
  friday_ui_queue w = None ->
  check_user_messages w p
  = (create_error_response
       "No UI request queue available. Ensure friday.py is running." false, w).
Proof. intros Hq. unfold check_user_messages. now rewrite Hq. Qed.

(** C2, as amended: without a request queue in the registry no call puts a
    request or waits on a reply queue, so none can time out.  Every
    accepted call of an operation that goes through the queue returns, once
    its own parameter checks are passed and, for the API key dialog, once
    its page is generated, the error saying that no queue is available: the
    status ["error"] body of the window and queue-test helpers for the queue
    test, the two window operations and the API key dialog, an error
    response for the six message operations; in particular a popup with
    timeout 0.  An API key dialog whose page cannot be generated is
    answered by the error response of that failure instead.  The same
    holds of each handler on any parameters. *)
Theorem C2_no_consumer_is_an_error_of_its_own (w : World) :
  friday_ui_queue w = None ->
  (forall top,
      friday_ui_queue (snd (handle_user w top)) = None
      /\ reply_gets (snd (handle_user w top)) = reply_gets w)
  /\ (forall top d vp,
         collapse_input top = PDict d ->
         token_accepted (get d "tool_unlock_token") = Ok true ->
         validate_parameters d = (None, vp) ->
         (get d "operation" = PStr "test_queue" ->
          handle_user w top
          = (envelope (json_dumps (status_error no_queue_qt)) false, w))
         /\ (in_strs (get d "operation") ["show_popup"; "show_dialog"] = true ->
             window_param_error (with_window_modal (get d "operation") vp)
             = None ->
             handle_user w top
             = (envelope (json_dumps (status_error no_queue_qt)) false, w))
         /\ (get d "operation" = PStr "collect_api_key" ->
             (forall html,
                 _generate_api_key_collection_html
                   (given_or_default d "service_name")
                   (given_or_default d "service_url") = Ok html ->
                 html <> "" ->
                 handle_user w top
                 = (envelope (json_dumps (status_error no_queue_qt)) false, w))
             /\ (forall e,
                    _generate_api_key_collection_html
                      (given_or_default d "service_name")
                      (given_or_default d "service_url") = Raise e ->
                    handle_user w top
                    = (create_error_response
                         ("Error collecting API key: " ++ e) false, w)))
         /\ (get d "operation" = PStr "send_message" ->
             truthy (get d "content") = true ->
             handle_user w top
             = (create_error_response
                  "No UI request queue available. Ensure friday.py is running."
                  false, w))
         /\ (get d "operation" = PStr "check_messages"
             \/ get d "operation" = PStr "show_dashboard" ->
             handle_user w top
             = (create_error_response
                  "No UI request queue available. Ensure friday.py is running."
                  false, w))
         /\ (get d "operation" = PStr "hide_dashboard"
             \/ get d "operation" = PStr "get_message_history"
             \/ get d "operation" = PStr "clear_messages" ->
             handle_user w top
             = (create_error_response "No UI request queue available." false,
                w)))
  /\ (forall p,
         test_queue_communication w p
         = (envelope (json_dumps (status_error no_queue_qt)) false, w))
  /\ (forall p,
         window_param_error p = None ->
         show_html_window w p
         = (envelope (json_dumps (status_error no_queue_qt)) false, w))
  /\ (forall p html,
         _generate_api_key_collection_html
           (get_default p "service_name" (PStr "API Service"))
           (get_default p "service_url" (PStr "")) = Ok html ->
         html <> "" ->
         collect_api_key_from_user w p
         = (envelope (json_dumps (status_error no_queue_qt)) false, w))
  /\ (forall p,
         truthy (get p "content") = true ->
         slice_error (get p "content") = None ->
         send_message_to_user w p
         = (create_error_response
              "No UI request queue available. Ensure friday.py is running."
              false, w))
  /\ (forall p,
         check_user_messages w p
         = (create_error_response
              "No UI request queue available. Ensure friday.py is running."
              false, w)
         /\ show_message_dashboard w p
            = (create_error_response
                 "No UI request queue available. Ensure friday.py is running."
                 false, w))
  /\ (forall p,
         hide_message_dashboard w p
         = (create_error_response "No UI request queue available." false, w)
         /\ get_message_history w p
            = (create_error_response "No UI request queue available." false, w)
         /\ clear_message_queues w p
            = (create_error_response "No UI request queue available." false, w))
  /\ (forall html,
         html <> "" ->
         handle_user w
           (call [ ("operation", PStr "show_popup");
                   ("tool_unlock_token", PStr TOOL_UNLOCK_TOKEN);
                   ("html", PStr html); ("timeout", PInt 0) ])
         = (envelope (json_dumps (status_error no_queue_qt)) false, w)).
Proof.
  intros Hq.
  assert (Hkey : forall p html,
             _generate_api_key_collection_html
               (get_default p "service_name" (PStr "API Service"))
               (get_default p "service_url" (PStr "")) = Ok html ->
             html <> "" ->
             collect_api_key_from_user w p
             = (envelope (json_dumps (status_error no_queue_qt)) false, w)).
  { intros p html Hgen Hne.
    destruct (collect_api_key_dialog w p html Hgen Hne) as [-> Hchk].
    now apply show_html_window_no_queue. }
  split; [|split; [|split; [|split; [|split; [|split; [|split; [|split]]]]]]].
  - intros top.
    destruct (handle_user_footprint w top)
      as [_ [(E1 & _ & E2 & _) | (q & r & E & _)]]; [|congruence].
    split; congruence.
  - intros top d vp Hc Htok Hval.
    split; [|split; [|split; [|split; [|split]]]].
    + intros Hop.
      destruct (accepted_dispatch w _ _ _ _ Hc Htok Hval Hop)
        as [-> Hv]; [discriminate|].
      rewrite (dispatch_test_queue _ _ Hv). now apply test_queue_no_queue.
    + intros Hop Hchk.
      rewrite (handle_user_window _ _ _ _ Hc Htok Hval Hop).
      now apply show_html_window_no_queue.
    + intros Hop.
      destruct (accepted_dispatch w _ _ _ _ Hc Htok Hval Hop)
        as [-> Hv]; [discriminate|].
      rewrite (dispatch_collect_api_key _ _ Hv).
      assert (Hname : get_default vp "service_name" (PStr "API Service")
                      = given_or_default d "service_name").
      { unfold get_default.
        now rewrite (validated_or_default d vp "service_name" _ _ Hval
                       eq_refl eq_refl). }
      assert (Hurl : get_default vp "service_url" (PStr "")
                     = given_or_default d "service_url").
      { unfold get_default.
        now rewrite (validated_or_default d vp "service_url" _ _ Hval
                       eq_refl eq_refl). }
      split.
      * intros html Hgen Hne.
        apply (Hkey vp html); [|exact Hne]. now rewrite Hname, Hurl.
      * intros e Hgen. unfold collect_api_key_from_user.
        now rewrite Hname, Hurl, Hgen.
    + intros Hop Hcont.
      destruct (accepted_dispatch w _ _ _ _ Hc Htok Hval Hop)
        as [-> Hv]; [discriminate|].
      rewrite (dispatch_send_message _ _ Hv).
      destruct (validated_message_content d vp Hval) as [Hvc Hs].
      apply send_message_no_queue; [exact Hq | |]; rewrite Hvc; auto.
    + intros [Hop|Hop];
        (destruct (accepted_dispatch w _ _ _ _ Hc Htok Hval Hop)
           as [-> Hv]; [discriminate|]).
      * rewrite (dispatch_check_messages _ _ Hv).
        now apply check_messages_no_queue.
      * rewrite (dispatch_show_dashboard _ _ Hv).
        now apply plain_request_no_queue.
    + intros [Hop|[Hop|Hop]];
        (destruct (accepted_dispatch w _ _ _ _ Hc Htok Hval Hop)
           as [-> Hv]; [discriminate|]).
      * rewrite (dispatch_hide_dashboard _ _ Hv).
        now apply plain_request_no_queue.
      * rewrite (dispatch_message_history _ _ Hv).
        now apply plain_request_no_queue.
      * rewrite (dispatch_clear_messages _ _ Hv).
        now apply plain_request_no_queue.
  - intros p. now apply test_queue_no_queue.
  - intros p Hp. now apply show_html_window_no_queue.
  - exact Hkey.
  - intros p Hc Hs. now apply send_message_no_queue.
  - intros p. split;
      [now apply check_messages_no_queue | now apply plain_request_no_queue].
  - intros p. repeat split; now apply plain_request_no_queue.
  - intros html Hh. rewrite popup_call_accepted by reflexivity.
    unfold validate_and_dispatch. run_validate.
    rewrite (dispatch_window w _ (PStr "show_popup")) by reflexivity.
    apply show_html_window_no_queue; [exact Hq|].
    unfold window_param_error. simpl.
    apply String.eqb_neq in Hh. now rewrite Hh.
Qed.


End BrokerClaims.

Section WaitBounds.
Context `{Host}.

Lemma waits_with_bound_ext (h1 h2 : World -> pyval * World) (w : World)
  (q : list UIRequest) (r : UIRequest) (b : Z) (msg : string) :
  h1 w = h2 w ->
  waits_with_bound h2 w q r b msg ->
  waits_with_bound h1 w q r b msg.
Proof. unfold waits_with_bound. intros ->. auto. Qed.

Lemma send_message_waits (w : World) (q : list UIRequest) (p : pydict) :
  friday_ui_queue w = Some q ->
  truthy (get p "content") = true ->
  slice_error (get p "content") = None ->
  waits_with_bound (fun w0 => send_message_to_user w0 p) w q
    (send_message_request (reply_queues w) (new_message w p)
       (get_default p "show_dashboard" (PBool true)))
    5 "Timeout waiting for message queue confirmation".
Proof.
  intros Hq Hc Hs. unfold waits_with_bound, send_message_to_user, reply_get.
  rewrite Hc, Hs, Hq. simpl.
  change (put _ q ?r) with (submitted w q r).
  rewrite queue_get_within by lia.
  destruct (reply_queue_get _ _ 5%Z); split; try reflexivity; discriminate.
Qed.

Lemma check_messages_waits (w : World) (q : list UIRequest) (p : pydict) :
  friday_ui_queue w = Some q ->
  waits_with_bound (fun w0 => check_user_messages w0 p) w q
    (check_messages_request (reply_queues w)
       (get_default p "mark_as_read" (PBool true)) (get p "filter_type")
       (get p "since_timestamp"))
    5 "Timeout waiting for message check response".
Proof.
  intros Hq. unfold waits_with_bound, check_user_messages, reply_get.
  rewrite Hq. simpl.
  change (put _ q ?r) with (submitted w q r).
  rewrite queue_get_within by lia.
  destruct (reply_queue_get _ _ 5%Z) as [[| | | | | |resp]|];
    try (split; [reflexivity | discriminate]).
  - destruct (py_len (get_default resp "messages" (PList [])));
      (split; [reflexivity | discriminate]).
  - split; reflexivity.
Qed.

(** A window that passes its checks and waits, with an integer timeout. *)
Lemma show_html_window_waits (w : World) (q : list UIRequest) (p : pydict)
  (t : Z) :
  friday_ui_queue w = Some q ->
  window_param_error p = None ->
  truthy (get_default p "wait_for_response" (PBool true)) = true ->
  int_value (get_default p "timeout" (PInt 0)) = Some t ->
  let bound := if (0 <? t)%Z then (t + 5)%Z else 65%Z in
  let r := window_request_of (reply_queues w) p in
  show_html_window w p
  = (dumps_response
       match queue_get (submitted w q r) r bound with
       | Got response => response
       | Empty =>
           status_timeout
             ("UI request timed out after " ++ str_of_Z bound ++ " seconds")
       | GetRaised e => status_error ("Error in UI communication: " ++ e)
       end "Error showing HTML window: ",
     with_get (submitted w q r) (reply_queues w, bound)).
Proof.
  intros Hq Hp Hw Ht bound r. unfold show_html_window. rewrite Hp.
  rewrite (window_waits w q t) by assumption. reflexivity.
Qed.

(** C4, as amended: a window call that waits reads its reply queue with
    the bound [timeout + 5] when the timeout is positive and with 65 when
    it is 0, the API key dialog with 305; the message operations wait 5
    seconds, [show_dashboard] among them 10.  When nothing arrives within a
    bound that the lock of the queue can wait for, the caller gets an
    outcome of its own: the status ["timeout"] for a window, an error
    response that names the timeout for a message operation.  A window
    bound above [threading.TIMEOUT_MAX] makes [get] raise at once on the
    empty reply queue, and a bound beyond the floats before that: the
    window then reports the status ["error"].  All this is stated of the
    helper and of the accepted calls. *)
Theorem C4_wait_bounds (w : World) (q : list UIRequest) :
  friday_ui_queue w = Some q ->
  (forall t html title width height modal timeout cos aot btf ar url rs wait,
      truthy wait = true ->
      int_value timeout = Some t ->
      let bound := if (0 <? t)%Z then (t + 5)%Z else 65%Z in
      let r := window_request (reply_queues w) html title width height modal
                 timeout cos aot btf ar url rs in
      let result := _show_webengine_window w html title width height modal
                      timeout cos aot btf ar url rs wait in
      reply_gets (snd result)
      = (reply_gets w ++ [(reply_queues w, Whole bound)])%list
      /\ ((bound <= TIMEOUT_MAX)%Z ->
          reply_queue_get (submitted w q r) r bound = None ->
          fst result
          = status_timeout
              ("UI request timed out after " ++ str_of_Z bound ++ " seconds"))
      /\ ((TIMEOUT_MAX < bound < float_overflow)%Z ->
          reply_queue_get (submitted w q r) r 0 = None ->
          fst result
          = status_error
              ("Error in UI communication: " ++ lock_timeout_error bound))
      /\ ((float_overflow <= bound)%Z ->
          fst result
          = status_error
              "Error in UI communication: int too large to convert to float"))
  /\ (forall top d vp t,
         collapse_input top = PDict d ->
         token_accepted (get d "tool_unlock_token") = Ok true ->
         validate_parameters d = (None, vp) ->
         in_strs (get d "operation") ["show_popup"; "show_dialog"] = true ->
         window_param_error (with_window_modal (get d "operation") vp) = None ->
         truthy (given_or_default d "wait_for_response") = true ->
         int_value (given_or_default d "timeout") = Some t ->
         let bound := if (0 <? t)%Z then (t + 5)%Z else 65%Z in
         let r := window_request_of (reply_queues w)
                    (with_window_modal (get d "operation") vp) in
         reply_gets (snd (handle_user w top))
         = (reply_gets w ++ [(reply_queues w, Whole bound)])%list
         /\ ((bound <= TIMEOUT_MAX)%Z ->
             reply_queue_get (submitted w q r) r bound = None ->
             fst (handle_user w top)
             = envelope
                 (json_dumps
                    (status_timeout
                       ("UI request timed out after " ++ str_of_Z bound
                        ++ " seconds")))
                 false)
         /\ ((TIMEOUT_MAX < bound < float_overflow)%Z ->
             reply_queue_get (submitted w q r) r 0 = None ->
             fst (handle_user w top)
             = envelope
                 (json_dumps
                    (status_error
                       ("Error in UI communication: "
                        ++ lock_timeout_error bound)))
                 false)
         /\ ((float_overflow <= bound)%Z ->
             fst (handle_user w top)
             = envelope
                 (json_dumps
                    (status_error
                       "Error in UI communication: int too large to convert to float"))
                 false))
  /\ (forall top d vp html,
         collapse_input top = PDict d ->
         token_accepted (get d "tool_unlock_token") = Ok true ->
         validate_parameters d = (None, vp) ->
         get d "operation" = PStr "collect_api_key" ->
         _generate_api_key_collection_html
           (given_or_default d "service_name")
           (given_or_default d "service_url") = Ok html ->
         html <> "" ->
         let r := window_request_of (reply_queues w)
                    (api_key_dialog (given_or_default d "service_name")
                       html) in
         reply_gets (snd (handle_user w top))
         = (reply_gets w ++ [(reply_queues w, Whole 305)])%list
         /\ (reply_queue_get (submitted w q r) r 305 = None ->
             fst (handle_user w top)
             = envelope
                 (json_dumps
                    (status_timeout "UI request timed out after 305 seconds"))
                 false))
  /\ (forall top d vp,
         collapse_input top = PDict d ->
         token_accepted (get d "tool_unlock_token") = Ok true ->
         validate_parameters d = (None, vp) ->
         (get d "operation" = PStr "send_message" ->
          truthy (get d "content") = true ->
          waits_with_bound (fun w0 => handle_user w0 top) w q
            (send_message_request (reply_queues w) (new_message w vp)
               (get_default vp "show_dashboard" (PBool true)))
            5 "Timeout waiting for message queue confirmation")
         /\ (get d "operation" = PStr "check_messages" ->
             waits_with_bound (fun w0 => handle_user w0 top) w q
               (check_messages_request (reply_queues w)
                  (get_default vp "mark_as_read" (PBool true))
                  (get vp "filter_type") (get vp "since_timestamp"))
               5 "Timeout waiting for message check response")
         /\ (get d "operation" = PStr "show_dashboard" ->
             waits_with_bound (fun w0 => handle_user w0 top) w q
               (plain_ui_request "show_dashboard" (reply_queues w))
               10 "Timeout waiting for dashboard to show")
         /\ (get d "operation" = PStr "hide_dashboard" ->
             waits_with_bound (fun w0 => handle_user w0 top) w q
               (plain_ui_request "hide_dashboard" (reply_queues w))
               5 "Timeout waiting for dashboard to hide")
         /\ (get d "operation" = PStr "get_message_history" ->
             waits_with_bound (fun w0 => handle_user w0 top) w q
               (plain_ui_request "get_message_history" (reply_queues w))
               5 "Timeout waiting for message history")
         /\ (get d "operation" = PStr "clear_messages" ->
             waits_with_bound (fun w0 => handle_user w0 top) w q
               (plain_ui_request "clear_messages" (reply_queues w))
               5 "Timeout waiting for clear confirmation")).
Proof.
  intros Hq.
  pose proof TIMEOUT_MAX_range as [Hleast Hfloat].
  split; [|split; [|split]].
  - intros t html title width height modal timeout cos aot btf ar url rs wait
      Hw Ht bound r result. subst result.
    rewrite (window_waits w q t) by assumption. fold bound. fold r. simpl.
    assert (Hpos : (0 <= bound)%Z)
      by (unfold bound; destruct (0 <? t)%Z eqn:E;
          [apply Z.ltb_lt in E|]; lia).
    split; [reflexivity | split; [|split]].
    + intros Hb Hnone. rewrite queue_get_waits by lia. now rewrite Hnone.
    + intros Hb Hnone. now rewrite queue_get_too_long.
    + intros Hb. now rewrite queue_get_beyond_floats.
  - intros top d vp t Hc Htok Hval Hop Hchk Hw Ht bound r.
    rewrite (handle_user_window _ _ _ _ Hc Htok Hval Hop).
    destruct (validated_get_default d vp (get d "operation")
                "wait_for_response" _ _ (PBool true) Hval eq_refl eq_refl)
      as [Ew _]; [discriminate|].
    destruct (validated_get_default d vp (get d "operation")
                "timeout" _ _ (PInt 0) Hval eq_refl eq_refl)
      as [Et _]; [discriminate|].
    rewrite <- Ew in Hw. rewrite <- Et in Ht.
    rewrite (show_html_window_waits w q _ t Hq Hchk Hw Ht).
    fold bound. fold r. simpl.
    assert (Hpos : (0 <= bound)%Z)
      by (unfold bound; destruct (0 <? t)%Z eqn:E;
          [apply Z.ltb_lt in E|]; lia).
    split; [reflexivity | split; [|split]].
    + intros Hb Hnone. rewrite queue_get_waits by lia. rewrite Hnone.
      apply dumps_status_timeout.
    + intros Hb Hnone. rewrite queue_get_too_long by assumption.
      apply dumps_status_error.
    + intros Hb. rewrite queue_get_beyond_floats by assumption.
      apply dumps_status_error.
  - intros top d vp html Hc Htok Hval Hop Hgen Hne r.
    destruct (accepted_dispatch w _ _ _ _ Hc Htok Hval Hop)
      as [E Hv]; [discriminate|].
    rewrite E, (dispatch_collect_api_key _ _ Hv).
    assert (Hname : get_default vp "service_name" (PStr "API Service")
                    = given_or_default d "service_name").
    { unfold get_default.
      now rewrite (validated_or_default d vp "service_name" _ _ Hval
                     eq_refl eq_refl). }
    assert (Hurl : get_default vp "service_url" (PStr "")
                   = given_or_default d "service_url").
    { unfold get_default.
      now rewrite (validated_or_default d vp "service_url" _ _ Hval
                     eq_refl eq_refl). }
    destruct (collect_api_key_dialog w vp html) as [Edlg Hchk];
      [now rewrite Hname, Hurl | exact Hne |].
    rewrite Hname in Edlg, Hchk. rewrite Edlg.
    rewrite (show_html_window_waits w q _ 300 Hq Hchk eq_refl eq_refl).
    fold r. simpl. rewrite queue_get_within by lia.
    split; [reflexivity|].
    intros Hnone. rewrite Hnone. now rewrite dumps_status_timeout.
  - intros top d vp Hc Htok Hval.
    split; [|split; [|split; [|split; [|split]]]]; intros Hop.
    + intros Hcont.
      destruct (accepted_dispatch w _ _ _ _ Hc Htok Hval Hop)
        as [E Hv]; [discriminate|].
      destruct (validated_message_content d vp Hval) as [Hvc Hs].
      apply (waits_with_bound_ext _ (fun w0 => send_message_to_user w0 vp)).
      { rewrite E. now apply dispatch_send_message. }
      apply send_message_waits; [exact Hq | |]; rewrite Hvc; auto.
    + destruct (accepted_dispatch w _ _ _ _ Hc Htok Hval Hop)
        as [E Hv]; [discriminate|].
      apply (waits_with_bound_ext _ (fun w0 => check_user_messages w0 vp)).
      { rewrite E. now apply dispatch_check_messages. }
      now apply check_messages_waits.
    + destruct (accepted_dispatch w _ _ _ _ Hc Htok Hval Hop)
        as [E Hv]; [discriminate|].
      apply (waits_with_bound_ext _
               (fun w0 => show_message_dashboard w0 vp)).
      { rewrite E. now apply dispatch_show_dashboard. }
      apply plain_request_waits; [exact Hq | lia].
    + destruct (accepted_dispatch w _ _ _ _ Hc Htok Hval Hop)
        as [E Hv]; [discriminate|].
      apply (waits_with_bound_ext _
               (fun w0 => hide_message_dashboard w0 vp)).
      { rewrite E. now apply dispatch_hide_dashboard. }
      apply plain_request_waits; [exact Hq | lia].
    + destruct (accepted_dispatch w _ _ _ _ Hc Htok Hval Hop)
        as [E Hv]; [discriminate|].
      apply (waits_with_bound_ext _ (fun w0 => get_message_history w0 vp)).
      { rewrite E. now apply dispatch_message_history. }
      apply plain_request_waits; [exact Hq | lia].
    + destruct (accepted_dispatch w _ _ _ _ Hc Htok Hval Hop)
        as [E Hv]; [discriminate|].
      apply (waits_with_bound_ext _ (fun w0 => clear_message_queues w0 vp)).
      { rewrite E. now apply dispatch_clear_messages. }
      apply plain_request_waits; [exact Hq | lia].
Qed.

End WaitBounds.

(** ** The dispatcher: validation errors, window content, totality *)

Ltac envelope_shape :=
  unfold is_envelope, create_error_response, must_be_boolean, readme_response;
  do 2 eexists; reflexivity.

Ltac error_shape :=
  unfold is_error, create_error_response, must_be_boolean;
  eexists; reflexivity.

Section Dispatcher.
Context `{Host}.

Lemma dumps_response_envelope (v : pyval) (prefix : string) :
  is_envelope (dumps_response v prefix).
Proof. unfold dumps_response. destruct (dumps v); envelope_shape. Qed.

Lemma window_param_error_envelope (p : pydict) (e : pyval) :
  window_param_error p = Some e -> is_envelope e.
Proof.
  unfold window_param_error.
  repeat match goal with
         | |- context [if ?c then _ else _] => destruct c
         end;
    intros E; inversion E; envelope_shape.
Qed.

Lemma show_html_window_envelope (w : World) (p : pydict) :
  is_envelope (fst (show_html_window w p)).
Proof.
  unfold show_html_window.
  destruct (window_param_error p) as [e|] eqn:E.
  - apply (window_param_error_envelope _ _ E).
  - match goal with
    | |- context [let (_, _) := ?c in _] => destruct c
    end.
    apply dumps_response_envelope.
Qed.

Lemma plain_request_envelope (w : World) (name no_queue : string) (bound : Z)
  (on_reply : pyval -> exc pyval) (on_timeout on_error : string) :
  is_envelope
    (fst (plain_request w name no_queue bound on_reply on_timeout on_error)).
Proof.
  unfold plain_request, reply_get.
  destruct (friday_ui_queue w); [|envelope_shape]. simpl.
  match goal with
  | |- context [queue_get ?a ?r ?b] =>
      destruct (queue_get a r b) as [resp| |e]
  end; simpl; try envelope_shape.
  destruct (on_reply resp); simpl;
    [apply dumps_response_envelope | envelope_shape].
Qed.

Lemma test_queue_envelope (w : World) (p : pydict) :
  is_envelope (fst (test_queue_communication w p)).
Proof.
  unfold test_queue_communication.
  destruct (_test_queue_message_passing w _). apply dumps_response_envelope.
Qed.

Lemma show_toast_envelope (w : World) (p : pydict) :
  is_envelope (fst (show_toast_notification w p)).
Proof.
  unfold show_toast_notification.
  repeat match goal with
         | |- context [if ?c then _ else _] => destruct c
         end; try envelope_shape.
  destruct (_emit_toast_message w _ _). apply dumps_response_envelope.
Qed.

Lemma collect_api_key_envelope (w : World) (p : pydict) :
  is_envelope (fst (collect_api_key_from_user w p)).
Proof.
  unfold collect_api_key_from_user.
  match goal with
  | |- context [_generate_api_key_collection_html ?a ?b] =>
      destruct (_generate_api_key_collection_html a b)
  end; [apply show_html_window_envelope | envelope_shape].
Qed.

Lemma send_message_envelope (w : World) (p : pydict) :
  is_envelope (fst (send_message_to_user w p)).
Proof.
  unfold send_message_to_user, reply_get.
  destruct (negb (truthy (get p "content"))); [envelope_shape|].
  destruct (slice_error (get p "content")); [envelope_shape|].
  destruct (friday_ui_queue w); [|envelope_shape]. simpl.
  match goal with
  | |- context [queue_get ?a ?r ?b] => destruct (queue_get a r b)
  end; simpl; try envelope_shape.
  apply dumps_response_envelope.
Qed.

Lemma check_messages_envelope (w : World) (p : pydict) :
  is_envelope (fst (check_user_messages w p)).
Proof.
  unfold check_user_messages, reply_get.
  destruct (friday_ui_queue w); [|envelope_shape]. simpl.
  match goal with
  | |- context [queue_get ?a ?r ?b] =>
      destruct (queue_get a r b) as [[| | | | | |resp]| |e]
  end; try envelope_shape.
  destruct (py_len (get_default resp "messages" (PList []))); simpl;
    [apply dumps_response_envelope | envelope_shape].
Qed.

Lemma dispatch_envelope (w : World) (vp : pydict) :
  is_envelope (fst (dispatch w vp)).
Proof.
  unfold dispatch, show_message_dashboard, hide_message_dashboard,
    get_message_history, clear_message_queues.
  repeat match goal with
         | |- context [if eq_str ?a ?b then _ else _] => destruct (eq_str a b)
         | |- context [if in_strs ?a ?b then _ else _] => destruct (in_strs a b)
         end;
    first [ apply test_queue_envelope | apply show_toast_envelope
          | apply collect_api_key_envelope | apply show_html_window_envelope
          | apply send_message_envelope | apply check_messages_envelope
          | apply plain_request_envelope | envelope_shape ].
Qed.

Lemma handle_user_envelope (w : World) (top : pydict) :
  is_envelope (fst (handle_user w top)).
Proof.
  unfold handle_user, handle_user_body.
  destruct (collapse_input top) as [| | | | | |d]; try envelope_shape.
  destruct (eq_str (get d "operation") "readme"); [envelope_shape|].
  destruct (is_inter_tool_call (get d "tool_unlock_token")) as [inter|e];
    [|envelope_shape].
  destruct (negb (eq_str (get d "tool_unlock_token") TOOL_UNLOCK_TOKEN)
            && negb inter); [envelope_shape|].
  unfold validate_and_dispatch.
  destruct (validate_parameters d) as [[e|] vp]; [envelope_shape|].
  pose proof (dispatch_envelope w vp) as He.
  destruct (dispatch w vp). exact He.
Qed.

Lemma handle_user_body_raise (w w' : World) (top : pydict) (e : string) :
  handle_user_body w top = (Raise e, w') -> w' = w.
Proof.
  unfold handle_user_body.
  destruct (collapse_input top) as [| | | | | |d]; try discriminate.
  destruct (eq_str (get d "operation") "readme"); [discriminate|].
  destruct (is_inter_tool_call (get d "tool_unlock_token")) as [inter|x].
  - destruct (negb (eq_str (get d "tool_unlock_token") TOOL_UNLOCK_TOKEN)
              && negb inter); [discriminate|].
    destruct (validate_and_dispatch w d). discriminate.
  - intros E. now inversion E.
Qed.

(** C5, as amended: for an input that is not a [readme] call, a parameter
    outside the schema, a missing required parameter, a value that is not
    of the declared type (the integer test passes the instances of [int])
    or a value outside a declared enum makes the call return an error
    response with the documentation attached, and nothing is dispatched:
    the world is unchanged.  When the token is accepted that error is the
    message of [validate_parameters]. *)
Theorem C5_schema_violation_rejected (w : World) (top d : pydict) :
  collapse_input top = PDict d ->
  eq_str (get d "operation") "readme" = false ->
  schema_violation d ->
  (exists msg, handle_user w top = (envelope (msg ++ readme true) true, w))
  /\ (token_accepted (get d "tool_unlock_token") = Ok true ->
      exists e,
        validate_parameters d = (Some e, [])
        /\ handle_user w top = (create_error_response e true, w)).
Proof.
  intros Hc Hop Hbad.
  destruct (violation_rejected d Hop Hbad) as [e He].
  rewrite (handle_user_gate _ _ _ Hc Hop).
  unfold validate_and_dispatch. rewrite He. split.
  - destruct (token_accepted (get d "tool_unlock_token")) as [[|]|x];
      eexists; reflexivity.
  - intros ->. eauto.
Qed.

(** C8, as amended: an accepted [show_popup] or [show_dialog] call in which
    [html] and [url] both have a true value (a non-empty string), or in
    which neither has (absent or empty), returns an error response with the
    documentation attached, and no request is put on the queue. *)
Theorem C8_html_xor_url (w : World) (top d : pydict) :
  collapse_input top = PDict d ->
  token_accepted (get d "tool_unlock_token") = Ok true ->
  in_strs (get d "operation") ["show_popup"; "show_dialog"] = true ->
  truthy (get d "html") = truthy (get d "url") ->
  exists msg, handle_user w top = (envelope (msg ++ readme true) true, w).
Proof.
  intros Hc Htok Hop Hsame.
  destruct (validate_parameters d) as [[e|] vp] eqn:Hval.
  - assert (Hnr : eq_str (get d "operation") "readme" = false)
      by (destruct (window_op_cases _ Hop) as [-> | ->]; reflexivity).
    rewrite (handle_user_gate _ _ _ Hc Hnr), Htok.
    unfold validate_and_dispatch. rewrite Hval. eexists. reflexivity.
  - rewrite (handle_user_window _ _ _ _ Hc Htok Hval Hop).
    unfold show_html_window, window_param_error.
    destruct (window_content_unchanged d vp (get d "operation") Hval)
      as [-> ->].
    rewrite Hsame. destruct (truthy (get d "url")); simpl;
      eexists; reflexivity.
Qed.

(** *** The failures of an accepted call *)

Lemma window_param_error_is_error (p : pydict) (e : pyval) :
  window_param_error p = Some e -> is_error e.
Proof.
  unfold window_param_error.
  repeat match goal with
         | |- context [if ?c then _ else _] => destruct c
         end;
    intros E; inversion E; error_shape.
Qed.

Lemma message_operation_cases (op : pyval) :
  in_strs op message_operations = true ->
  op = PStr "send_message" \/ op = PStr "check_messages"
  \/ op = PStr "show_dashboard" \/ op = PStr "hide_dashboard"
  \/ op = PStr "get_message_history" \/ op = PStr "clear_messages".
Proof.
  destruct op as [| | | |s| |]; simpl; try discriminate.
  rewrite orb_false_r. intros E.
  repeat (apply orb_true_iff in E;
          destruct E as [E|E];
          [apply String.eqb_eq in E; subst; auto 10|]).
  apply String.eqb_eq in E. subst. auto 10.
Qed.

(** A plain operation fails with an error response when there is no queue
    and when nothing is answered. *)
Lemma plain_request_fails (w : World) (name no_queue : string) (bound : Z)
  (on_reply : pyval -> exc pyval) (on_timeout on_error : string) :
  (0 <= bound <= 4294967)%Z ->
  friday_ui_queue w = None
  \/ (exists q, friday_ui_queue w = Some q /\ no_answer w q) ->
  is_error
    (fst (plain_request w name no_queue bound on_reply on_timeout on_error)).
Proof.
  intros Hb [Hq | (q & Hq & Hno)].
  - rewrite plain_request_no_queue by assumption. error_shape.
  - destruct (plain_request_waits w q name no_queue bound on_reply on_timeout
                on_error Hq Hb) as [_ Ht].
    cbv beta in Ht. rewrite (Ht (Hno _ _)). error_shape.
Qed.

Lemma send_message_fails (w : World) (p : pydict) :
  friday_ui_queue w = None
  \/ (exists q, friday_ui_queue w = Some q /\ no_answer w q) ->
  is_error (fst (send_message_to_user w p)).
Proof.
  intros Hcase.
  destruct (truthy (get p "content")) eqn:Hc;
    [|unfold send_message_to_user; rewrite Hc; error_shape].
  destruct (slice_error (get p "content")) as [e|] eqn:Hs;
    [unfold send_message_to_user; rewrite Hc, Hs; error_shape|].
  destruct Hcase as [Hq | (q & Hq & Hno)].
  - rewrite send_message_no_queue by assumption. error_shape.
  - destruct (send_message_waits w q p Hq Hc Hs) as [_ Ht].
    cbv beta in Ht. rewrite (Ht (Hno _ _)). error_shape.
Qed.

Lemma check_messages_fails (w : World) (p : pydict) :
  friday_ui_queue w = None
  \/ (exists q, friday_ui_queue w = Some q /\ no_answer w q) ->
  is_error (fst (check_user_messages w p)).
Proof.
  intros [Hq | (q & Hq & Hno)].
  - rewrite check_messages_no_queue by assumption. error_shape.
  - destruct (check_messages_waits w q p Hq) as [_ Ht].
    cbv beta in Ht. rewrite (Ht (Hno _ _)). error_shape.
Qed.

(** The six message operations answer a missing queue, and a reply that
    does not come, by an error response. *)
Lemma message_operation_fails (w : World) (vp : pydict) :
  in_strs (get vp "operation") message_operations = true ->
  friday_ui_queue w = None
  \/ (exists q, friday_ui_queue w = Some q /\ no_answer w q) ->
  is_error (fst (dispatch w vp)).
Proof.
  intros Hop Hcase.
  destruct (message_operation_cases _ Hop) as [E|[E|[E|[E|[E|E]]]]].
  - rewrite (dispatch_send_message _ _ E). now apply send_message_fails.
  - rewrite (dispatch_check_messages _ _ E). now apply check_messages_fails.
  - rewrite (dispatch_show_dashboard _ _ E).
    apply plain_request_fails; [lia | exact Hcase].
  - rewrite (dispatch_hide_dashboard _ _ E).
    apply plain_request_fails; [lia | exact Hcase].
  - rewrite (dispatch_message_history _ _ E).
    apply plain_request_fails; [lia | exact Hcase].
  - rewrite (dispatch_clear_messages _ _ E).
    apply plain_request_fails; [lia | exact Hcase].
Qed.

(** The operations that read the answer refuse one that is not a dict. *)
Lemma answer_not_a_dict (w : World) (q : list UIRequest) (p : pydict)
  (resp : pyval) :
  friday_ui_queue w = Some q ->
  answers w q resp ->
  is_dict resp = false ->
  is_error (fst (check_user_messages w p))
  /\ is_error (fst (get_message_history w p)).
Proof.
  intros Hq Ha Hd. split.
  - unfold check_user_messages, reply_get. rewrite Hq. simpl.
    change (put _ q ?r) with (submitted w q r).
    rewrite queue_get_within by lia. rewrite Ha.
    destruct resp; try discriminate; error_shape.
  - unfold get_message_history, plain_request, reply_get. rewrite Hq. simpl.
    change (put _ q ?r) with (submitted w q r).
    rewrite queue_get_within by lia. rewrite Ha.
    destruct resp; try discriminate; error_shape.
Qed.

(** An answer whose list has no length, or is refused by [json.dumps]. *)
Lemma unreadable_list (w : World) (q : list UIRequest) (p rd : pydict) :
  friday_ui_queue w = Some q ->
  answers w q (PDict rd) ->
  ((forall n,
       py_len (get_default rd "messages" (PList [])) = Ok n ->
       json_dumps_error
         (PDict [ ("messages", get_default rd "messages" (PList []));
                  ("count", PInt n) ]) <> None) ->
   is_error (fst (check_user_messages w p)))
  /\ ((forall n,
          py_len (get_default rd "history" (PList [])) = Ok n ->
          json_dumps_error
            (PDict [ ("history", get_default rd "history" (PList []));
                     ("count", PInt n) ]) <> None) ->
      is_error (fst (get_message_history w p))).
Proof.
  intros Hq Ha. split; intros Hbad.
  - unfold check_user_messages, reply_get. rewrite Hq. simpl.
    change (put _ q ?r) with (submitted w q r).
    rewrite queue_get_within by lia. rewrite Ha.
    destruct (py_len _) as [n|e] eqn:En; [|error_shape].
    destruct (json_dumps_error
                (PDict [ ("messages", get_default rd "messages" (PList []));
                         ("count", PInt n) ])) as [e|] eqn:E;
      [|now destruct (Hbad n eq_refl)].
    simpl. rewrite (dumps_response_raises _ _ _ E). error_shape.
  - unfold get_message_history, plain_request, reply_get. rewrite Hq. simpl.
    change (put _ q ?r) with (submitted w q r).
    rewrite queue_get_within by lia. rewrite Ha.
    destruct (py_len _) as [n|e] eqn:En; [|error_shape].
    destruct (json_dumps_error
                (PDict [ ("history", get_default rd "history" (PList []));
                         ("count", PInt n) ])) as [e|] eqn:E;
      [|now destruct (Hbad n eq_refl)].
    simpl. rewrite (dumps_response_raises _ _ _ E). error_shape.
Qed.

(** The queue test, with and without an answer. *)
Lemma test_queue_outcomes (w : World) (q : list UIRequest) (p : pydict) :
  friday_ui_queue w = Some q ->
  let r := test_queue_request w (reply_queues w)
             (get_default p "message" (PStr "Hello from user.py")) in
  test_queue_communication w p
  = (dumps_response
       match reply_queue_get (submitted w q r) r 10 with
       | Some response => response
       | None => status_timeout "Queue test timed out after 10 seconds"
       end "Queue communication test failed: ",
     with_get (submitted w q r) (reply_queues w, 10%Z)).
Proof.
  intros Hq r.
  unfold test_queue_communication, _test_queue_message_passing, reply_get.
  rewrite Hq. simpl. fold r. change (put _ q r) with (submitted w q r).
  rewrite queue_get_within by lia.
  now destruct (reply_queue_get (submitted w q r) r 10).
Qed.

(** The toast helper without a usable engine, or with one that raises. *)
Lemma show_toast_reports (w : World) (p : pydict) :
  truthy (get p "message") = true ->
  is_str (get p "message") = true ->
  in_strs (get_default p "level" (PStr "info")) levels = true ->
  let level := get_default p "level" (PStr "info") in
  let text := level_prefix level ++ " " ++ py_str (get p "message") in
  (main_engine w <> EngineReady ->
   reports_status (fst (show_toast_notification w p)) "error")
  /\ (forall e,
         main_engine w = EngineReady ->
         emit_message_error text (py_str level) = Some e ->
         show_toast_notification w p
         = (envelope
              (json_dumps (status_error ("Failed to emit toast message: " ++ e)))
              false, w)).
Proof.
  intros Hm Hs Hl level text. subst text level.
  unfold show_toast_notification, _emit_toast_message. cbv zeta.
  rewrite Hm, Hs, Hl. cbn [negb]. split.
  - intros Hno. destruct (main_engine w); simpl;
      try (rewrite dumps_status_error; eexists; reflexivity).
    now contradiction Hno.
  - intros e Hready He. rewrite Hready, He. simpl.
    now rewrite dumps_status_error.
Qed.

(** C9, as amended: [handle_user] returns a result envelope for every
    input, and an exception raised in its body is caught and becomes an
    error response with its message and the documentation, the world
    untouched.  Every failure that the handler or an operation detects is
    answered by an error response ([isError] true): an input that is not a
    dictionary, a token that the gate does not accept, an input that the
    validation refuses, window parameters that fail their checks, a toast
    without message, an API key page that cannot be generated or is empty, a
    message without content, and, for the six message operations, a missing
    request queue, a reply that does not come, a reply that is not a
    dictionary where one is read, and a list of messages in the reply
    whose length cannot be taken or that [json.dumps] cannot serialise; so
    is an answer to a queue test or to a window that [json.dumps] cannot
    serialise.  The failures that the
    window, queue-test and toast helpers detect themselves come back in the
    body of a success envelope ([isError] false), as the status ["error"]
    (no request queue, a wait that the lock refuses, no usable engine, an
    engine that raises) or ["timeout"] (no reply within the bound).  And
    whatever the outcome, a call changes the world at most by its own
    request, put last on the queue with a reply queue of its own, or by its
    own toast. *)
Theorem C9_total_and_contained (w : World) (top : pydict) :
  is_envelope (fst (handle_user w top))
  /\ (forall e w',
         handle_user_body w top = (Raise e, w') ->
         w' = w
         /\ handle_user w top
            = (envelope
                 (("Error in user interaction operation: " ++ e) ++ readme true)
                 true, w))
  /\ (is_dict (collapse_input top) = false ->
      is_error (fst (handle_user w top)))
  /\ (forall d,
         collapse_input top = PDict d ->
         eq_str (get d "operation") "readme" = false ->
         (token_accepted (get d "tool_unlock_token") <> Ok true ->
          is_error (fst (handle_user w top)))
         /\ (forall e vp,
                validate_parameters d = (Some e, vp) ->
                is_error (fst (handle_user w top))))
  /\ (forall d vp,
         collapse_input top = PDict d ->
         token_accepted (get d "tool_unlock_token") = Ok true ->
         validate_parameters d = (None, vp) ->
         let op := get d "operation" in
         let window := with_window_modal op vp in
         let result := fst (handle_user w top) in
         (* answered by an error response *)
         (in_strs op ["show_popup"; "show_dialog"] = true ->
          window_param_error window <> None ->
          is_error result)
         /\ (op = PStr "show_toast" ->
             truthy (get d "message") = false ->
             is_error result)
         /\ (op = PStr "collect_api_key" ->
             (exists e,
                 _generate_api_key_collection_html
                   (given_or_default d "service_name")
                   (given_or_default d "service_url") = Raise e)
             \/ _generate_api_key_collection_html
                  (given_or_default d "service_name")
                  (given_or_default d "service_url") = Ok "" ->
             is_error result)
         /\ (op = PStr "send_message" ->
             truthy (get d "content") = false ->
             is_error result)
         /\ (in_strs op message_operations = true ->
             friday_ui_queue w = None
             \/ (exists q, friday_ui_queue w = Some q /\ no_answer w q) ->
             is_error result)
         /\ (op = PStr "check_messages" \/ op = PStr "get_message_history" ->
             forall q resp,
               friday_ui_queue w = Some q ->
               answers w q resp ->
               is_dict resp = false ->
               is_error result)
         /\ (forall q rd,
                friday_ui_queue w = Some q ->
                answers w q (PDict rd) ->
                (op = PStr "check_messages" ->
                 (forall n,
                     py_len (get_default rd "messages" (PList [])) = Ok n ->
                     json_dumps_error
                       (PDict [ ("messages",
                                 get_default rd "messages" (PList []));
                                ("count", PInt n) ]) <> None) ->
                 is_error result)
                /\ (op = PStr "get_message_history" ->
                    (forall n,
                        py_len (get_default rd "history" (PList [])) = Ok n ->
                        json_dumps_error
                          (PDict [ ("history",
                                    get_default rd "history" (PList []));
                                   ("count", PInt n) ]) <> None) ->
                    is_error result))
         /\ (op = PStr "test_queue" ->
             forall q resp,
               friday_ui_queue w = Some q ->
               answers w q resp ->
               json_dumps_error resp <> None ->
               is_error result)
         /\ (in_strs op ["show_popup"; "show_dialog"] = true ->
             window_param_error window = None ->
             truthy (given_or_default d "wait_for_response") = true ->
             forall q resp t,
               friday_ui_queue w = Some q ->
               answers w q resp ->
               json_dumps_error resp <> None ->
               int_value (given_or_default d "timeout") = Some t ->
               (window_wait t < float_overflow)%Z ->
               is_error result)
         (* reported in the body of a success envelope *)
         /\ (op = PStr "test_queue" ->
             (friday_ui_queue w = None -> reports_status result "error")
             /\ (forall q,
                    friday_ui_queue w = Some q ->
                    no_answer w q ->
                    reports_status result "timeout"))
         /\ (in_strs op ["show_popup"; "show_dialog"] = true ->
             window_param_error window = None ->
             (friday_ui_queue w = None -> reports_status result "error")
             /\ (forall q t,
                    friday_ui_queue w = Some q ->
                    no_answer w q ->
                    truthy (given_or_default d "wait_for_response") = true ->
                    int_value (given_or_default d "timeout") = Some t ->
                    reports_status result
                      (if (window_wait t <=? TIMEOUT_MAX)%Z then "timeout"
                       else "error")))
         /\ (op = PStr "collect_api_key" ->
             forall html,
               _generate_api_key_collection_html
                 (given_or_default d "service_name")
                 (given_or_default d "service_url") = Ok html ->
               html <> "" ->
               (friday_ui_queue w = None -> reports_status result "error")
               /\ (forall q,
                      friday_ui_queue w = Some q ->
                      no_answer w q ->
                      reports_status result "timeout"))
         /\ (op = PStr "show_toast" ->
             truthy (get d "message") = true ->
             (main_engine w <> EngineReady -> reports_status result "error")
             /\ (forall e,
                    main_engine w = EngineReady ->
                    emit_message_error
                      (level_prefix (given_or_default d "level") ++ " "
                       ++ py_str (get d "message"))
                      (py_str (given_or_default d "level")) = Some e ->
                    reports_status result "error")))
  /\ own_request_only w (snd (handle_user w top)).
Proof.
  split; [apply handle_user_envelope|].
  split.
  { intros e w' Hb. pose proof (handle_user_body_raise _ _ _ _ Hb) as ->.
    split; [reflexivity|]. unfold handle_user. now rewrite Hb. }
  split.
  { intros Hd. rewrite (invalid_input_format w top Hd). error_shape. }
  split.
  { intros d Hc Hnr. rewrite (handle_user_gate _ _ _ Hc Hnr). split.
    - intros Hno.
      destruct (token_accepted (get d "tool_unlock_token")) as [[|]|x];
        [congruence | |]; error_shape.
    - intros e vp Hval. unfold validate_and_dispatch. rewrite Hval.
      destruct (token_accepted (get d "tool_unlock_token")) as [[|]|x];
        error_shape. }
  split; [|apply handle_user_footprint].
  intros d vp Hc Htok Hval op window result.
  assert (Hacc : forall s,
             op = PStr s -> s <> "readme" ->
             handle_user w top = dispatch w vp
             /\ get vp "operation" = PStr s).
  { intros s Hs Hne. now apply (accepted_dispatch w top d vp s). }
  assert (Hwin : in_strs op ["show_popup"; "show_dialog"] = true ->
                 handle_user w top = show_html_window w window).
  { intros Hop. now apply handle_user_window. }
  assert (Hwait : get_default window "wait_for_response" (PBool true)
                  = given_or_default d "wait_for_response").
  { eapply proj1. eapply validated_get_default;
      [exact Hval | reflexivity | reflexivity | discriminate]. }
  assert (Htime : get_default window "timeout" (PInt 0)
                  = given_or_default d "timeout").
  { eapply proj1. eapply validated_get_default;
      [exact Hval | reflexivity | reflexivity | discriminate]. }
  assert (Hname : get_default vp "service_name" (PStr "API Service")
                  = given_or_default d "service_name").
  { unfold get_default.
    now rewrite (validated_or_default d vp "service_name" _ _ Hval
                   eq_refl eq_refl). }
  assert (Hurl : get_default vp "service_url" (PStr "")
                 = given_or_default d "service_url").
  { unfold get_default.
    now rewrite (validated_or_default d vp "service_url" _ _ Hval
                   eq_refl eq_refl). }
  assert (Hmsg : get vp "message" = get d "message").
  { now destruct (validated_no_default d vp "message" _ Hval eq_refl
                    eq_refl). }
  destruct (validated_message_content d vp Hval) as [Hcont _].
  subst result.
  split; [|split; [|split; [|split; [|split; [|split; [|split; [|split;
    [|split; [|split; [|split; [|split]]]]]]]]]]].
  - (* window parameters *)
    intros Hop Hbad. rewrite (Hwin Hop). unfold show_html_window.
    destruct (window_param_error window) as [e|] eqn:E; [|congruence].
    apply (window_param_error_is_error _ _ E).
  - (* toast without message *)
    intros Hop Hm. destruct (Hacc _ Hop) as [-> Hv]; [discriminate|].
    rewrite (dispatch_show_toast _ _ Hv). unfold show_toast_notification.
    rewrite Hmsg, Hm. error_shape.
  - (* the page of the API key dialog *)
    intros Hop Hgen. destruct (Hacc _ Hop) as [-> Hv]; [discriminate|].
    rewrite (dispatch_collect_api_key _ _ Hv).
    unfold collect_api_key_from_user. rewrite Hname, Hurl.
    destruct Hgen as [[e Hgen] | Hgen]; rewrite Hgen; error_shape.
  - (* message without content *)
    intros Hop Hm. destruct (Hacc _ Hop) as [-> Hv]; [discriminate|].
    rewrite (dispatch_send_message _ _ Hv). unfold send_message_to_user.
    rewrite Hcont, Hm. error_shape.
  - (* message operations: no queue, no reply *)
    intros Hop Hcase.
    assert (Hnr : eq_str op "readme" = false)
      by (destruct (message_operation_cases _ Hop)
            as [E|[E|[E|[E|[E|E]]]]]; rewrite E; reflexivity).
    destruct (handle_user_accepted w _ _ _ Hc Htok Hval Hnr) as [-> Hv].
    apply message_operation_fails; [now rewrite Hv | exact Hcase].
  - (* a reply that is not a dict *)
    intros Hop q resp Hq Ha Hd.
    destruct (answer_not_a_dict w q vp resp Hq Ha Hd) as [Hchk Hhist].
    destruct Hop as [Hop|Hop];
      (destruct (Hacc _ Hop) as [-> Hv]; [discriminate|]).
    + now rewrite (dispatch_check_messages _ _ Hv).
    + now rewrite (dispatch_message_history _ _ Hv).
  - (* a list that cannot be counted or serialised *)
    intros q rd Hq Ha. split; intros Hop Hbad;
      (destruct (Hacc _ Hop) as [-> Hv]; [discriminate|]).
    + rewrite (dispatch_check_messages _ _ Hv).
      now apply (unreadable_list w q vp rd).
    + rewrite (dispatch_message_history _ _ Hv).
      now apply (unreadable_list w q vp rd).
  - (* queue test: an answer that cannot be serialised *)
    intros Hop q resp Hq Ha Hj.
    destruct (Hacc _ Hop) as [-> Hv]; [discriminate|].
    rewrite (dispatch_test_queue _ _ Hv), (test_queue_outcomes w q vp Hq).
    simpl. rewrite Ha.
    destruct (json_dumps_error resp) as [e|] eqn:E; [|congruence].
    rewrite (dumps_response_raises _ _ _ E). error_shape.
  - (* window: an answer that cannot be serialised *)
    intros Hop Hchk Hw q resp t Hq Ha Hj Ht Hf.
    rewrite (Hwin Hop). rewrite <- Hwait in Hw. rewrite <- Htime in Ht.
    rewrite (show_html_window_waits w q _ t Hq Hchk Hw Ht). simpl.
    assert (Hpos : (0 <= window_wait t)%Z)
      by (unfold window_wait; destruct (0 <? t)%Z eqn:E;
          [apply Z.ltb_lt in E|]; lia).
    fold (window_wait t).
    rewrite queue_get_ready; [|lia | rewrite Ha; discriminate].
    rewrite Ha.
    destruct (json_dumps_error resp) as [e|] eqn:E; [|congruence].
    rewrite (dumps_response_raises _ _ _ E). error_shape.
  - (* queue test *)
    intros Hop. destruct (Hacc _ Hop) as [-> Hv]; [discriminate|].
    rewrite (dispatch_test_queue _ _ Hv). split.
    + intros Hq. rewrite (test_queue_no_queue w vp Hq).
      eexists. reflexivity.
    + intros q Hq Hno. rewrite (test_queue_outcomes w q vp Hq). simpl.
      rewrite Hno, dumps_status_timeout. eexists. reflexivity.
  - (* window *)
    intros Hop Hchk. rewrite (Hwin Hop). split.
    + intros Hq. rewrite (show_html_window_no_queue w _ Hq Hchk).
      eexists. reflexivity.
    + intros q t Hq Hno Hw Ht.
      rewrite <- Hwait in Hw. rewrite <- Htime in Ht.
      rewrite (show_html_window_waits w q _ t Hq Hchk Hw Ht). simpl.
      assert (Hpos : (0 <= window_wait t)%Z)
        by (unfold window_wait; destruct (0 <? t)%Z eqn:E;
            [apply Z.ltb_lt in E|]; lia).
      fold (window_wait t).
      destruct (window_wait t <=? TIMEOUT_MAX)%Z eqn:Hb.
      * apply Z.leb_le in Hb. rewrite queue_get_waits by lia.
        rewrite Hno, dumps_status_timeout. eexists. reflexivity.
      * apply Z.leb_gt in Hb.
        destruct (Z_lt_le_dec (window_wait t) float_overflow) as [Hf|Hf].
        -- rewrite queue_get_too_long; [|lia | apply Hno].
           rewrite dumps_status_error. eexists. reflexivity.
        -- rewrite queue_get_beyond_floats by assumption.
           rewrite dumps_status_error. eexists. reflexivity.
  - (* the API key dialog *)
    intros Hop html Hgen Hne.
    destruct (Hacc _ Hop) as [-> Hv]; [discriminate|].
    rewrite (dispatch_collect_api_key _ _ Hv).
    rewrite <- Hname, <- Hurl in Hgen.
    destruct (collect_api_key_dialog w vp html Hgen Hne) as [-> Hchk].
    split.
    + intros Hq. rewrite (show_html_window_no_queue w _ Hq Hchk).
      eexists. reflexivity.
    + intros q Hq Hno.
      rewrite (show_html_window_waits w q _ 300 Hq Hchk eq_refl eq_refl).
      simpl. rewrite queue_get_within by lia.
      rewrite Hno, dumps_status_timeout. eexists. reflexivity.
  - (* toast *)
    intros Hop Hm. destruct (Hacc _ Hop) as [-> Hv]; [discriminate|].
    rewrite (dispatch_show_toast _ _ Hv).
    destruct (validated_level d vp Hval) as [Hl Hin].
    assert (Hs : is_str (get d "message") = true).
    { unfold get in Hm |- *.
      destruct (dict_get d "message") as [v|] eqn:G; [|discriminate].
      destruct (validated_lookup d vp "message" _ Hval
                  (lookup_schema_In "message" _ eq_refl)) as [_ Hok].
      now destruct (Hok v G). }
    rewrite <- Hmsg in Hm, Hs. rewrite <- Hl in Hin.
    destruct (show_toast_reports w vp Hm Hs Hin) as [Hno Hemit].
    cbv zeta in Hemit. rewrite Hl, Hmsg in Hemit.
    split; [exact Hno|].
    intros e Hready He. rewrite (Hemit e Hready He). eexists. reflexivity.
Qed.

End Dispatcher.

(** ** The modal flag of a window request *)

Section Modal.
Context `{Host}.

Lemma queue_not_extended (q : list UIRequest) (r : UIRequest) :
  Some q <> Some (q ++ [r])%list.
Proof.
  intros E. inversion E as [E']. apply (f_equal (@List.length _)) in E'.
  rewrite length_app in E'. simpl in E'. lia.
Qed.

(** The request a window call has put carries the [modal] parameter that
    [show_html_window] was given. *)
Lemma show_html_window_request (w : World) (q : list UIRequest)
  (r : UIRequest) (p : pydict) :
  friday_ui_queue w = Some q ->
  friday_ui_queue (snd (show_html_window w p)) = Some (q ++ [r])%list ->
  dict_get (data r) "modal" = Some (get_default p "modal" (PBool true))
  /\ operation r = "show_popup".
Proof.
  intros Hq. unfold show_html_window.
  destruct (window_param_error p).
  { simpl. rewrite Hq. intros E. now apply queue_not_extended in E. }
  match goal with
  | |- context [_show_webengine_window w ?a ?b ?c ?d ?e ?f ?g ?h ?i ?j ?k ?l ?m] =>
      pose proof (window_world w a b c d e f g h i j k l m) as Hw;
      destruct (_show_webengine_window w a b c d e f g h i j k l m) as [res w']
  end.
  cbv zeta in Hw. rewrite Hq in Hw. simpl in Hw |- *.
  assert (Hput : friday_ui_queue w'
                 = Some (q ++ [window_request (reply_queues w) (get p "html")
                     (get_default p "title" (PStr "User Interface"))
                     (get_default p "width" (PInt 600))
                     (get_default p "height" (PInt 400))
                     (get_default p "modal" (PBool true))
                     (get_default p "timeout" (PInt 0))
                     (get_default p "center_on_screen" (PBool true))
                     (get_default p "always_on_top" (PBool true))
                     (get_default p "bring_to_front" (PBool true))
                     (get_default p "auto_resize" (PBool false))
                     (get p "url")
                     (get_default p "resizable" (PBool false))])%list).
  { destruct (negb (truthy (get_default p "wait_for_response" (PBool true))));
      [now rewrite Hw|].
    destruct (max_wait_time (get_default p "timeout" (PInt 0)))
      as [[bound|f]|e]; now rewrite Hw. }
  rewrite Hput. intros E. inversion E as [E'].
  apply app_inv_head in E'. inversion E'. split; reflexivity.
Qed.

(** C10: the request that a [show_popup] call puts on the queue has
    [modal] false, whatever the caller gave; the request of a
    [show_dialog] call that gives no [modal] has [modal] true. *)
Theorem C10_modal_by_operation (w : World) (top d : pydict)
  (q : list UIRequest) (r : UIRequest) :
  collapse_input top = PDict d ->
  friday_ui_queue w = Some q ->
  friday_ui_queue (snd (handle_user w top)) = Some (q ++ [r])%list ->
  (get d "operation" = PStr "show_popup" ->
   dict_get (data r) "modal" = Some (PBool false))
  /\ (get d "operation" = PStr "show_dialog" ->
      dict_get d "modal" = None ->
      dict_get (data r) "modal" = Some (PBool true)).
Proof.
  intros Hc Hq Hput.
  assert (Hwin : forall op,
             get d "operation" = PStr op ->
             in_strs (PStr op) ["show_popup"; "show_dialog"] = true ->
             exists vp,
               validate_parameters d = (None, vp)
               /\ dict_get (data r) "modal"
                  = Some (get_default (with_window_modal (PStr op) vp) "modal"
                            (PBool true))).
  { intros op Hop Hin.
    assert (Hnr : eq_str (get d "operation") "readme" = false).
    { rewrite Hop. destruct (window_op_cases _ Hin) as [E | E];
        inversion E; reflexivity. }
    rewrite (handle_user_gate _ _ _ Hc Hnr) in Hput.
    destruct (token_accepted (get d "tool_unlock_token")) as [[|]|x] eqn:Htok;
      try (simpl in Hput; rewrite Hq in Hput;
           now apply queue_not_extended in Hput).
    unfold validate_and_dispatch in Hput.
    destruct (validate_parameters d) as [[e|] vp] eqn:Hval.
    { simpl in Hput. rewrite Hq in Hput. now apply queue_not_extended in Hput. }
    exists vp. split; [reflexivity|].
    rewrite (dispatch_window w vp (PStr op)) in Hput; [|assumption|].
    - apply (show_html_window_request w q r _ Hq Hput).
    - unfold get. rewrite (validated_value d vp "operation" _ Hval eq_refl).
      unfold get in Hop. now destruct (dict_get d "operation"). }
  split.
  - intros Hop. destruct (Hwin _ Hop eq_refl) as (vp & _ & ->).
    unfold with_window_modal, get_default. simpl.
    now rewrite dict_get_set_same.
  - intros Hop Hno. destruct (Hwin _ Hop eq_refl) as (vp & Hval & ->).
    pose proof (validated_value d vp "modal" _ Hval eq_refl) as Hm.
    rewrite Hno in Hm. simpl in Hm.
    unfold with_window_modal, get_default, dict_mem. simpl.
    rewrite Hm. simpl. now rewrite Hm.
Qed.

End Modal.

(** ** Worked instances *)

(** The calling part of a token ["-caller-tk42"] has no delimiter, and the
    token passes the gate of the installation whose token is ["tk42"]. *)
Lemma C1_delegation_token_gate_witness :
  has_char "-" "caller" = false
  /\ token_accepted (H := silent_host) (PStr "-caller-tk42") = Ok true.
Proof.
  split; [reflexivity|].
  destruct (C1_delegation_token_gate (H := silent_host) "caller" "tk42" eq_refl)
    as [Hiff _].
  apply Hiff. left. reflexivity.
Defined.

(** C1 as stated fails twice.  With the calling part ["x-y"] and the target
    part equal to the installation token ["tk42"], the token ["-x-y-tk42"]
    is refused: it is split at the first delimiter after the leading one,
    and the target read is ["y-tk42"].  And an installation whose own token
    is ["-a-b"] accepts the token ["-a-b"], whose target part ["b"] is not
    the installation token. *)
Lemma C1_counterexample :
  ("tk42" = TOOL_UNLOCK_TOKEN (Host := silent_host)
   /\ token_accepted (H := silent_host) (PStr ("-" ++ "x-y" ++ "-" ++ "tk42"))
      = Ok false
   /\ handle_user (H := silent_host) idle_consumer
        (call [ ("operation", PStr "show_popup");
                ("tool_unlock_token", PStr ("-" ++ "x-y" ++ "-" ++ "tk42"));
                ("html", PStr "<p>hi</p>") ])
      = (create_error_response (H := silent_host) token_error true,
         idle_consumer))
  /\ ("b" <> TOOL_UNLOCK_TOKEN (Host := dashed_host)
      /\ token_accepted (H := dashed_host) (PStr ("-" ++ "a" ++ "-" ++ "b"))
         = Ok true).
Proof.
  split; [split; [|split] | split]; try reflexivity.
  discriminate.
Qed.

(** Without a queue, a popup with timeout 0 gets the error of the missing
    queue, and so does a call for an API key, whose page is generated. *)
Lemma C2_no_consumer_witness :
  friday_ui_queue no_consumer = None
  /\ handle_user (H := silent_host) no_consumer
       (call [ ("operation", PStr "show_popup");
               ("tool_unlock_token", PStr "tk42");
               ("html", PStr "<p>hi</p>"); ("timeout", PInt 0) ])
     = (envelope (json_plain (status_error no_queue_qt)) false, no_consumer)
  /\ handle_user (H := silent_host) no_consumer
       (call [ ("operation", PStr "collect_api_key");
               ("tool_unlock_token", PStr "tk42");
               ("service_name", PStr "Acme") ])
     = (envelope (json_plain (status_error no_queue_qt)) false, no_consumer).
Proof.
  split; [reflexivity|].
  destruct (C2_no_consumer_is_an_error_of_its_own (H := silent_host)
              no_consumer eq_refl)
    as (_ & Hcall & _ & _ & _ & _ & _ & _ & Hpopup).
  split.
  - apply (Hpopup "<p>hi</p>"). discriminate.
  - assert (Hval : validate_parameters (H := silent_host)
              [ ("operation", PStr "collect_api_key");
                ("tool_unlock_token", PStr "tk42");
                ("service_name", PStr "Acme") ]
            = (None,
               snd (validate_parameters (H := silent_host)
                      [ ("operation", PStr "collect_api_key");
                        ("tool_unlock_token", PStr "tk42");
                        ("service_name", PStr "Acme") ])))
      by (vm_compute; reflexivity).
    destruct (Hcall (call [ ("operation", PStr "collect_api_key");
                            ("tool_unlock_token", PStr "tk42");
                            ("service_name", PStr "Acme") ])
                _ _ eq_refl eq_refl Hval) as (_ & _ & Hkey & _).
    destruct (Hkey eq_refl) as [Hpage _].
    apply (Hpage "<html><title>Acme API Key Required</title></html>" eq_refl).
    discriminate.
Defined.

(** C2 as stated fails for [show_toast], which does not use the request
    queue: without a queue the toast is handed to the engine and the call
    succeeds.  It fails too for a queue operation whose own parameter check
    comes first: [send_message] without content reports the missing
    content, not the missing queue. *)
Lemma C2_counterexample :
  friday_ui_queue no_consumer = None
  /\ handle_user (H := silent_host) no_consumer
       (call [ ("operation", PStr "send_message");
               ("tool_unlock_token", PStr "tk42") ])
     = (create_error_response (H := silent_host)
          "Missing required parameter: content" false, no_consumer)
  /\ handle_user (H := silent_host) no_consumer
       (call [ ("operation", PStr "show_toast");
               ("tool_unlock_token", PStr "tk42");
               ("message", PStr "done") ])
     = (envelope
          (json_plain
             (PDict [ ("status", PStr "success");
                      ("message", PStr "Toast notification sent successfully");
                      ("level", PStr "info"); ("text", PStr "done") ]))
          false,
        with_emitted no_consumer (level_prefix (PStr "info") ++ " done", "info"))
  /\ ~ no_consumer_outcome (H := silent_host)
         (fst (handle_user (H := silent_host) no_consumer
                 (call [ ("operation", PStr "show_toast");
                         ("tool_unlock_token", PStr "tk42");
                         ("message", PStr "done") ]))).
Proof.
  split; [reflexivity | split; [|split]]; try (vm_compute; reflexivity).
  intros [E | [E | E]]; vm_compute in E; discriminate.
Qed.


(** A window that waits with timeout 30 reads its reply queue with the
    bound 35. *)
Lemma C4_wait_bounds_witness :
  friday_ui_queue idle_consumer = Some []
  /\ reply_gets
       (snd (_show_webengine_window (H := silent_host) idle_consumer
               (PStr "<p>hi</p>") (PStr "User Interface") (PInt 600)
               (PInt 400) (PBool true) (PInt 30) (PBool true) (PBool true)
               (PBool true) (PBool false) PNone (PBool false) (PBool true)))
     = [(0, Whole 35)]
  /\ fst (_show_webengine_window (H := silent_host) idle_consumer
            (PStr "<p>hi</p>") (PStr "User Interface") (PInt 600)
            (PInt 400) (PBool true) (PInt 30) (PBool true) (PBool true)
            (PBool true) (PBool false) PNone (PBool false) (PBool true))
     = status_timeout "UI request timed out after 35 seconds".
Proof.
  split; [reflexivity|].
  destruct (C4_wait_bounds (H := silent_host) idle_consumer [] eq_refl)
    as (Hwindow & _).
  destruct (Hwindow 30%Z (PStr "<p>hi</p>") (PStr "User Interface") (PInt 600)
              (PInt 400) (PBool true) (PInt 30) (PBool true) (PBool true)
              (PBool true) (PBool false) PNone (PBool false) (PBool true)
              eq_refl eq_refl) as (Hget & Htimeout & _).
  split; [exact Hget|].
  apply Htimeout; [vm_compute; discriminate | reflexivity].
Defined.

(** C4 as stated fails at the timeout 0, the default: the call waits 65
    seconds for the reply, not 0 + 5.  It fails too for a timeout whose
    bound the lock cannot wait for: with [threading.TIMEOUT_MAX] at
    9223372036 seconds and no answer, the call with the timeout 9223372032
    is answered at once with the status ["error"], not with a timeout. *)
Lemma C4_counterexample :
  (reply_gets
     (snd (handle_user (H := silent_host) idle_consumer
             (call [ ("operation", PStr "show_popup");
                     ("tool_unlock_token", PStr "tk42");
                     ("html", PStr "<p>hi</p>"); ("timeout", PInt 0) ])))
   = [(0, Whole 65)]
   /\ (65 <> 0 + 5)%Z)
  /\ (TIMEOUT_MAX (Host := silent_host) = 9223372036%Z
      /\ handle_user (H := silent_host) idle_consumer
           (call [ ("operation", PStr "show_popup");
                   ("tool_unlock_token", PStr "tk42");
                   ("html", PStr "<p>hi</p>");
                   ("timeout", PInt 9223372032) ])
         = (envelope
              (json_plain
                 (status_error
                    "Error in UI communication: timestamp too large to convert to C _PyTime_t"))
              false,
            with_get
              (submitted idle_consumer []
                 (window_request 0 (PStr "<p>hi</p>") (PStr "User Interface")
                    (PInt 600) (PInt 400) (PBool false) (PInt 9223372032)
                    (PBool true) (PBool true) (PBool true) (PBool false) PNone
                    (PBool false)))
              (0, 9223372037%Z))).
Proof.
  split; split;
    [vm_compute; reflexivity | discriminate | reflexivity
    | vm_compute; reflexivity].
Qed.

(** A popup call with a parameter the schema does not declare is refused
    with the documentation. *)
Lemma C5_schema_violation_rejected_witness :
  schema_violation (H := silent_host)
    [ ("operation", PStr "show_popup"); ("tool_unlock_token", PStr "tk42");
      ("html", PStr "<p>hi</p>"); ("colour", PStr "red") ]
  /\ exists msg,
       handle_user (H := silent_host) idle_consumer
         (call [ ("operation", PStr "show_popup");
                 ("tool_unlock_token", PStr "tk42");
                 ("html", PStr "<p>hi</p>"); ("colour", PStr "red") ])
       = (envelope (msg ++ readme (H := silent_host) true) true, idle_consumer).
Proof.
  assert (Hbad : schema_violation (H := silent_host)
                   [ ("operation", PStr "show_popup");
                     ("tool_unlock_token", PStr "tk42");
                     ("html", PStr "<p>hi</p>"); ("colour", PStr "red") ]).
  { left. exists "colour". split; [reflexivity|].
    intros Hin. apply existsb_eqb_In in Hin. discriminate. }
  split; [exact Hbad|].
  apply (C5_schema_violation_rejected (H := silent_host) idle_consumer
           (call [ ("operation", PStr "show_popup");
                   ("tool_unlock_token", PStr "tk42");
                   ("html", PStr "<p>hi</p>"); ("colour", PStr "red") ])
           _ eq_refl eq_refl Hbad).
Defined.

(** C5 as stated fails for a [readme] call: its parameters are not
    validated, and with a parameter outside the schema it still returns the
    documentation in a success envelope. *)
Lemma C5_counterexample :
  unexpected_parameter (properties (H := silent_host))
    [("operation", PStr "readme"); ("colour", PStr "red")]
  /\ handle_user (H := silent_host) idle_consumer
       (call [("operation", PStr "readme"); ("colour", PStr "red")])
     = (envelope (readme (H := silent_host) true) false, idle_consumer)
  /\ ~ (exists msg,
          fst (handle_user (H := silent_host) idle_consumer
                 (call [("operation", PStr "readme"); ("colour", PStr "red")]))
          = create_error_response (H := silent_host) msg true).
Proof.
  split; [|split].
  - exists "colour". split; [reflexivity|].
    intros Hin. apply existsb_eqb_In in Hin. discriminate.
  - reflexivity.
  - intros [msg E]. unfold create_error_response, envelope in E.
    simpl in E. inversion E.
Qed.

(** The integer test of the validation passes a boolean, an instance of
    [int]: a popup call with [width] true is validated, and the window
    request carries that value. *)
Remark integer_test_passes_bool :
  has_declared_type "integer" (PBool true) = true
  /\ friday_ui_queue
       (snd (handle_user (H := silent_host) idle_consumer
               (call [ ("operation", PStr "show_popup");
                       ("tool_unlock_token", PStr "tk42");
                       ("html", PStr "<p>hi</p>"); ("width", PBool true);
                       ("wait_for_response", PBool false) ])))
     = Some [ window_request 0 (PStr "<p>hi</p>") (PStr "User Interface")
                (PBool true) (PInt 400) (PBool false) (PInt 0) (PBool true)
                (PBool true) (PBool true) (PBool false) PNone (PBool false) ].
Proof. split; [reflexivity | vm_compute; reflexivity]. Qed.


(** A popup call without a token gets the authorization error with the
    documentation, and the queue stays empty. *)
Lemma C7_unauthorized_witness :
  token_accepted (H := silent_host)
    (get [("operation", PStr "show_popup"); ("html", PStr "<p>hi</p>")]
       "tool_unlock_token")
  <> Ok true
  /\ handle_user (H := silent_host) idle_consumer
       (call [("operation", PStr "show_popup"); ("html", PStr "<p>hi</p>")])
     = (envelope (token_error ++ readme (H := silent_host) true) true,
        idle_consumer).
Proof.
  assert (Hno : token_accepted (H := silent_host)
                  (get [ ("operation", PStr "show_popup");
                         ("html", PStr "<p>hi</p>") ] "tool_unlock_token")
                <> Ok true) by discriminate.
  split; [exact Hno|].
  destruct (C7_unauthorized_gets_documentation (H := silent_host)
              idle_consumer
              (call [ ("operation", PStr "show_popup");
                      ("html", PStr "<p>hi</p>") ])
              _ eq_refl eq_refl Hno) as (_ & Hmsg & _).
  apply Hmsg. reflexivity.
Defined.

(** A popup call with both contents is refused with the documentation. *)
Lemma C8_html_xor_url_witness :
  truthy (PStr "<p>hi</p>") = truthy (PStr "http://example.org/")
  /\ exists msg,
       handle_user (H := silent_host) idle_consumer
         (call [ ("operation", PStr "show_popup");
                 ("tool_unlock_token", PStr "tk42");
                 ("html", PStr "<p>hi</p>");
                 ("url", PStr "http://example.org/") ])
       = (envelope (msg ++ readme (H := silent_host) true) true, idle_consumer).
Proof.
  split; [reflexivity|].
  apply (C8_html_xor_url (H := silent_host) idle_consumer
           (call [ ("operation", PStr "show_popup");
                   ("tool_unlock_token", PStr "tk42");
                   ("html", PStr "<p>hi</p>");
                   ("url", PStr "http://example.org/") ])
           _ eq_refl eq_refl eq_refl eq_refl).
Defined.

(** C8 as stated fails when one of the two contents is the empty string:
    the call gives both [html] and [url], passes the two tests, and its
    request is put on the queue. *)
Lemma C8_counterexample :
  dict_mem [ ("operation", PStr "show_popup");
             ("tool_unlock_token", PStr "tk42"); ("html", PStr "");
             ("url", PStr "http://example.org/");
             ("wait_for_response", PBool false) ] "html" = true
  /\ dict_mem [ ("operation", PStr "show_popup");
                ("tool_unlock_token", PStr "tk42"); ("html", PStr "");
                ("url", PStr "http://example.org/");
                ("wait_for_response", PBool false) ] "url" = true
  /\ handle_user (H := silent_host) idle_consumer
       (call [ ("operation", PStr "show_popup");
               ("tool_unlock_token", PStr "tk42"); ("html", PStr "");
               ("url", PStr "http://example.org/");
               ("wait_for_response", PBool false) ])
     = (envelope (json_plain async_success) false,
        submitted idle_consumer []
          (window_request 0 (PStr "") (PStr "User Interface") (PInt 600)
             (PInt 400) (PBool false) (PInt 0) (PBool true) (PBool true)
             (PBool true) (PBool false) (PStr "http://example.org/")
             (PBool false))).
Proof. repeat split; vm_compute; reflexivity. Qed.

(** C9 as stated fails for the failures the window helper reports itself:
    a popup call that finds no request queue comes back with [isError]
    false, the failure being the status ["error"] of the body. *)
Lemma C9_counterexample :
  friday_ui_queue no_consumer = None
  /\ handle_user (H := silent_host) no_consumer
       (call [ ("operation", PStr "show_popup");
               ("tool_unlock_token", PStr "tk42");
               ("html", PStr "<p>hi</p>") ])
     = (envelope (json_plain (status_error no_queue_qt)) false, no_consumer)
  /\ dict_get
       [("status", PStr "error"); ("error", PStr no_queue_qt)] "status"
     = Some (PStr "error").
Proof. repeat split; vm_compute; reflexivity. Qed.

(** A popup call that asks for [modal] true puts a request whose [modal]
    is false. *)
Lemma C10_modal_by_operation_witness :
  friday_ui_queue
    (snd (handle_user (H := silent_host) idle_consumer
            (call [ ("operation", PStr "show_popup");
                    ("tool_unlock_token", PStr "tk42");
                    ("html", PStr "<p>hi</p>"); ("modal", PBool true);
                    ("wait_for_response", PBool false) ])))
  = Some ([] ++ [ window_request 0 (PStr "<p>hi</p>") (PStr "User Interface")
                    (PInt 600) (PInt 400) (PBool false) (PInt 0) (PBool true)
                    (PBool true) (PBool true) (PBool false) PNone
                    (PBool false) ])%list
  /\ dict_get
       (data (window_request 0 (PStr "<p>hi</p>") (PStr "User Interface")
                (PInt 600) (PInt 400) (PBool false) (PInt 0) (PBool true)
                (PBool true) (PBool true) (PBool false) PNone (PBool false)))
       "modal"
     = Some (PBool false).
Proof.
  assert (Hput :
    friday_ui_queue
      (snd (handle_user (H := silent_host) idle_consumer
              (call [ ("operation", PStr "show_popup");
                      ("tool_unlock_token", PStr "tk42");
                      ("html", PStr "<p>hi</p>"); ("modal", PBool true);
                      ("wait_for_response", PBool false) ])))
    = Some ([] ++ [ window_request 0 (PStr "<p>hi</p>")
                      (PStr "User Interface") (PInt 600) (PInt 400)
                      (PBool false) (PInt 0) (PBool true) (PBool true)
                      (PBool true) (PBool false) PNone (PBool false) ])%list)
    by (vm_compute; reflexivity).
  split; [exact Hput|].
  destruct (C10_modal_by_operation (H := silent_host) idle_consumer
              (call [ ("operation", PStr "show_popup");
                      ("tool_unlock_token", PStr "tk42");
                      ("html", PStr "<p>hi</p>"); ("modal", PBool true);
                      ("wait_for_response", PBool false) ])
              _ [] _ eq_refl eq_refl Hput) as [Hpopup _].
  apply Hpopup. reflexivity.
Defined.

(** * Further properties of the handlers *)

(** ** Validation: what is accepted, and what comes out *)

Section ValidationMore.
Context `{Host}.

Lemma lookup_schema_None (k : string) :
  lookup_schema k = None -> ~ In k (map fst properties).
Proof.
  unfold lookup_schema. intros E Hin.
  destruct (find (fun kv => fst kv =? k) properties) eqn:F; [discriminate|].
  apply in_map_iff in Hin as [[k' s'] [Hk Hin]]. simpl in Hk. subst k'.
  pose proof (find_none _ _ F _ Hin) as Hf. simpl in Hf.
  now rewrite String.eqb_refl in Hf.
Qed.

Lemma In_lookup_schema (k : string) (sch : param_schema) :
  In (k, sch) properties -> lookup_schema k = Some sch.
Proof.
  intros Hin. pose proof properties_NoDup as Hnd.
  unfold lookup_schema. revert Hin Hnd.
  induction properties as [|[k0 s0] rest IH]; simpl; [tauto|].
  intros [E|Hin] Hnd; inversion Hnd as [|? ? Hk0 Hrest]; subst.
  - inversion E; subst. now rewrite String.eqb_refl.
  - destruct (k0 =? k) eqn:Ek.
    + apply String.eqb_eq in Ek. subst k0. exfalso. apply Hk0.
      change k with (fst (k, sch)). now apply in_map.
    + now apply IH.
Qed.


(** An accepted input gives every required parameter. *)
Lemma accepted_has_required (d vp : pydict) (k : string) :
  validate_parameters d = (None, vp) ->
  In k (required_for d) ->
  exists v, dict_get d k = Some v.
Proof.
  unfold validate_parameters, validate_against, required_for.
  intros Hrun Hk.
  destruct (set_minus (dict_keys d) (map fst properties)); [|discriminate].
  match type of Hrun with
  | match ?m with _ => _ end = _ => destruct m eqn:M; [|discriminate]
  end.
  destruct (dict_get d k) as [v|] eqn:G; [eauto|]. exfalso.
  assert (Hout : ~ In k (dict_keys d)).
  { intros Hin. apply dict_mem_keys in Hin. unfold dict_mem in Hin.
    now rewrite G in Hin. }
  destruct (set_minus_witness _ _ _ Hk Hout) as (y & l & E). congruence.
Qed.

(** What the type test lets through, and what it refuses. *)
Lemma has_declared_type_tests (ty : string) (v : pyval) :
  has_declared_type ty v = true ->
  (ty = "string" -> is_str v = true)
  /\ (ty = "object" -> is_dict v = true)
  /\ (ty = "integer" -> is_int v = true)
  /\ (ty = "boolean" -> is_bool v = true)
  /\ (ty = "array" -> is_list v = true).
Proof. intros Ht. repeat split; intros ->; exact Ht. Qed.

Lemma fails_type_test_iff (ty : string) (v : pyval) :
  has_declared_type ty v = false <-> fails_type_test ty v.
Proof.
  unfold has_declared_type, fails_type_test. split.
  - destruct (ty =? "string") eqn:E1;
      [apply String.eqb_eq in E1; subst; auto|].
    destruct (ty =? "object") eqn:E2;
      [apply String.eqb_eq in E2; subst; auto|].
    destruct (ty =? "integer") eqn:E3;
      [apply String.eqb_eq in E3; subst; auto 6|].
    destruct (ty =? "boolean") eqn:E4;
      [apply String.eqb_eq in E4; subst; auto 7|].
    destruct (ty =? "array") eqn:E5;
      [apply String.eqb_eq in E5; subst; auto 8|].
    discriminate.
  - intros [[-> E]|[[-> E]|[[-> E]|[[-> E]|[-> E]]]]]; exact E.
Qed.

(** The declared types of the schema: the five that are tested, and
    ["number"] for [since_timestamp] alone. *)
Lemma schema_types (k : string) (sch : param_schema) :
  lookup_schema k = Some sch ->
  In (p_type sch) ["string"; "object"; "integer"; "boolean"; "array"]
  \/ (k = "since_timestamp" /\ p_type sch = "number").
Proof.
  intros Hk. apply lookup_schema_In in Hk.
  assert (Hall : forallb
            (fun kv =>
               existsb (String.eqb (p_type (snd kv)))
                 ["string"; "object"; "integer"; "boolean"; "array"]
               || ((fst kv =? "since_timestamp")
                   && (p_type (snd kv) =? "number"))) properties = true)
    by (vm_compute; reflexivity).
  rewrite forallb_forall in Hall. specialize (Hall _ Hk). simpl fst in Hall.
  simpl snd in Hall. apply orb_true_iff in Hall as [Hin|Hnum].
  - left. now apply existsb_eqb_In.
  - right. apply andb_true_iff in Hnum as [A B].
    apply String.eqb_eq in A, B. auto.
Qed.

(** X1: when [validate_parameters] accepts an input, the validated
    parameters hold, for each declared parameter, the value given or else
    its default, and nothing for a name outside the schema.  A value they
    hold for a parameter declared [string], [object], [integer], [boolean]
    or [array] is an instance of [str], [dict], [int] (a [bool] is one),
    [bool] or [list], and is within the declared enum; the one parameter of
    another declared type, [since_timestamp], declared [number], is not
    tested and is kept whatever it is.  The operation is one of the twelve
    operation names. *)
Theorem X1_validated_parameters (d vp : pydict) :
  validate_parameters d = (None, vp) ->
  (forall k sch,
      lookup_schema k = Some sch ->
      dict_get vp k =
        match dict_get d k with Some v => Some v | None => p_default sch end)
  /\ (forall k, lookup_schema k = None -> dict_get vp k = None)
  /\ (forall k sch v,
         lookup_schema k = Some sch ->
         dict_get vp k = Some v ->
         (p_type sch = "string" -> is_str v = true)
         /\ (p_type sch = "object" -> is_dict v = true)
         /\ (p_type sch = "integer" -> is_int v = true)
         /\ (p_type sch = "boolean" -> is_bool v = true)
         /\ (p_type sch = "array" -> is_list v = true)
         /\ forall allowed, p_enum sch = Some allowed -> in_strs v allowed = true)
  /\ (forall k sch,
         lookup_schema k = Some sch ->
         In (p_type sch) ["string"; "object"; "integer"; "boolean"; "array"]
         \/ (k = "since_timestamp" /\ p_type sch = "number"))
  /\ (forall v,
         dict_get d "since_timestamp" = Some v ->
         dict_get vp "since_timestamp" = Some v)
  /\ (exists op, dict_get vp "operation" = Some (PStr op) /\ In op operations).
Proof.
  intros Hrun.
  assert (Hval : forall k sch,
             lookup_schema k = Some sch ->
             dict_get vp k =
               match dict_get d k with
               | Some v => Some v
               | None => p_default sch
               end) by (intros; now apply validated_value).
  assert (Hty : forall k sch v,
             lookup_schema k = Some sch ->
             dict_get vp k = Some v ->
             has_declared_type (p_type sch) v = true
             /\ forall allowed,
                 p_enum sch = Some allowed -> in_strs v allowed = true).
  { intros k sch v Hk Hv. rewrite (Hval k sch Hk) in Hv.
    pose proof (lookup_schema_In _ _ Hk) as Hin.
    destruct (dict_get d k) as [v0|] eqn:G.
    - inversion Hv; subst v0.
      destruct (validated_lookup d vp k sch Hrun Hin) as [_ Hok].
      destruct (Hok v G) as [T E]. split; [exact T|].
      intros allowed Ha. rewrite Ha in E. now apply enum_error_allowed in E.
    - now apply (defaults_well_typed k sch v Hin). }
  split; [exact Hval|]. split; [|split; [|split; [|split]]].
  - intros k Hk. apply lookup_schema_None in Hk.
    revert Hrun. unfold validate_parameters, validate_against.
    destruct (set_minus (dict_keys d) (map fst properties)); [|discriminate].
    match goal with
    | |- match ?m with _ => _ end = _ -> _ => destruct m; [|discriminate]
    end.
    intros Hrun.
    destruct (validate_loop_ok _ _ _ properties_NoDup _ _ Hrun) as [Hout _].
    now rewrite (Hout k Hk).
  - intros k sch v Hk Hv. destruct (Hty k sch v Hk Hv) as [T E].
    destruct (has_declared_type_tests _ _ T) as (A & B & C & D & F).
    repeat split; assumption.
  - apply schema_types.
  - intros v Hv. rewrite (Hval "since_timestamp" _ eq_refl). now rewrite Hv.
  - destruct (accepted_has_required d vp "operation" Hrun) as [v Hv].
    { unfold required_for.
      destruct (eq_str (get d "operation") "readme"); simpl; auto. }
    assert (Hop : dict_get vp "operation" = Some v).
    { rewrite (Hval "operation" _ eq_refl). now rewrite Hv. }
    destruct (Hty "operation" _ v eq_refl Hop) as [T E].
    specialize (E operations eq_refl).
    destruct v as [| | | |op| |]; try discriminate.
    exists op. split; [exact Hop|]. now apply existsb_eqb_In.
Qed.

End ValidationMore.

Section ValidationExact.
Context `{Host}.

(** Where the loop stops with an error: at a value that fails its type or
    enum test, or at a required name that is not given; the dictionary
    returned with an error is empty. *)
Lemma validate_loop_some (props : list (string * param_schema))
  (required : list string) (input_param : pydict) :
  forall validated e vp,
    validate_loop props required input_param validated = (Some e, vp) ->
    vp = []
    /\ ((exists k sch v,
            In (k, sch) props /\ dict_get input_param k = Some v
            /\ (type_error k (p_type sch) v <> None
                \/ enum_error k (p_enum sch) v <> None))
        \/ (exists k, In k required /\ dict_get input_param k = None)).
Proof.
  induction props as [|[k0 s0] rest IH]; simpl; intros validated e vp Hrun;
    [discriminate|].
  destruct (dict_get input_param k0) as [v0|] eqn:G0.
  - destruct (type_error k0 (p_type s0) v0) as [e0|] eqn:T0.
    { inversion Hrun; subst. split; [reflexivity|]. left.
      exists k0, s0, v0. repeat split; auto. left. congruence. }
    destruct (enum_error k0 (p_enum s0) v0) as [e0|] eqn:E0.
    { inversion Hrun; subst. split; [reflexivity|]. left.
      exists k0, s0, v0. repeat split; auto. right. congruence. }
    destruct (IH _ _ _ Hrun) as [E [Hbad|Hreq]]; (split; [exact E|]).
    + left. destruct Hbad as (k & sch & v & Hin & Hb).
      exists k, sch, v. split; [now right | exact Hb].
    + now right.
  - destruct (existsb (String.eqb k0) required) eqn:R.
    { inversion Hrun; subst. split; [reflexivity|]. right.
      exists k0. split; [now apply existsb_eqb_In | exact G0]. }
    assert (Hgo : exists acc,
               validate_loop rest required input_param acc = (Some e, vp))
      by (destruct (p_default s0); eauto).
    destruct Hgo as [acc Hacc].
    destruct (IH _ _ _ Hacc) as [E [Hbad|Hreq]]; (split; [exact E|]).
    + left. destruct Hbad as (k & sch & v & Hin & Hb).
      exists k, sch, v. split; [now right | exact Hb].
    + now right.
Qed.

(** The inputs that [validate_parameters] refuses. *)
Lemma validation_error_iff (d : pydict) :
  ((exists e vp, validate_parameters d = (Some e, vp))
   <-> unexpected_parameter properties d
       \/ missing_required (required_for d) d
       \/ wrong_type properties d
       \/ outside_enum properties d)
  /\ (forall e vp, validate_parameters d = (Some e, vp) -> vp = []).
Proof.
  unfold validate_parameters, validate_against. fold (required_for d).
  split; [split|].
  - intros (e & vp & Hrun).
    destruct (set_minus (dict_keys d) (map fst properties)) as [|y l] eqn:U.
    + destruct (set_minus (required_for d) (dict_keys d)) as [|y l] eqn:M.
      * destruct (validate_loop_some _ _ _ _ _ _ Hrun)
          as [_ [(k & sch & v & Hin & Hget & [T|E]) | (k & Hk & Hget)]].
        -- right. right. left. exists k, sch, v. repeat split; auto.
           destruct (has_declared_type (p_type sch) v) eqn:D; [|reflexivity].
           exfalso. apply T. now apply type_error_declared.
        -- right. right. right.
           destruct (p_enum sch) as [allowed|] eqn:En;
             [|simpl in E; congruence].
           exists k, sch, allowed, v. repeat split; auto.
           destruct (in_strs v allowed) eqn:I; [|reflexivity].
           exfalso. apply E. now apply enum_error_allowed.
        -- right. left. exists k. split; [exact Hk|].
           unfold dict_mem. now rewrite Hget.
      * right. left. exists y.
        assert (Hy : In y (set_minus (required_for d) (dict_keys d)))
          by (rewrite M; now left).
        apply set_minus_In in Hy as [Hreq Hno]. split; [exact Hreq|].
        destruct (dict_mem d y) eqn:Dm; [|reflexivity].
        exfalso. apply Hno. now apply dict_mem_keys.
    + left. exists y.
      assert (Hy : In y (set_minus (dict_keys d) (map fst properties)))
        by (rewrite U; now left).
      apply set_minus_In in Hy as [Hk Hno]. split; [|exact Hno].
      now apply dict_mem_keys.
  - intros Hbad.
    destruct (set_minus (dict_keys d) (map fst properties)) eqn:U; [|eauto].
    destruct (set_minus (required_for d) (dict_keys d)) eqn:M; [|eauto].
    destruct Hbad as [(k & Hk & Hno) | [(k & Hk & Hno) | [Hty | Hen]]].
    + apply dict_mem_keys in Hk.
      destruct (set_minus_witness _ _ _ Hk Hno) as (y & l & E). congruence.
    + assert (Hout : ~ In k (dict_keys d)).
      { intros Hin. apply dict_mem_keys in Hin. congruence. }
      destruct (set_minus_witness _ _ _ Hk Hout) as (y & l & E). congruence.
    + destruct Hty as (k & sch & v & Hin & Hget & Hty).
      destruct (validate_loop_error properties (required_for d) d k sch v
                  Hin Hget) with (validated := @nil (string * pyval))
        as [e He]; [|eauto].
      left. intros T. apply (type_error_declared k) in T. congruence.
    + destruct Hen as (k & sch & allowed & v & Hin & Hsome & Hget & Hen).
      destruct (validate_loop_error properties (required_for d) d k sch v
                  Hin Hget) with (validated := @nil (string * pyval))
        as [e He]; [|eauto].
      right. rewrite Hsome. intros E. apply enum_error_allowed in E.
      congruence.
  - intros e vp Hrun.
    destruct (set_minus (dict_keys d) (map fst properties));
      [|now inversion Hrun].
    destruct (set_minus (required_for d) (dict_keys d));
      [|now inversion Hrun].
    now destruct (validate_loop_some _ _ _ _ _ _ Hrun).
Qed.

Lemma dict_mem_set_other (d : pydict) (k k' : string) (v : pyval) :
  k <> k' -> dict_mem (dict_set d k v) k' = dict_mem d k'.
Proof.
  intros Hk. unfold dict_mem. now rewrite dict_get_set_other.
Qed.

(** The validation does not look at the value of [since_timestamp]. *)
Lemma since_timestamp_untested (d vp : pydict) (v : pyval) :
  validate_parameters d = (None, vp) ->
  exists vp',
    validate_parameters (dict_set d "since_timestamp" v) = (None, vp').
Proof.
  intros Hval.
  destruct (validate_parameters (dict_set d "since_timestamp" v))
    as [[e|] vp'] eqn:E; [exfalso | eauto].
  assert (Hrej : exists e0 vp0, validate_parameters d = (Some e0, vp0)).
  { destruct (validation_error_iff d) as [[_ Hback] _]. apply Hback.
    destruct (validation_error_iff (dict_set d "since_timestamp" v))
      as [[Hthere _] _].
    assert (Hreq : required_for (dict_set d "since_timestamp" v)
                   = required_for d).
    { unfold required_for, get.
      now rewrite dict_get_set_other by discriminate. }
    destruct (Hthere (ex_intro _ e (ex_intro _ vp' E)))
      as [(k & Hk & Hno) | [(k & Hk & Hno) | [Hty | Hen]]].
    - left. exists k. split; [|exact Hno].
      destruct (String.eqb_spec "since_timestamp" k) as [<-|Hne].
      + exfalso. apply Hno. apply existsb_eqb_In. reflexivity.
      + now rewrite dict_mem_set_other in Hk.
    - right. left. exists k. rewrite Hreq in Hk. split; [exact Hk|].
      destruct (String.eqb_spec "since_timestamp" k) as [<-|Hne].
      + unfold dict_mem in Hno. now rewrite dict_get_set_same in Hno.
      + now rewrite dict_mem_set_other in Hno.
    - right. right. left.
      destruct Hty as (k & sch & v0 & Hin & Hget & Hbad).
      destruct (String.eqb_spec "since_timestamp" k) as [<-|Hne].
      + exfalso. apply In_lookup_schema in Hin.
        assert (Hs : p_type sch = "number")
          by (vm_compute in Hin; now inversion Hin).
        rewrite Hs in Hbad. discriminate.
      + exists k, sch, v0. rewrite dict_get_set_other in Hget by assumption.
        auto.
    - right. right. right.
      destruct Hen as (k & sch & allowed & v0 & Hin & Hsome & Hget & Hbad).
      destruct (String.eqb_spec "since_timestamp" k) as [<-|Hne].
      + exfalso. apply In_lookup_schema in Hin.
        assert (Hs : p_enum sch = None)
          by (vm_compute in Hin; now inversion Hin).
        congruence.
      + exists k, sch, allowed, v0.
        rewrite dict_get_set_other in Hget by assumption. auto. }
  destruct Hrej as (e0 & vp0 & Hrej). congruence.
Qed.

(** X2: [validate_parameters] returns an error exactly for the inputs that
    depart from the schema in one of four ways: a name that the schema does
    not declare; a required name that is missing, where a [readme] input
    requires its operation only; a value that is not an instance of the
    Python type tested for its declared type, [str] for [string], [dict]
    for [object], [int] for [integer], [bool] for [boolean], [list] for
    [array]; a value outside a declared enum.  A declared type outside the
    five has no test: the value of [since_timestamp], declared [number], is
    never a reason to refuse.  Every error comes with an empty
    dictionary. *)
Theorem X2_validation_rejects_exactly_violations (d : pydict) :
  ((exists e vp, validate_parameters d = (Some e, vp))
   <-> unexpected_parameter properties d
       \/ missing_required (required_for d) d
       \/ (exists k sch v,
              In (k, sch) properties /\ dict_get d k = Some v
              /\ fails_type_test (p_type sch) v)
       \/ outside_enum properties d)
  /\ (forall e vp, validate_parameters d = (Some e, vp) -> vp = [])
  /\ (forall v vp,
         validate_parameters d = (None, vp) ->
         exists vp',
           validate_parameters (dict_set d "since_timestamp" v) = (None, vp')).
Proof.
  destruct (validation_error_iff d) as [[Hthere Hback] Hempty].
  split; [split|split; [exact Hempty|]].
  - intros Hrej.
    destruct (Hthere Hrej) as [Hu | [Hm | [Hty | Hen]]]; auto.
    right. right. left. destruct Hty as (k & sch & v & Hin & Hget & Hbad).
    exists k, sch, v. repeat split; auto. now apply fails_type_test_iff.
  - intros [Hu | [Hm | [Hty | Hen]]]; apply Hback; auto.
    right. right. left. destruct Hty as (k & sch & v & Hin & Hget & Hbad).
    exists k, sch, v. repeat split; auto. now apply fails_type_test_iff.
  - intros v vp. apply since_timestamp_untested.
Qed.

End ValidationExact.

(** ** The entry of [handle_user]: placeholder and token *)

Section Entry.
Context `{Host}.

Lemma handle_user_collapse (w : World) (top1 top2 : pydict) :
  collapse_input top1 = collapse_input top2 ->
  handle_user w top1 = handle_user w top2.
Proof.
  intros E. unfold handle_user, handle_user_body. now rewrite E.
Qed.

Lemma dict_pop_absent (d : pydict) (k : string) :
  dict_mem d k = false -> dict_pop d k = d.
Proof.
  unfold dict_mem, dict_pop.
  induction d as [|[k' v'] d IH]; simpl; [reflexivity|].
  destruct (k' =? k); simpl; [discriminate|].
  intros Hd. now rewrite IH.
Qed.

Lemma cut_at_absent (c : ascii) (s : string) :
  has_char c s = false -> cut_at c s = None.
Proof.
  induction s as [|a s IH]; simpl; [reflexivity|].
  intros Hc. apply orb_false_iff in Hc as [Ha Hs].
  now rewrite Ha, (IH Hs).
Qed.

(** X3: the synthetic [handler_info] entry of a call never changes the
    answer; a call wrapped in the single-input placeholder [{"input": d}] is
    answered as the flat dictionary [d] is; and a placeholder whose content
    is not a dictionary is refused with the documentation, the world
    unchanged. *)
Theorem X3_placeholder_collapse (w : World) :
  (forall info top,
      handle_user w (("handler_info", info) :: top) = handle_user w top)
  /\ (forall d,
         dict_mem d "input" = false ->
         dict_mem d "handler_info" = false ->
         handle_user w (call d) = handle_user w d)
  /\ (forall v rest,
         is_dict v = false ->
         handle_user w (("input", v) :: rest)
         = (create_error_response
              "Invalid input format. Expected dictionary with tool parameters."
              true, w)).
Proof.
  split; [|split].
  - intros info top. apply handle_user_collapse. reflexivity.
  - intros d Hin Hinfo. apply handle_user_collapse.
    unfold collapse_input, call. simpl.
    rewrite (dict_pop_absent d _ Hinfo), Hin. reflexivity.
  - intros v rest Hv. unfold handle_user, handle_user_body, collapse_input.
    simpl. unfold get. simpl.
    destruct v; try discriminate; reflexivity.
Qed.

(** X4: the edges of the token test.  A token that is not a string is
    refused when its truth value is false ([None], 0, [False], an empty
    list or dict) and makes the test raise when it is true, so that the call
    is answered by the handler of exceptions, with the documentation; a
    string that starts with the delimiter and holds no second one is not an
    inter-tool token; the installation token itself is accepted whatever its
    shape. *)
Theorem X4_token_edges (w : World) :
  (forall v,
      is_str v = false ->
      token_accepted v =
        if truthy v
        then Raise ("'" ++ type_name v
                    ++ "' object has no attribute 'startswith'")
        else Ok false)
  /\ (forall top d,
         collapse_input top = PDict d ->
         eq_str (get d "operation") "readme" = false ->
         is_str (get d "tool_unlock_token") = false ->
         truthy (get d "tool_unlock_token") = true ->
         handle_user w top
         = (create_error_response
              ("Error in user interaction operation: '"
               ++ type_name (get d "tool_unlock_token")
               ++ "' object has no attribute 'startswith'") true, w))
  /\ (forall s,
         has_char "-" s = false ->
         is_inter_tool_call (PStr ("-" ++ s)) = Ok false)
  /\ token_accepted (PStr TOOL_UNLOCK_TOKEN) = Ok true.
Proof.
  assert (Hns : forall v,
             is_str v = false ->
             token_accepted v =
               if truthy v
               then Raise ("'" ++ type_name v
                           ++ "' object has no attribute 'startswith'")
               else Ok false).
  { intros v Hv. unfold token_accepted, is_inter_tool_call.
    destruct v as [|b|z|f|s|l|l]; try discriminate; simpl;
      [ reflexivity | destruct b | destruct (z =? 0)%Z
      | destruct (PrimFloat.eqb f PrimFloat.zero) | destruct l | destruct l ];
      reflexivity. }
  split; [exact Hns | split; [|split]].
  - intros top d Hc Hop Hs Ht.
    rewrite (handle_user_gate _ _ _ Hc Hop), (Hns _ Hs), Ht. reflexivity.
  - intros s Hs. unfold is_inter_tool_call, split_once. simpl.
    now rewrite prefix_empty, (cut_at_absent _ _ Hs).
  - apply token_accepted_own.
Qed.

End Entry.

(** ** The window operations after validation *)

Section WindowAfterValidation.
Context `{Host}.






End WindowAfterValidation.

Section WindowExtras.
Context `{Host}.



(** The request that [show_html_window] has put. *)
Lemma show_html_window_puts (w : World) (q : list UIRequest) (r : UIRequest)
  (p : pydict) :
  friday_ui_queue w = Some q ->
  friday_ui_queue (snd (show_html_window w p)) = Some (q ++ [r])%list ->
  window_param_error p = None
  /\ r = window_request (reply_queues w) (get p "html")
           (get_default p "title" (PStr "User Interface"))
           (get_default p "width" (PInt 600))
           (get_default p "height" (PInt 400))
           (get_default p "modal" (PBool true))
           (get_default p "timeout" (PInt 0))
           (get_default p "center_on_screen" (PBool true))
           (get_default p "always_on_top" (PBool true))
           (get_default p "bring_to_front" (PBool true))
           (get_default p "auto_resize" (PBool false))
           (get p "url")
           (get_default p "resizable" (PBool false)).
Proof.
  intros Hq. unfold show_html_window.
  destruct (window_param_error p).
  { simpl. rewrite Hq. intros E. now apply queue_not_extended in E. }
  match goal with
  | |- context [_show_webengine_window w ?a ?b ?c ?d ?e ?f ?g ?h ?i ?j ?k ?l ?m] =>
      pose proof (window_world w a b c d e f g h i j k l m) as Hw;
      destruct (_show_webengine_window w a b c d e f g h i j k l m) as [res w']
  end.
  cbv zeta in Hw. rewrite Hq in Hw. simpl in Hw |- *.
  intros Hput. split; [reflexivity|].
  assert (E : Some (q ++ [r])%list
              = Some (q ++ [window_request (reply_queues w) (get p "html")
                     (get_default p "title" (PStr "User Interface"))
                     (get_default p "width" (PInt 600))
                     (get_default p "height" (PInt 400))
                     (get_default p "modal" (PBool true))
                     (get_default p "timeout" (PInt 0))
                     (get_default p "center_on_screen" (PBool true))
                     (get_default p "always_on_top" (PBool true))
                     (get_default p "bring_to_front" (PBool true))
                     (get_default p "auto_resize" (PBool false))
                     (get p "url")
                     (get_default p "resizable" (PBool false))])%list).
  { rewrite <- Hput.
    destruct (negb (truthy (get_default p "wait_for_response" (PBool true))));
      [now rewrite Hw|].
    destruct (max_wait_time (get_default p "timeout" (PInt 0)))
      as [[bound|f]|e]; now rewrite Hw. }
  inversion E as [E']. apply app_inv_head in E'. now inversion E'.
Qed.

(** What an accepted window call has gone through when its request is on
    the queue. *)
Lemma window_call_puts (w : World) (top d : pydict) (q : list UIRequest)
  (r : UIRequest) :
  collapse_input top = PDict d ->
  friday_ui_queue w = Some q ->
  friday_ui_queue (snd (handle_user w top)) = Some (q ++ [r])%list ->
  in_strs (get d "operation") ["show_popup"; "show_dialog"] = true ->
  exists vp,
    validate_parameters d = (None, vp)
    /\ friday_ui_queue
         (snd (show_html_window w (with_window_modal (get d "operation") vp)))
       = Some (q ++ [r])%list.
Proof.
  intros Hc Hq Hput Hop.
  assert (Hnr : eq_str (get d "operation") "readme" = false)
    by (destruct (window_op_cases _ Hop) as [-> | ->]; reflexivity).
  rewrite (handle_user_gate _ _ _ Hc Hnr) in Hput.
  destruct (token_accepted (get d "tool_unlock_token")) as [[|]|x] eqn:Htok;
    try (simpl in Hput; rewrite Hq in Hput;
         now apply queue_not_extended in Hput).
  unfold validate_and_dispatch in Hput.
  destruct (validate_parameters d) as [[e|] vp] eqn:Hval.
  { simpl in Hput. rewrite Hq in Hput. now apply queue_not_extended in Hput. }
  exists vp. split; [reflexivity|].
  rewrite (dispatch_window w vp (get d "operation")) in Hput; auto.
  unfold get. rewrite (validated_value d vp "operation" _ Hval eq_refl).
  now destruct (dict_get d "operation").
Qed.

(** X5: the request that a [show_popup] or [show_dialog] call puts on the
    queue has the operation name ["show_popup"] in both cases and a reply
    queue of its own; its data hold, for the content and each window
    parameter, the caller's value or else the default of the schema
    ([None] for a content not given); [modal] is false for a popup and the
    caller's value, or true, for a dialog; [wait_for_response] is not part
    of the data. *)
Theorem X5_window_request_carries_parameters (w : World) (top d : pydict)
  (q : list UIRequest) (r : UIRequest) :
  collapse_input top = PDict d ->
  friday_ui_queue w = Some q ->
  friday_ui_queue (snd (handle_user w top)) = Some (q ++ [r])%list ->
  in_strs (get d "operation") ["show_popup"; "show_dialog"] = true ->
  operation r = "show_popup"
  /\ reply_queue r = reply_queues w
  /\ (forall k,
         In k ["html"; "url"; "title"; "width"; "height"; "timeout";
               "center_on_screen"; "always_on_top"; "bring_to_front";
               "auto_resize"; "resizable"] ->
         dict_get (data r) k = Some (given_or_default d k))
  /\ dict_get (data r) "modal"
     = Some (if eq_str (get d "operation") "show_popup" then PBool false
             else given_or_default d "modal")
  /\ dict_get (data r) "wait_for_response" = None.
Proof.
  intros Hc Hq Hput Hop.
  destruct (window_call_puts _ _ _ _ _ Hc Hq Hput Hop) as (vp & Hval & Hp).
  destruct (show_html_window_puts _ _ _ _ Hq Hp) as [_ ->].
  destruct (window_content_unchanged d vp (get d "operation") Hval)
    as [Hh Hu].
  split; [reflexivity | split; [reflexivity | split; [|split]]].
  - intros k Hk. simpl in Hk.
    destruct Hk as [<-|[<-|[<-|[<-|[<-|[<-|[<-|[<-|[<-|[<-|[<-|[]]]]]]]]]]]];
      simpl; f_equal;
      try (eapply proj1; eapply validated_get_default;
           [exact Hval | reflexivity | reflexivity | discriminate]).
    + rewrite Hh. unfold get, given_or_default.
      now destruct (dict_get d "html").
    + rewrite Hu. unfold get, given_or_default.
      now destruct (dict_get d "url").
  - simpl. f_equal. now apply adjusted_modal.
  - reflexivity.
Qed.

(** X6: once [validate_parameters] has accepted the input, a window call
    passes the checks of [show_html_window] exactly when one and only one
    of [html] and [url] has a true value and the width and the height are
    positive and the timeout is not negative: the type checks that
    [show_html_window] repeats can no longer fail. *)
Theorem X6_window_checks_after_validation (d vp : pydict) (op : pyval) :
  validate_parameters d = (None, vp) ->
  window_param_error (with_window_modal op vp) = None
  <-> xorb (truthy (get d "html")) (truthy (get d "url")) = true
      /\ not_positive_int (given_or_default d "width") = false
      /\ not_positive_int (given_or_default d "height") = false
      /\ not_nonnegative_int (given_or_default d "timeout") = false.
Proof.
  intros Hrun. rewrite (window_param_error_validated d vp op Hrun).
  destruct (truthy (get d "html")), (truthy (get d "url")),
    (not_positive_int (given_or_default d "width")),
    (not_positive_int (given_or_default d "height")),
    (not_nonnegative_int (given_or_default d "timeout")); simpl;
    split; try discriminate; try tauto; intros (A & B & C & D);
    discriminate.
Qed.

(** X7: an accepted window call with one content whose width or height is
    not positive, or whose timeout is negative, is answered by the error
    that names the parameter and its value, without the documentation, and
    nothing is put on the queue; the width is tested first, then the
    height, then the timeout. *)
Theorem X7_window_bounds (w : World) (top d vp : pydict) :
  collapse_input top = PDict d ->
  token_accepted (get d "tool_unlock_token") = Ok true ->
  validate_parameters d = (None, vp) ->
  in_strs (get d "operation") ["show_popup"; "show_dialog"] = true ->
  xorb (truthy (get d "html")) (truthy (get d "url")) = true ->
  forall zw zh zt,
    int_value (given_or_default d "width") = Some zw ->
    int_value (given_or_default d "height") = Some zh ->
    int_value (given_or_default d "timeout") = Some zt ->
    ((zw <= 0)%Z ->
     handle_user w top
     = (envelope
          ("Parameter 'width' must be a positive integer, got "
           ++ py_str (given_or_default d "width") ++ ".") true, w))
    /\ ((0 < zw)%Z -> (zh <= 0)%Z ->
        handle_user w top
        = (envelope
             ("Parameter 'height' must be a positive integer, got "
              ++ py_str (given_or_default d "height") ++ ".") true, w))
    /\ ((0 < zw)%Z -> (0 < zh)%Z -> (zt < 0)%Z ->
        handle_user w top
        = (envelope
             ("Parameter 'timeout' must be a non-negative integer, got "
              ++ py_str (given_or_default d "timeout") ++ ".") true, w)).
Proof.
  intros Hc Htok Hrun Hop Hx zw zh zt Hw Hh Ht.
  rewrite (handle_user_window _ _ _ _ Hc Htok Hrun Hop).
  unfold show_html_window.
  rewrite (window_param_error_validated d vp _ Hrun).
  unfold not_positive_int, not_nonnegative_int. rewrite Hw, Hh, Ht.
  rewrite <- !error_without_documentation.
  destruct (truthy (get d "html")), (truthy (get d "url"));
    try discriminate; simpl;
    (split; [|split]); intros;
    repeat match goal with
           | Hle : (_ <= 0)%Z |- _ => apply Z.leb_le in Hle; rewrite Hle
           | Hlt : (0 < _)%Z |- _ =>
               apply Z.leb_gt in Hlt; rewrite Hlt
           | Hlt : (_ < 0)%Z |- _ => apply Z.ltb_lt in Hlt; rewrite Hlt
           end; reflexivity.
Qed.

End WindowExtras.

(** ** Replies, messages and toasts *)

Section Replies.
Context `{Host}.




(** X8: the answer of the presentation thread to a queue test, or to a
    window that waits, is handed back as it is, serialised in a success
    envelope, also when it reports a failure; this when the answer is on the
    reply queue within the bound and, for a window, the bound is one that
    the lock of the queue can wait for, or the answer is there already when
    [get] is called.  An answer that [json.dumps] cannot serialise is
    answered by an error response.  With a bound above
    [threading.TIMEOUT_MAX] and an empty reply queue the window does not
    wait at all: the call reports the status ["error"], whatever would have
    been answered later. *)
Theorem X8_reply_passed_verbatim (w : World) (q : list UIRequest) :
  friday_ui_queue w = Some q ->
  (forall p resp,
      let r := test_queue_request w (reply_queues w)
                 (get_default p "message" (PStr "Hello from user.py")) in
      reply_queue_get (submitted w q r) r 10 = Some resp ->
      (json_dumps_error resp = None ->
       test_queue_communication w p
       = (envelope (json_dumps resp) false,
          with_get (submitted w q r) (reply_queues w, 10%Z)))
      /\ (forall e,
             json_dumps_error resp = Some e ->
             test_queue_communication w p
             = (envelope ("Queue communication test failed: " ++ e) true,
                with_get (submitted w q r) (reply_queues w, 10%Z))))
  /\ (forall p t resp,
         let r := window_request_of (reply_queues w) p in
         let bound := if (0 <? t)%Z then (t + 5)%Z else 65%Z in
         window_param_error p = None ->
         truthy (get_default p "wait_for_response" (PBool true)) = true ->
         int_value (get_default p "timeout" (PInt 0)) = Some t ->
         (bound <= TIMEOUT_MAX)%Z
         \/ ((bound < float_overflow)%Z
             /\ reply_queue_get (submitted w q r) r 0 <> None) ->
         reply_queue_get (submitted w q r) r bound = Some resp ->
         (json_dumps_error resp = None ->
          show_html_window w p
          = (envelope (json_dumps resp) false,
             with_get (submitted w q r) (reply_queues w, bound)))
         /\ (forall e,
                json_dumps_error resp = Some e ->
                show_html_window w p
                = (envelope ("Error showing HTML window: " ++ e) true,
                   with_get (submitted w q r) (reply_queues w, bound))))
  /\ (forall p t,
         let r := window_request_of (reply_queues w) p in
         let bound := if (0 <? t)%Z then (t + 5)%Z else 65%Z in
         window_param_error p = None ->
         truthy (get_default p "wait_for_response" (PBool true)) = true ->
         int_value (get_default p "timeout" (PInt 0)) = Some t ->
         (TIMEOUT_MAX < bound)%Z ->
         reply_queue_get (submitted w q r) r 0 = None ->
         exists msg,
           show_html_window w p
           = (envelope (json_dumps (status_error msg)) false,
              with_get (submitted w q r) (reply_queues w, bound))).
Proof.
  intros Hq. split; [|split].
  - intros p resp r Hr. rewrite (test_queue_outcomes w q p Hq).
    fold r. rewrite Hr. split.
    + intros E. now rewrite (dumps_response_ok _ _ E).
    + intros e E. rewrite (dumps_response_raises _ _ _ E).
      now rewrite error_without_documentation.
  - intros p t resp r bound Hp Hw Ht Hb Hr.
    rewrite (show_html_window_waits w q p t Hq Hp Hw Ht).
    fold r. fold bound.
    assert (Hpos : (0 <= bound)%Z)
      by (unfold bound; destruct (0 <? t)%Z eqn:E;
          [apply Z.ltb_lt in E|]; lia).
    assert (Hget : queue_get (submitted w q r) r bound = Got resp).
    { destruct Hb as [Hb | [Hb Hready]].
      - rewrite queue_get_waits by lia. now rewrite Hr.
      - rewrite queue_get_ready; [|lia | exact Hready]. now rewrite Hr. }
    rewrite Hget. split.
    + intros E. now rewrite (dumps_response_ok _ _ E).
    + intros e E. rewrite (dumps_response_raises _ _ _ E).
      now rewrite error_without_documentation.
  - intros p t r bound Hp Hw Ht Hb Hempty.
    rewrite (show_html_window_waits w q p t Hq Hp Hw Ht).
    fold r. fold bound.
    destruct (Z_lt_le_dec bound float_overflow) as [Hf|Hf].
    + rewrite queue_get_too_long; [|lia | exact Hempty].
      rewrite dumps_status_error. eexists. reflexivity.
    + rewrite queue_get_beyond_floats by assumption.
      rewrite dumps_status_error. eexists. reflexivity.
Qed.


(** X10: an accepted [send_message] call whose content is absent or empty
    is answered by the error of the missing content, without the
    documentation, and puts nothing on the queue. *)
Theorem X10_send_message_requires_content (w : World) (top d vp : pydict) :
  collapse_input top = PDict d ->
  token_accepted (get d "tool_unlock_token") = Ok true ->
  validate_parameters d = (None, vp) ->
  get d "operation" = PStr "send_message" ->
  truthy (get d "content") = false ->
  handle_user w top
  = (envelope "Missing required parameter: content" true, w).
Proof.
  intros Hc Htok Hval Hop Hcont.
  assert (Hnr : eq_str (get d "operation") "readme" = false)
    by now rewrite Hop.
  destruct (handle_user_accepted w _ _ _ Hc Htok Hval Hnr) as [-> Hvop].
  rewrite Hop in Hvop. rewrite (dispatch_send_message _ _ Hvop).
  unfold send_message_to_user.
  destruct (validated_no_default d vp "content" _ Hval eq_refl eq_refl)
    as [-> _].
  rewrite Hcont. simpl.
  unfold create_error_response. simpl. reflexivity.
Qed.

End Replies.

Section MessageLists.
Context `{Host}.

(** X11: [check_messages] and [get_message_history] read the list under
    ["messages"], respectively ["history"], of the dictionary that the
    presentation thread answers, take the empty list when the key is
    missing, and return the list with its length as the count, serialised
    by [json.dumps]; when [json.dumps] raises on it, and when the answer is
    not a dictionary, the call returns an error response, without the
    documentation. *)
Theorem X11_message_lists_decoded (w : World) (q : list UIRequest)
  (p : pydict) :
  friday_ui_queue w = Some q ->
  let rc := check_messages_request (reply_queues w)
              (get_default p "mark_as_read" (PBool true))
              (get p "filter_type") (get p "since_timestamp") in
  let rh := plain_ui_request "get_message_history" (reply_queues w) in
  (forall rd l,
      reply_queue_get (submitted w q rc) rc 5 = Some (PDict rd) ->
      get_default rd "messages" (PList []) = PList l ->
      let body := PDict [ ("messages", PList l);
                          ("count", PInt (Z.of_nat (List.length l))) ] in
      (json_dumps_error body = None ->
       fst (check_user_messages w p) = envelope (json_dumps body) false)
      /\ (forall e,
             json_dumps_error body = Some e ->
             fst (check_user_messages w p)
             = envelope ("Error checking messages: " ++ e) true))
  /\ (forall resp,
         reply_queue_get (submitted w q rc) rc 5 = Some resp ->
         is_dict resp = false ->
         fst (check_user_messages w p)
         = envelope
             ("Error checking messages: '" ++ type_name resp
              ++ "' object has no attribute 'get'") true)
  /\ (forall rd l,
         reply_queue_get (submitted w q rh) rh 5 = Some (PDict rd) ->
         get_default rd "history" (PList []) = PList l ->
         let body := PDict [ ("history", PList l);
                             ("count", PInt (Z.of_nat (List.length l))) ] in
         (json_dumps_error body = None ->
          fst (get_message_history w p) = envelope (json_dumps body) false)
         /\ (forall e,
                json_dumps_error body = Some e ->
                fst (get_message_history w p)
                = envelope ("Error getting message history: " ++ e) true))
  /\ (forall resp,
         reply_queue_get (submitted w q rh) rh 5 = Some resp ->
         is_dict resp = false ->
         fst (get_message_history w p)
         = envelope
             ("Error getting message history: '" ++ type_name resp
              ++ "' object has no attribute 'get'") true).
Proof.
  intros Hq rc rh.
  split; [|split; [|split]].
  - intros rd l Hr Hl body. unfold check_user_messages, reply_get.
    rewrite Hq. simpl. fold rc. change (put _ q rc) with (submitted w q rc).
    rewrite queue_get_within by lia. rewrite Hr, Hl. simpl. fold body.
    split.
    + intros E. now rewrite (dumps_response_ok _ _ E).
    + intros e E. rewrite (dumps_response_raises _ _ _ E).
      now rewrite error_without_documentation.
  - intros resp Hr Hd. unfold check_user_messages, reply_get.
    rewrite Hq. simpl. fold rc. change (put _ q rc) with (submitted w q rc).
    rewrite queue_get_within by lia.
    rewrite Hr. rewrite <- error_without_documentation.
    destruct resp; try discriminate; reflexivity.
  - intros rd l Hr Hl body.
    unfold get_message_history, plain_request, reply_get.
    rewrite Hq. simpl. fold rh. change (put _ q rh) with (submitted w q rh).
    rewrite queue_get_within by lia. rewrite Hr. simpl. rewrite Hl. simpl.
    fold body. split.
    + intros E. now rewrite (dumps_response_ok _ _ E).
    + intros e E. rewrite (dumps_response_raises _ _ _ E).
      now rewrite error_without_documentation.
  - intros resp Hr Hd. unfold get_message_history, plain_request, reply_get.
    rewrite Hq. simpl. fold rh. change (put _ q rh) with (submitted w q rh).
    rewrite queue_get_within by lia.
    rewrite Hr. simpl. rewrite <- error_without_documentation.
    destruct resp; try discriminate; reflexivity.
Qed.


End MessageLists.

Section Toasts.
Context `{Host}.




(** X14: [show_toast_notification] never looks at the request queue: for
    every parameter dictionary it leaves the queue, the reply queues and
    the reads as they were; and a toast without message, or with an empty
    one, is refused with the documentation and nothing is handed to the
    engine. *)
Theorem X14_show_toast_needs_message_only (w : World) (p : pydict) :
  (friday_ui_queue (snd (show_toast_notification w p)) = friday_ui_queue w
   /\ reply_queues (snd (show_toast_notification w p)) = reply_queues w
   /\ reply_gets (snd (show_toast_notification w p)) = reply_gets w)
  /\ (truthy (get p "message") = false ->
      show_toast_notification w p
      = (create_error_response
           "Missing required parameter: 'message' is required for show_toast operation"
           true, w)).
Proof.
  split.
  - unfold show_toast_notification, _emit_toast_message.
    repeat match goal with
           | |- context [if ?c then _ else _] => destruct c
           end; try (repeat split; reflexivity).
    destruct (main_engine w); try (repeat split; reflexivity).
    match goal with
    | |- context [emit_message_error ?a ?b] => destruct (emit_message_error a b)
    end; repeat split; reflexivity.
  - intros Hm. unfold show_toast_notification. now rewrite Hm.
Qed.

(** X15: [collect_api_key_from_user] always shows a modal dialog of 550 by
    450 with the timeout 300 and the title made of the service name, and
    always waits for the answer, 305 seconds at most: the window parameters
    of the caller, [wait_for_response] among them, are not read.  When the
    page cannot be generated the error is returned without the
    documentation and nothing is put on the queue. *)
Theorem X15_collect_api_key_fixed_dialog (w : World) (q : list UIRequest)
  (p : pydict) :
  friday_ui_queue w = Some q ->
  let service_name := get_default p "service_name" (PStr "API Service") in
  let service_url := get_default p "service_url" (PStr "") in
  (forall html,
      _generate_api_key_collection_html service_name service_url = Ok html ->
      html <> "" ->
      snd (collect_api_key_from_user w p)
      = with_get
          (submitted w q
             (window_request (reply_queues w) (PStr html)
                (PStr (py_str service_name ++ " API Key Required"))
                (PInt 550) (PInt 450) (PBool true) (PInt 300) (PBool true)
                (PBool true) (PBool true) (PBool false) PNone (PBool false)))
          (reply_queues w, 305%Z))
  /\ (forall e,
         _generate_api_key_collection_html service_name service_url = Raise e ->
         collect_api_key_from_user w p
         = (envelope ("Error collecting API key: " ++ e) true, w)).
Proof.
  intros Hq service_name service_url. split.
  - intros html Hgen Hne. unfold collect_api_key_from_user.
    fold service_name. fold service_url. rewrite Hgen.
    unfold show_html_window, window_param_error. simpl.
    apply String.eqb_neq in Hne. rewrite Hne. simpl.
    rewrite (window_waits w q 300) by auto. reflexivity.
  - intros e Hgen. unfold collect_api_key_from_user.
    fold service_name. fold service_url. rewrite Hgen.
    now rewrite error_without_documentation.
Qed.

End Toasts.

(** ** Sequences of calls *)

Section Sequences.
Context `{Host}.

Lemma reply_queues_mono (w : World) (c : pydict) :
  reply_queues w <= reply_queues (snd (handle_user w c)).
Proof.
  destruct (handle_user_footprint w c)
    as [_ [(_ & En & _) | (q0 & r & _ & _ & _ & En & _)]]; lia.
Qed.

Lemma run_calls_reply_queues_mono (calls : list pydict) (w : World) :
  reply_queues w <= reply_queues (run_calls w calls).
Proof.
  revert w. induction calls as [|c calls IH]; intros w; simpl; [lia|].
  pose proof (reply_queues_mono w c). specialize (IH (snd (handle_user w c))).
  lia.
Qed.

(** X16: over any sequence of calls the consumer's queue only grows at its
    end: the requests that were there stay in place and in order, each call
    adds at most one, the requests added have reply queues that are new and
    different from one another, and every reply queue that is read belongs
    to one of the requests added. *)
Theorem X16_queue_grows_in_order (calls : list pydict) (w : World)
  (q : list UIRequest) :
  friday_ui_queue w = Some q ->
  exists added reads,
    friday_ui_queue (run_calls w calls) = Some (q ++ added)%list
    /\ List.length added <= List.length calls
    /\ NoDup (map reply_queue added)
    /\ Forall (fun r => reply_queues w <= reply_queue r
                        /\ reply_queue r < reply_queues (run_calls w calls))
         added
    /\ reply_gets (run_calls w calls) = (reply_gets w ++ reads)%list
    /\ Forall (fun g => In (fst g) (map reply_queue added)) reads.
Proof.
  revert w q. induction calls as [|c calls IH]; intros w q Hq.
  - exists [], []. simpl. rewrite !app_nil_r.
    repeat split; auto; constructor.
  - simpl.
    pose proof (run_calls_reply_queues_mono calls (snd (handle_user w c)))
      as Hmono.
    destruct (handle_user_footprint w c)
      as [_ [(Eq & En & Eg & _) | (q0 & r & Eq0 & Eq & Er & En & _ & Eg)]].
    + rewrite Hq in Eq.
      destruct (IH _ _ Eq) as (added & reads & A & B & C & D & E & F).
      exists added, reads. rewrite En in D. rewrite Eg in E.
      repeat split; auto.
    + rewrite Hq in Eq0. inversion Eq0; subst q0.
      destruct (IH _ _ Eq) as (added & reads & A & B & C & D & E & F).
      rewrite En in D, Hmono.
      assert (Hfresh : ~ In (reply_queue r) (map reply_queue added)).
      { intros Hin. apply in_map_iff in Hin as (r' & Hr' & Hin').
        rewrite Forall_forall in D. destruct (D r' Hin') as [D1 _]. lia. }
      assert (Hadded : Forall
                (fun r0 => reply_queues w <= reply_queue r0
                           /\ reply_queue r0
                              < reply_queues
                                  (run_calls (snd (handle_user w c)) calls))
                (r :: added)).
      { constructor; [lia|].
        eapply Forall_impl; [|exact D]. simpl. intros a [A1 A2]. lia. }
      assert (Hqueue : friday_ui_queue
                         (run_calls (snd (handle_user w c)) calls)
                       = Some (q ++ r :: added)%list).
      { rewrite A, <- app_assoc. reflexivity. }
      destruct Eg as [Eg | [bound Eg]]; rewrite Eg in E.
      * exists (r :: added), reads.
        repeat split; auto.
        -- simpl. lia.
        -- simpl. constructor; assumption.
        -- eapply Forall_impl; [|exact F]. simpl. intros a Ha. now right.
      * exists (r :: added), ((reply_queue r, bound) :: reads).
        repeat split; auto.
        -- simpl. lia.
        -- simpl. constructor; assumption.
        -- rewrite E, <- app_assoc. reflexivity.
        -- constructor; [simpl; now left|].
           eapply Forall_impl; [|exact F]. simpl. intros a Ha. now right.
Qed.

End Sequences.

Section SequencesWithoutQueue.
Context `{Host}.

(** X17: no call installs the request queue: when the registry has none,
    it has none after any sequence of calls, no reply queue has been made
    and none has been read. *)
Theorem X17_queue_never_installed (calls : list pydict) (w : World) :
  friday_ui_queue w = None ->
  friday_ui_queue (run_calls w calls) = None
  /\ reply_queues (run_calls w calls) = reply_queues w
  /\ reply_gets (run_calls w calls) = reply_gets w.
Proof.
  revert w. induction calls as [|c calls IH]; intros w Hq; simpl; [auto|].
  destruct (handle_user_footprint w c)
    as [_ [(Eq & En & Eg & _) | (q0 & r & Eq0 & _)]]; [|congruence].
  rewrite Hq in Eq. destruct (IH _ Eq) as (A & B & C).
  rewrite A, B, C. auto.
Qed.

(** X18: the three fixed operations of the dashboard do not read what the
    presentation thread answers: any answer within the bound, also one that
    reports a failure, gives the success envelope of the operation. *)
Theorem X18_dashboard_answers_not_read (w : World) (q : list UIRequest)
  (p : pydict) (resp : pyval) :
  friday_ui_queue w = Some q ->
  (let r := plain_ui_request "show_dashboard" (reply_queues w) in
   reply_queue_get (submitted w q r) r 10 = Some resp ->
   fst (show_message_dashboard w p)
   = envelope
       (json_dumps
          (PDict [("status", PStr "success"); ("message", PStr "Dashboard shown")]))
       false)
  /\ (let r := plain_ui_request "hide_dashboard" (reply_queues w) in
      reply_queue_get (submitted w q r) r 5 = Some resp ->
      fst (hide_message_dashboard w p)
      = envelope
          (json_dumps
             (PDict [ ("status", PStr "success");
                      ("message", PStr "Dashboard hidden") ]))
          false)
  /\ (let r := plain_ui_request "clear_messages" (reply_queues w) in
      reply_queue_get (submitted w q r) r 5 = Some resp ->
      fst (clear_message_queues w p)
      = envelope
          (json_dumps
             (PDict [ ("status", PStr "success");
                      ("message", PStr "Message queues cleared") ]))
          false).
Proof.
  intros Hq.
  split; [|split]; intros r Hr;
    unfold show_message_dashboard, hide_message_dashboard,
      clear_message_queues, plain_request, reply_get;
    rewrite Hq; simpl; fold r; change (put _ q r) with (submitted w q r);
    rewrite queue_get_within by lia; rewrite Hr; simpl;
    apply dumps_status_success.
Qed.

End SequencesWithoutQueue.

Section QueueTest.
Context `{Host}.


(** X19: an accepted [test_queue] call puts one request named
    ["test_queue"] that carries the message given, or else the text
    ["Hello from user.py"], the time of the call and the version of the
    tool, and waits 10 seconds for the answer; when none arrives the call
    still returns a success envelope, whose body has the status
    ["timeout"]. *)
Theorem X19_test_queue_request (w : World) (top d vp : pydict)
  (q : list UIRequest) :
  collapse_input top = PDict d ->
  token_accepted (get d "tool_unlock_token") = Ok true ->
  validate_parameters d = (None, vp) ->
  get d "operation" = PStr "test_queue" ->
  friday_ui_queue w = Some q ->
  let r := {| operation := "test_queue";
              data :=
                [ ("message",
                   match dict_get d "message" with
                   | Some v => v
                   | None => PStr "Hello from user.py"
                   end);
                  ("timestamp", PFloat (time_time w));
                  ("user_tool_version", PStr "2025.09.13.009") ];
              reply_queue := reply_queues w |} in
  snd (handle_user w top) = with_get (submitted w q r) (reply_queues w, 10%Z)
  /\ (reply_queue_get (submitted w q r) r 10 = None ->
      fst (handle_user w top)
      = envelope
          (json_dumps
             (status_timeout "Queue test timed out after 10 seconds"))
          false).
Proof.
  intros Hc Htok Hval Hop Hq r.
  assert (Hnr : eq_str (get d "operation") "readme" = false)
    by now rewrite Hop.
  destruct (handle_user_accepted w _ _ _ Hc Htok Hval Hnr) as [-> Hvop].
  rewrite Hop in Hvop. rewrite (dispatch_test_queue _ _ Hvop).
  unfold test_queue_communication, _test_queue_message_passing, reply_get,
    get_default.
  rewrite (validated_value d vp "message" _ Hval eq_refl). simpl.
  rewrite Hq. simpl.
  assert (Er : test_queue_request w (reply_queues w)
                 match
                   match dict_get d "message" with
                   | Some v => Some v
                   | None => None
                   end
                 with
                 | Some v => v
                 | None => PStr "Hello from user.py"
                 end = r).
  { unfold r, test_queue_request. now destruct (dict_get d "message"). }
  rewrite Er. change (put _ q r) with (submitted w q r).
  rewrite queue_get_within by lia.
  destruct (reply_queue_get (submitted w q r) r 10); simpl;
    (split; [reflexivity|]); [discriminate|].
  intros _. apply dumps_status_timeout.
Qed.

End QueueTest.

(** ** Worked instances of the further properties *)

(** A dialog call that gives only its content is validated with the width
    600 of the schema. *)
Lemma X1_validated_parameters_witness :
  validate_parameters (H := silent_host)
    [ ("operation", PStr "show_dialog"); ("tool_unlock_token", PStr "tk42");
      ("html", PStr "<p>hi</p>") ]
  = (None,
     snd (validate_parameters (H := silent_host)
            [ ("operation", PStr "show_dialog");
              ("tool_unlock_token", PStr "tk42");
              ("html", PStr "<p>hi</p>") ]))
  /\ dict_get
       (snd (validate_parameters (H := silent_host)
               [ ("operation", PStr "show_dialog");
                 ("tool_unlock_token", PStr "tk42");
                 ("html", PStr "<p>hi</p>") ])) "width"
     = Some (PInt 600).
Proof.
  assert (Hval : validate_parameters (H := silent_host)
            [ ("operation", PStr "show_dialog");
              ("tool_unlock_token", PStr "tk42"); ("html", PStr "<p>hi</p>") ]
          = (None,
             snd (validate_parameters (H := silent_host)
                    [ ("operation", PStr "show_dialog");
                      ("tool_unlock_token", PStr "tk42");
                      ("html", PStr "<p>hi</p>") ])))
    by (vm_compute; reflexivity).
  split; [exact Hval|].
  destruct (X1_validated_parameters (H := silent_host) _ _ Hval) as [Hv _].
  rewrite (Hv "width" _ eq_refl). reflexivity.
Defined.

(** The request of a dialog call is named ["show_popup"] and has the title
    given. *)
Lemma X5_window_request_witness :
  friday_ui_queue
    (snd (handle_user (H := silent_host) idle_consumer
            (call [ ("operation", PStr "show_dialog");
                    ("tool_unlock_token", PStr "tk42");
                    ("html", PStr "<p>hi</p>"); ("title", PStr "Hi");
                    ("wait_for_response", PBool false) ])))
  = Some ([] ++ [ window_request 0 (PStr "<p>hi</p>") (PStr "Hi") (PInt 600)
                    (PInt 400) (PBool true) (PInt 0) (PBool true) (PBool true)
                    (PBool true) (PBool false) PNone (PBool false) ])%list
  /\ operation
       (window_request 0 (PStr "<p>hi</p>") (PStr "Hi") (PInt 600) (PInt 400)
          (PBool true) (PInt 0) (PBool true) (PBool true) (PBool true)
          (PBool false) PNone (PBool false))
     = "show_popup".
Proof.
  assert (Hput :
    friday_ui_queue
      (snd (handle_user (H := silent_host) idle_consumer
              (call [ ("operation", PStr "show_dialog");
                      ("tool_unlock_token", PStr "tk42");
                      ("html", PStr "<p>hi</p>"); ("title", PStr "Hi");
                      ("wait_for_response", PBool false) ])))
    = Some ([] ++ [ window_request 0 (PStr "<p>hi</p>") (PStr "Hi")
                      (PInt 600) (PInt 400) (PBool true) (PInt 0)
                      (PBool true) (PBool true) (PBool true) (PBool false)
                      PNone (PBool false) ])%list)
    by (vm_compute; reflexivity).
  split; [exact Hput|].
  apply (X5_window_request_carries_parameters (H := silent_host)
           idle_consumer
           (call [ ("operation", PStr "show_dialog");
                   ("tool_unlock_token", PStr "tk42");
                   ("html", PStr "<p>hi</p>"); ("title", PStr "Hi");
                   ("wait_for_response", PBool false) ])
           _ [] _ eq_refl eq_refl Hput eq_refl).
Defined.

(** A popup call that gives only its content passes the window checks. *)
Lemma X6_window_checks_witness :
  validate_parameters (H := silent_host)
    [ ("operation", PStr "show_popup"); ("tool_unlock_token", PStr "tk42");
      ("html", PStr "<p>hi</p>") ]
  = (None,
     snd (validate_parameters (H := silent_host)
            [ ("operation", PStr "show_popup");
              ("tool_unlock_token", PStr "tk42");
              ("html", PStr "<p>hi</p>") ]))
  /\ window_param_error (H := silent_host)
       (with_window_modal (PStr "show_popup")
          (snd (validate_parameters (H := silent_host)
                  [ ("operation", PStr "show_popup");
                    ("tool_unlock_token", PStr "tk42");
                    ("html", PStr "<p>hi</p>") ])))
     = None.
Proof.
  assert (Hval : validate_parameters (H := silent_host)
            [ ("operation", PStr "show_popup");
              ("tool_unlock_token", PStr "tk42"); ("html", PStr "<p>hi</p>") ]
          = (None,
             snd (validate_parameters (H := silent_host)
                    [ ("operation", PStr "show_popup");
                      ("tool_unlock_token", PStr "tk42");
                      ("html", PStr "<p>hi</p>") ])))
    by (vm_compute; reflexivity).
  split; [exact Hval|].
  apply (X6_window_checks_after_validation (H := silent_host) _ _
           (PStr "show_popup") Hval).
  repeat split; reflexivity.
Defined.

(** A popup call of width 0 is refused with the message of the width. *)
Lemma X7_window_bounds_witness :
  int_value (PInt 0) = Some 0%Z
  /\ handle_user (H := silent_host) idle_consumer
       (call [ ("operation", PStr "show_popup");
               ("tool_unlock_token", PStr "tk42");
               ("html", PStr "<p>hi</p>"); ("width", PInt 0) ])
     = (envelope "Parameter 'width' must be a positive integer, got 0." true,
        idle_consumer).
Proof.
  split; [reflexivity|].
  assert (Hval : validate_parameters (H := silent_host)
            [ ("operation", PStr "show_popup");
              ("tool_unlock_token", PStr "tk42");
              ("html", PStr "<p>hi</p>"); ("width", PInt 0) ]
          = (None,
             snd (validate_parameters (H := silent_host)
                    [ ("operation", PStr "show_popup");
                      ("tool_unlock_token", PStr "tk42");
                      ("html", PStr "<p>hi</p>"); ("width", PInt 0) ])))
    by (vm_compute; reflexivity).
  destruct (X7_window_bounds (H := silent_host) idle_consumer
              (call [ ("operation", PStr "show_popup");
                      ("tool_unlock_token", PStr "tk42");
                      ("html", PStr "<p>hi</p>"); ("width", PInt 0) ])
              _ _ eq_refl eq_refl Hval eq_refl eq_refl
              0%Z 400%Z 0%Z eq_refl eq_refl eq_refl) as [Hwidth _].
  apply Hwidth. apply Z.le_refl.
Defined.

(** The answer of the presentation thread to a queue test comes back as it
    is, here with the status ["error"], in a success envelope; and a popup
    with a timeout of 9223372032 seconds, whose wait of 9223372037 is more
    than the lock accepts, answers with a status of its own. *)
Lemma X8_reply_passed_verbatim_witness :
  friday_ui_queue idle_consumer = Some []
  /\ fst (test_queue_communication (H := answering_host) idle_consumer [])
     = envelope
         (json_plain
            (PDict [ ("status", PStr "error");
                     ("messages", PList [PStr "hello"]);
                     ("history", PList [PStr "one"; PStr "two"]) ]))
         false
  /\ exists msg,
       show_html_window (H := silent_host) idle_consumer
         [ ("html", PStr "<p>hi</p>"); ("timeout", PInt 9223372032) ]
       = (envelope (json_plain (status_error msg)) false,
          with_get
            (submitted idle_consumer []
               (window_request_of 0
                  [ ("html", PStr "<p>hi</p>");
                    ("timeout", PInt 9223372032) ]))
            (0, 9223372037%Z)).
Proof.
  split; [reflexivity|].
  split.
  - destruct (X8_reply_passed_verbatim (H := answering_host) idle_consumer
                [] eq_refl) as (Htest & _).
    destruct (Htest [] _ eq_refl) as [Hok _].
    rewrite (Hok eq_refl). reflexivity.
  - destruct (X8_reply_passed_verbatim (H := silent_host) idle_consumer
                [] eq_refl) as (_ & _ & Hlong).
    apply (Hlong [ ("html", PStr "<p>hi</p>"); ("timeout", PInt 9223372032) ]
             9223372032%Z eq_refl eq_refl eq_refl eq_refl).
    reflexivity.
Defined.


(** A message call without content is refused and nothing is queued. *)
Lemma X10_send_message_requires_content_witness :
  truthy (get [ ("operation", PStr "send_message");
                ("tool_unlock_token", PStr "tk42") ] "content") = false
  /\ handle_user (H := silent_host) idle_consumer
       (call [ ("operation", PStr "send_message");
               ("tool_unlock_token", PStr "tk42") ])
     = (envelope "Missing required parameter: content" true, idle_consumer).
Proof.
  split; [reflexivity|].
  assert (Hval : validate_parameters (H := silent_host)
            [ ("operation", PStr "send_message");
              ("tool_unlock_token", PStr "tk42") ]
          = (None,
             snd (validate_parameters (H := silent_host)
                    [ ("operation", PStr "send_message");
                      ("tool_unlock_token", PStr "tk42") ])))
    by (vm_compute; reflexivity).
  apply (X10_send_message_requires_content (H := silent_host) idle_consumer
           (call [ ("operation", PStr "send_message");
                   ("tool_unlock_token", PStr "tk42") ])
           _ _ eq_refl eq_refl Hval eq_refl eq_refl).
Defined.

(** The list of messages in the answer comes back with its length, whatever
    status the answer carries. *)
Lemma X11_message_lists_decoded_witness :
  friday_ui_queue idle_consumer = Some []
  /\ fst (check_user_messages (H := answering_host) idle_consumer [])
     = envelope
         (json_plain
            (PDict [ ("messages", PList [PStr "hello"]); ("count", PInt 1) ]))
         false
  /\ fst (get_message_history (H := answering_host) idle_consumer [])
     = envelope
         (json_plain
            (PDict [ ("history", PList [PStr "one"; PStr "two"]);
                     ("count", PInt 2) ]))
         false.
Proof.
  split; [reflexivity|].
  destruct (X11_message_lists_decoded (H := answering_host) idle_consumer []
              [] eq_refl) as (Hc & _ & Hh & _).
  split.
  - destruct (Hc _ _ eq_refl eq_refl) as [Hok _].
    rewrite (Hok eq_refl). reflexivity.
  - destruct (Hh _ _ eq_refl eq_refl) as [Hok _].
    rewrite (Hok eq_refl). reflexivity.
Defined.



(** The dialog for an API key is 550 by 450, modal, with a timeout of 300
    seconds and a wait of 305. *)
Lemma X15_collect_api_key_fixed_dialog_witness :
  friday_ui_queue idle_consumer = Some []
  /\ snd (collect_api_key_from_user (H := silent_host) idle_consumer
            [ ("service_name", PStr "Acme") ])
     = with_get
         (submitted idle_consumer []
            (window_request 0
               (PStr "<html><title>Acme API Key Required</title></html>")
               (PStr "Acme API Key Required")
               (PInt 550) (PInt 450) (PBool true) (PInt 300) (PBool true)
               (PBool true) (PBool true) (PBool false) PNone (PBool false)))
         (0, 305%Z).
Proof.
  split; [reflexivity|].
  destruct (X15_collect_api_key_fixed_dialog (H := silent_host) idle_consumer
              [] [ ("service_name", PStr "Acme") ] eq_refl) as (Hput & _).
  apply (Hput "<html><title>Acme API Key Required</title></html>" eq_refl).
  discriminate.
Defined.

(** Two calls, a popup that does not wait and a message check, leave the
    queue that was there with what they added behind it. *)
Lemma X16_queue_grows_in_order_witness :
  friday_ui_queue idle_consumer = Some []
  /\ exists added reads,
       friday_ui_queue
         (run_calls (H := silent_host) idle_consumer
            [ call [ ("operation", PStr "show_popup");
                     ("tool_unlock_token", PStr "tk42");
                     ("html", PStr "<p>hi</p>");
                     ("wait_for_response", PBool false) ];
              call [ ("operation", PStr "check_messages");
                     ("tool_unlock_token", PStr "tk42") ] ])
       = Some ([] ++ added)%list
       /\ List.length added <= 2
       /\ NoDup (map reply_queue added)
       /\ reply_gets
            (run_calls (H := silent_host) idle_consumer
               [ call [ ("operation", PStr "show_popup");
                        ("tool_unlock_token", PStr "tk42");
                        ("html", PStr "<p>hi</p>");
                        ("wait_for_response", PBool false) ];
                 call [ ("operation", PStr "check_messages");
                        ("tool_unlock_token", PStr "tk42") ] ])
          = ([] ++ reads)%list.
Proof.
  split; [reflexivity|].
  destruct (X16_queue_grows_in_order (H := silent_host)
              [ call [ ("operation", PStr "show_popup");
                       ("tool_unlock_token", PStr "tk42");
                       ("html", PStr "<p>hi</p>");
                       ("wait_for_response", PBool false) ];
                call [ ("operation", PStr "check_messages");
                       ("tool_unlock_token", PStr "tk42") ] ]
              idle_consumer [] eq_refl)
    as (added & reads & Hq & Hlen & Hnd & _ & Hg & _).
  exists added, reads. repeat split; assumption.
Defined.

(** Without the presentation thread no sequence of calls installs a queue
    or waits for an answer. *)
Lemma X17_queue_never_installed_witness :
  friday_ui_queue no_consumer = None
  /\ friday_ui_queue
       (run_calls (H := silent_host) no_consumer
          [ call [ ("operation", PStr "show_popup");
                   ("tool_unlock_token", PStr "tk42");
                   ("html", PStr "<p>hi</p>") ];
            call [ ("operation", PStr "send_message");
                   ("tool_unlock_token", PStr "tk42");
                   ("content", PStr "hi") ] ])
     = None.
Proof.
  split; [reflexivity|].
  apply (X17_queue_never_installed (H := silent_host)
           [ call [ ("operation", PStr "show_popup");
                    ("tool_unlock_token", PStr "tk42");
                    ("html", PStr "<p>hi</p>") ];
             call [ ("operation", PStr "send_message");
                    ("tool_unlock_token", PStr "tk42");
                    ("content", PStr "hi") ] ]
           no_consumer eq_refl).
Defined.

(** An answer with the status ["error"] to the request that shows the
    dashboard is still reported as a success. *)
Lemma X18_dashboard_answers_not_read_witness :
  friday_ui_queue idle_consumer = Some []
  /\ fst (show_message_dashboard (H := answering_host) idle_consumer [])
     = envelope
         (json_plain
            (PDict [ ("status", PStr "success");
                     ("message", PStr "Dashboard shown") ]))
         false.
Proof.
  split; [reflexivity|].
  destruct (X18_dashboard_answers_not_read (H := answering_host)
              idle_consumer [] []
              (PDict [ ("status", PStr "error");
                       ("messages", PList [PStr "hello"]);
                       ("history", PList [PStr "one"; PStr "two"]) ])
              eq_refl) as (Hshow & _).
  rewrite (Hshow eq_refl). reflexivity.
Defined.

(** A queue test that nobody answers comes back as a timeout after a wait
    of 10 seconds. *)
Lemma X19_test_queue_request_witness :
  friday_ui_queue idle_consumer = Some []
  /\ fst (handle_user (H := silent_host) idle_consumer
            (call [ ("operation", PStr "test_queue");
                    ("tool_unlock_token", PStr "tk42");
                    ("message", PStr "ping") ]))
     = envelope
         (json_plain (status_timeout "Queue test timed out after 10 seconds"))
         false
  /\ reply_gets
       (snd (handle_user (H := silent_host) idle_consumer
               (call [ ("operation", PStr "test_queue");
                       ("tool_unlock_token", PStr "tk42");
                       ("message", PStr "ping") ])))
     = [(0, Whole 10)].
Proof.
  split; [reflexivity|].
  assert (Hval : validate_parameters (H := silent_host)
            [ ("operation", PStr "test_queue");
              ("tool_unlock_token", PStr "tk42"); ("message", PStr "ping") ]
          = (None,
             snd (validate_parameters (H := silent_host)
                    [ ("operation", PStr "test_queue");
                      ("tool_unlock_token", PStr "tk42");
                      ("message", PStr "ping") ])))
    by (vm_compute; reflexivity).
  destruct (X19_test_queue_request (H := silent_host) idle_consumer
              (call [ ("operation", PStr "test_queue");
                      ("tool_unlock_token", PStr "tk42");
                      ("message", PStr "ping") ])
              _ _ [] eq_refl eq_refl Hval eq_refl eq_refl) as (Hw & Ht).
  split.
  - rewrite (Ht eq_refl). reflexivity.
  - rewrite Hw. reflexivity.
Defined.

(** A popup call without a token misses a required parameter and is
    rejected by the validation. *)
Lemma X2_validation_rejects_witness :
  missing_required
    (required_for [ ("operation", PStr "show_popup") ])
    [ ("operation", PStr "show_popup") ]
  /\ exists e vp,
       validate_parameters (H := silent_host)
         [ ("operation", PStr "show_popup") ] = (Some e, vp).
Proof.
  assert (Hm : missing_required
                 (required_for [ ("operation", PStr "show_popup") ])
                 [ ("operation", PStr "show_popup") ]).
  { exists "tool_unlock_token". split; [|reflexivity].
    right. left. reflexivity. }
  split; [exact Hm|].
  apply (proj2 (proj1 (X2_validation_rejects_exactly_violations
                         (H := silent_host)
                         [ ("operation", PStr "show_popup") ]))).
  right. left. exact Hm.
Defined.

(** The server's handler record is dropped before anything is read, and an
    input that is not a dictionary is refused. *)
Lemma X3_placeholder_collapse_witness :
  handle_user (H := silent_host) idle_consumer
    (("handler_info", PDict [("name", PStr "user")])
       :: call [ ("operation", PStr "readme") ])
  = handle_user (H := silent_host) idle_consumer
      (call [ ("operation", PStr "readme") ])
  /\ handle_user (H := silent_host) idle_consumer [ ("input", PStr "oops") ]
     = (create_error_response (H := silent_host)
          "Invalid input format. Expected dictionary with tool parameters."
          true, idle_consumer).
Proof.
  destruct (X3_placeholder_collapse (H := silent_host) idle_consumer)
    as (Hinfo & _ & Hbad).
  split.
  - apply Hinfo.
  - apply Hbad. reflexivity.
Defined.

(** An integer given as the token is reported as an exception of the body,
    not as a missing authorization. *)
Lemma X4_token_edges_witness :
  token_accepted (H := silent_host) (PInt 7)
  = Raise "'int' object has no attribute 'startswith'"
  /\ handle_user (H := silent_host) idle_consumer
       (call [ ("operation", PStr "test_queue");
               ("tool_unlock_token", PInt 7) ])
     = (create_error_response (H := silent_host)
          "Error in user interaction operation: 'int' object has no attribute 'startswith'"
          true, idle_consumer).
Proof.
  destruct (X4_token_edges (H := silent_host) idle_consumer)
    as (Htok & Hcall & _).
  split.
  - apply (Htok (PInt 7) eq_refl).
  - apply (Hcall (call [ ("operation", PStr "test_queue");
                         ("tool_unlock_token", PInt 7) ])
             [ ("operation", PStr "test_queue");
               ("tool_unlock_token", PInt 7) ]
             eq_refl eq_refl eq_refl eq_refl).
Defined.

(** A toast without a message is refused with the documentation. *)
Lemma X14_show_toast_needs_message_witness :
  truthy (get [ ("level", PStr "info") ] "message") = false
  /\ show_toast_notification (H := silent_host) idle_consumer
       [ ("level", PStr "info") ]
     = (create_error_response (H := silent_host)
          "Missing required parameter: 'message' is required for show_toast operation"
          true, idle_consumer).
Proof.
  split; [reflexivity|].
  apply (proj2 (X14_show_toast_needs_message_only (H := silent_host)
                  idle_consumer [ ("level", PStr "info") ])).
  reflexivity.
Defined.
